(** * add_photo_locations_from_google_history: the nearest-timestamp matcher

    A shallow embedding of [add_photo_locations_from_google_history.py]:
    the loader of a Google Takeout location history, the index built over
    it ([LocationHistory]), the nearest-timestamp query and the match
    decision of [add_location_to_photo].

    Python objects are embedded as follows.
    - An [int] is a [Z]; a [str] over the code points below 256 is a
      [string], one character for each code point; a [float] is an IEEE
      binary64 value, a [spec_float] at precision 53.
    - A raised exception is the [Raise] case of [result]; [try/except] is
      a match on it.
    - A list is a [list]; the dict keyed by timestamp is a [gmap Z].
    - A location record, a dict with a fixed set of keys in the Takeout
      export, is a record with one optional field per optional key. *)

From Stdlib Require Import ZArith Lia String Ascii List Sorted Permutation SpecFloat OrdersEx.
From stdpp Require Import gmap strings list.
From Equations Require Import Equations.

Local Open Scope Z_scope.

(** ** Values and exceptions *)

(** A dict key, and the value decoded from JSON under ["timestampMs"]: a
    [str] in the Takeout export, an [int] where a file has numbers. *)
Inductive pyval : Type :=
| PyStr (s : string)
| PyInt (z : Z).

#[global] Instance pyval_eq_dec : EqDecision pyval.
Proof. solve_decision. Defined.

(** The exception classes that the program can raise.  [FromtimestampError]
    stands for what [datetime.fromtimestamp] raises on an instant it cannot
    represent: [ValueError], [OverflowError] or [OSError], by magnitude and
    C library. *)
Inductive exception : Type :=
| KeyError (key : pyval)
| ValueError (msg : string)
| IndexError
| TypeError
| OverflowError
| ZeroDivisionError
| FromtimestampError.

Inductive result (A : Type) : Type :=
| Ok (a : A)
| Raise (e : exception).
Arguments Ok {A} a.
Arguments Raise {A} e.

#[global] Instance result_ret : MRet result := @Ok.
#[global] Instance result_bind : MBind result :=
  λ A B f m, match m with Ok a => f a | Raise e => Raise e end.
#[global] Instance result_fmap : FMap result :=
  λ A B f m, match m with Ok a => Ok (f a) | Raise e => Raise e end.

(** ** Python built-ins used by the program *)

Module Py.

(** [[f(x) for x in l]], evaluated left to right. *)
Fixpoint comprehension {A B} (f : A → result B) (l : list A) : result (list B) :=
  match l with
  | [] => Ok []
  | x :: l' => y ← f x; ys ← comprehension f l'; Ok (y :: ys)
  end.

(** [l[i]] for [i >= 0]. *)
Definition getitem {A} (l : list A) (i : nat) : result A :=
  match l !! i with
  | Some v => Ok v
  | None => Raise IndexError
  end.

(** [l[i:j]] for [0 <= i] and [0 <= j]: both bounds are clipped to the list. *)
Definition slice {A} (l : list A) (i j : nat) : list A :=
  drop i (take j l).

(** [a < b], as [list.sort] calls it on two keys. *)
Definition lt (a b : pyval) : result bool :=
  match a, b with
  | PyInt x, PyInt y => Ok (x <? y)
  | PyStr s, PyStr t => Ok (String.ltb s t)
  | _, _ => Raise TypeError
  end.

(** *** [int(s)] for a [str] *)

(** The blanks that [int] skips at either end: the ASCII ones, tab to
    carriage return and the space, and of the code points from 128 on
    the next-line control and the no-break space.  The separators 28 to
    31, blanks for [str.isspace], are none for [int]. *)
Definition isspace (c : ascii) : bool :=
  let n := Z.of_N (N_of_ascii c) in
  ((9 <=? n) && (n <=? 13)) || (n =? 32) || (n =? 133) || (n =? 160).

Definition digit (c : ascii) : option Z :=
  let n := Z.of_N (N_of_ascii c) in
  if (48 <=? n) && (n <=? 57) then Some (n - 48) else None.

Fixpoint lstrip (l : list ascii) : list ascii :=
  match l with
  | c :: l' => if isspace c then lstrip l' else l
  | [] => []
  end.

Definition strip (l : list ascii) : list ascii :=
  rev (lstrip (rev (lstrip l))).

(** Decimal digits, with single underscores allowed between two digits.
    [after_digit] tells whether the previous character was a digit. *)
Fixpoint digits (acc : Z) (after_digit : bool) (l : list ascii) : option Z :=
  match l with
  | [] => if after_digit then Some acc else None
  | c :: l' =>
      match digit c with
      | Some d => digits (10 * acc + d) true l'
      | None =>
          if Ascii.eqb c "_" && after_digit then digits acc false l' else None
      end
  end.

(** The first pass over the digits: their number, up to the first
    character that is neither a digit nor an underscore; [None] where an
    underscore follows another or is the last character of the run.
    [after_underscore] tells whether the previous character was one. *)
Fixpoint scan (n : Z) (after_underscore : bool) (l : list ascii) : option Z :=
  match l with
  | [] => if after_underscore then None else Some n
  | c :: l' =>
      match digit c with
      | Some _ => scan (n + 1) false l'
      | None =>
          if Ascii.eqb c "_" then
            if after_underscore then None else scan n true l'
          else
            if after_underscore then None else Some n
      end
  end.

(** The two [ValueError]s of [int]: CPython's messages, the first less
    the quoted literal, the second less the number of digits found. *)
Definition invalid_literal : exception :=
  ValueError "invalid literal for int() with base 10".

Definition exceeds_limit : exception :=
  ValueError "Exceeds the limit (4300 digits) for integer string conversion".

(** The digits after the sign.  A run of more than 4300 digits is
    refused (Python 3.11, [sys.int_max_str_digits] at its default) once
    its underscores are checked and before the rest of the string is
    looked at. *)
Definition int_of_digits (l : list ascii) : result Z :=
  match l with
  | "_"%char :: _ => Raise invalid_literal
  | _ =>
      match scan 0 false l with
      | None => Raise invalid_literal
      | Some n =>
          if 4300 <? n then Raise exceeds_limit
          else
            match digits 0 false l with
            | Some z => Ok z
            | None => Raise invalid_literal
            end
      end
  end.

Definition int_of_str (s : string) : result Z :=
  match strip (list_ascii_of_string s) with
  | "-"%char :: l => Z.opp <$> int_of_digits l
  | "+"%char :: l => int_of_digits l
  | l => int_of_digits l
  end.

(** [int(v)] *)
Definition int (v : pyval) : result Z :=
  match v with
  | PyInt z => Ok z
  | PyStr s => int_of_str s
  end.

(** *** Floats *)

Definition float : Type := spec_float.

Definition float_div : float → float → float := SFdiv 53 1024.

(** [float(z)]: the nearest double, [OverflowError] beyond the finite range. *)
Definition float_of_int (z : Z) : result float :=
  match binary_normalize 53 1024 z 0 false with
  | S754_infinity _ => Raise OverflowError
  | f => Ok f
  end.

(** [a / b] on two ints: the double nearest to the exact quotient.  The
    operands enter [SFdiv] as integers with exponent 0; its core aligns the
    mantissas itself before dividing and rounding. *)
Definition int_truediv (a b : Z) : result float :=
  let sign (z : Z) := match z with Zneg _ => true | _ => false end in
  match a, b with
  | _, Z0 => Raise ZeroDivisionError
  | Z0, _ => Ok (S754_zero (sign b))
  | (Zpos p | Zneg p), (Zpos q | Zneg q) =>
      match float_div (S754_finite (sign a) p 0) (S754_finite (sign b) q 0) with
      | S754_infinity _ => Raise OverflowError
      | f => Ok f
      end
  end.

(** [z / f] for an int and a float: the int is converted first. *)
Definition int_div_float (z : Z) (f : float) : result float :=
  x ← float_of_int z;
  match f with
  | S754_zero _ => Raise ZeroDivisionError
  | _ => Ok (float_div x f)
  end.

(** [int(f)]: truncation toward zero. *)
Definition int_of_float (f : float) : result Z :=
  match f with
  | S754_zero _ => Ok 0
  | S754_infinity _ => Raise OverflowError
  | S754_nan => Raise (ValueError "cannot convert float NaN to integer")
  | S754_finite s m e =>
      let a := match e with
               | Zneg k => Z.shiftr (Zpos m) (Zpos k)
               | _ => Z.shiftl (Zpos m) e
               end in
      Ok (if s then - a else a)
  end.

(** The literal [1e7]. *)
Definition float_1e7 : float := S754_finite false 5368709120000000 (-29).

(** *** [sorted(l, key=key)]

    [sorted] is stable and uses no comparison but [<] on the keys.  Every
    stable comparison sort returns the same list, so it is embedded as a
    stable insertion sort; a [<] between a [str] and an [int] raises. *)
Section Sorted.
Context {A : Type} (key : A → pyval).

Fixpoint insert (x : A) (l : list A) : result (list A) :=
  match l with
  | [] => Ok [x]
  | y :: l' =>
      b ← lt (key y) (key x);
      if b : bool then r ← insert x l'; Ok (y :: r) else Ok (x :: l)
  end.

Fixpoint sorted (l : list A) : result (list A) :=
  match l with
  | [] => Ok []
  | x :: l' => s ← sorted l'; insert x s
  end.
End Sorted.

(** *** [bisect.bisect_left(a, x)]

<<
    lo, hi = 0, len(a)
    while lo < hi:
        mid = (lo + hi) // 2
        if a[mid] < x: lo = mid + 1
        else: hi = mid
    return lo
>> *)
Equations? bisect_loop (a : list Z) (x : Z) (lo hi : nat) : result nat
  by wf (hi - lo)%nat Nat.lt :=
  bisect_loop a x lo hi with decide (lo < hi)%nat => {
    | left _ with getitem a ((lo + hi) / 2)%nat => {
        | Ok v with decide (v < x) => {
            | left _ := bisect_loop a x (S ((lo + hi) / 2)%nat) hi;
            | right _ := bisect_loop a x lo ((lo + hi) / 2)%nat };
        | Raise e := Raise e };
    | right _ := Ok lo }.
Proof.
  all: clear bisect_loop;
    change (fst (Nat.divmod (lo + hi) 1 0 1)) with ((lo + hi) / 2)%nat;
    pose proof (Nat.div_mod_eq (lo + hi) 2);
    pose proof (Nat.mod_upper_bound (lo + hi) 2 ltac:(lia)); lia.
Qed.

Definition bisect_left (a : list Z) (x : Z) : result nat :=
  bisect_loop a x 0 (length a).

(** *** [min(l, key=key)]: the first element whose key is least.
    (The message is that of CPython up to 3.11.) *)
Definition min {A} (key : A → Z) (l : list A) : result A :=
  match l with
  | [] => Raise (ValueError "min() arg is an empty sequence")
  | x :: l' => Ok (foldl (λ best y, if key y <? key best then y else best) x l')
  end.

(** *** [datetime]

    The program builds datetimes with [datetime.fromtimestamp(msec / 1000,
    tz=tz)] only, so a datetime is represented by that [msec] and [tz].
    [fromtimestamp] accepts the instants of the years 1 to 9999; in
    milliseconds since the epoch that is [MIN_MSEC] to [MAX_MSEC].  With
    [tz=None] the instant is read in local time, taken to be UTC here. *)
Inductive timezone : Type := utc.

Record datetime : Type := { msec_of : Z; tzinfo : option timezone }.

Definition MIN_MSEC : Z := -62135596800000.
Definition MAX_MSEC : Z := 253402300799999.

Definition fromtimestamp_div_1000 (msec : Z) (tz : option timezone) : result datetime :=
  if (MIN_MSEC <=? msec) && (msec <=? MAX_MSEC)
  then Ok {| msec_of := msec; tzinfo := tz |}
  else Raise FromtimestampError.

(** *** [str.lower], [str.endswith], and [>=] against an [int] *)

(** Below code point 256 the capital letters are A to Z and 192 to 222,
    the multiplication sign at 215 apart; each has its small letter 32
    further on. *)
Definition lower_char (c : ascii) : ascii :=
  let n := N_of_ascii c in
  if ((65 <=? n) && (n <=? 90) || (192 <=? n) && (n <=? 222) && negb (n =? 215))%N
  then ascii_of_N (n + 32) else c.

Fixpoint lower (s : string) : string :=
  match s with
  | EmptyString => EmptyString
  | String c s' => String (lower_char c) (lower s')
  end.

Definition endswith (s suffix : string) : bool :=
  let n := String.length s in
  let m := String.length suffix in
  (m <=? n)%nat && String.eqb (substring (n - m) m s) suffix.

(** [v >= 0] for a float or [None]: [-0.0 >= 0] holds, [nan >= 0] does
    not, and [None >= 0] raises. *)
Definition ge_0 (v : option float) : result bool :=
  match v with
  | None => Raise TypeError
  | Some f =>
      Ok match SFcompare f (S754_zero false) with
         | Some (Eq | Gt) => true
         | _ => false
         end
  end.

(** [z >= v] for an int [z]: against a [str] it raises. *)
Definition int_ge (z : Z) (v : pyval) : result bool :=
  match v with
  | PyInt d => Ok (z >=? d)
  | PyStr _ => Raise TypeError
  end.

End Py.

(** ** The program *)

(** <<
def msec_to_datetime(msec: int, utc: bool = False):
    tz = timezone.utc if utc else None
    return datetime.fromtimestamp(msec / 1000, tz=tz)
>> *)
Definition msec_to_datetime (msec : Z) (utc : bool) : result Py.datetime :=
  let tz := if utc then Some Py.utc else None in
  Py.fromtimestamp_div_1000 msec tz.

(** One element of the ["locations"] array of the decoded JSON file: a
    dict in which each of the three keys the program reads may be absent. *)
Record json_location : Type := {
  json_timestampMs : option pyval;
  json_latitudeE7 : option Z;
  json_longitudeE7 : option Z
}.

(** [json.load(f)]: the decoded file, a dict that may lack ["locations"]. *)
Record json_file : Type := { locations : option (list json_location) }.

(** A location dict once the loader has added ["datetime"], ["latitude"]
    and ["longitude"] to it.  [None] in the last two is Python's [None]. *)
Record location : Type := {
  timestampMs : pyval;
  latitudeE7 : option Z;
  longitudeE7 : option Z;
  datetime : Py.datetime;
  latitude : option Py.float;
  longitude : option Py.float
}.

(** [d[key]] on a dict whose entry for [key] is [entry]. *)
Definition subscript {A} (key : string) (entry : option A) : result A :=
  match entry with
  | Some v => Ok v
  | None => Raise (KeyError (PyStr key))
  end.

(** The body of the [for] loop of [_load_location_history]. *)
Definition load_location (l : json_location) : result location :=
  ts ← subscript "timestampMs" (json_timestampMs l);
  msec ← Py.int ts;
  dt ← msec_to_datetime msec true;
  lat ← match json_latitudeE7 l with
        | Some v => Some <$> Py.int_div_float v Py.float_1e7
        | None => Ok None
        end;
  lon ← match json_longitudeE7 l with
        | Some v => Some <$> Py.int_div_float v Py.float_1e7
        | None => Ok None
        end;
  Ok {| timestampMs := ts;
        latitudeE7 := json_latitudeE7 l;
        longitudeE7 := json_longitudeE7 l;
        datetime := dt;
        latitude := lat;
        longitude := lon |}.

(** [try: body  except KeyError: raise ValueError(msg)] *)
Definition except_KeyError {A} (body : result A) (msg : string) : result A :=
  match body with
  | Raise (KeyError _) => Raise (ValueError msg)
  | r => r
  end.

Definition _load_location_history (location_data : json_file) : result (list location) :=
  except_KeyError
    (location_history ← subscript "locations" (locations location_data);
     location_history ← Py.comprehension load_location location_history;
     Py.sorted timestampMs location_history)
    "Location history not found in JSON file".

Definition _extract_timestamps_from_history (location_history : list location)
  : result (list Z) :=
  Py.comprehension (λ x, Py.int (timestampMs x)) location_history.

(** [{int(x["timestampMs"]): x for x in self.location_history}]: entries
    are written left to right, a later one replacing an earlier one. *)
Definition _location_history_to_dict_by_timestamp (location_history : list location)
  : result (gmap Z location) :=
  foldl (λ d x, d ← d; k ← Py.int (timestampMs x); Ok (<[k := x]> d))
        (Ok ∅) location_history.

Record LocationHistory : Type := {
  filename : string;
  location_history : list location;
  timestamps : list Z;
  location_dict : gmap Z location
}.

(** [LocationHistory(filename)], where [location_data] is what
    [json.load] returns for the file. *)
Definition __init__ (filename : string) (location_data : json_file)
  : result LocationHistory :=
  location_history ← _load_location_history location_data;
  timestamps ← _extract_timestamps_from_history location_history;
  location_dict ← _location_history_to_dict_by_timestamp location_history;
  Ok {| filename := filename;
        location_history := location_history;
        timestamps := timestamps;
        location_dict := location_dict |}.

(** The indices are natural numbers, on which [i - 1] is 0 for [i = 0]
    as [max(0, i - 1)] is. *)
Definition _nearest_location_from_timestamp (self : LocationHistory) (timestamp : Z)
  : result Z :=
  i ← Py.bisect_left (timestamps self) timestamp;
  Py.min (λ t, Z.abs (timestamp - t))
      (Py.slice (timestamps self) (Nat.max 0 (i - 1)) (i + 2)).

(** [nearest_location(timestamp)].  [msec] is the value of
    [int(timestamp.timestamp() * 1000)], computed by the caller: that
    conversion of a datetime is floating-point code outside the embedding. *)
Definition nearest_location (self : LocationHistory) (msec : Z)
  : result (location * Py.float) :=
  nearest ← _nearest_location_from_timestamp self msec;
  nearest_record ← match location_dict self !! nearest with
                    | Some r => Ok r
                    | None => Raise (KeyError (PyInt nearest))
                    end;
  ts ← Py.int (timestampMs nearest_record);
  delta ← Py.int_truediv (Z.abs (ts - msec)) 1000;
  Ok (nearest_record, delta).

Definition __len__ (self : LocationHistory) : nat :=
  length (location_history self).

(** *** The match decision *)

(** What [add_location_to_photo] reads of a [PhotoInfo].  [date_msec] is
    [int(photo.date.timestamp() * 1000)], see [nearest_location]. *)
Record PhotoInfo : Type := {
  uuid : string;
  original_filename : string;
  date_msec : Z
}.

(** What the Photos library does when [add_location_to_photo] updates it:
    the [try] block raises before the photo is touched, finds no photo
    for the uuid, raises in the [location] setter, raises in [album.add],
    or completes. *)
Inductive photoslibrary : Type :=
| library_raises
| photo_not_found
| setter_raises
| album_raises
| library_updates.

(** The observable effects of [add_location_to_photo], in order. *)
Inductive effect : Type :=
| echo_found (photo : PhotoInfo) (nearest_delta : Z) (latitude longitude : option Py.float)
| echo_no_access (uuid : string)
| set_location (uuid : string) (latitude longitude : option Py.float)
| echo_added
| album_add (album : string) (uuid : string)
| echo_error.

Definition add_location_to_photo (photo : PhotoInfo) (location_history : LocationHistory)
    (delta : Z) (dry_run : bool) (album : option string) (photolib : photoslibrary)
  : result (Z * list effect) :=
  '(nearest_location, nearest_delta) ← nearest_location location_history (date_msec photo);
  nearest_delta ← Py.int_of_float nearest_delta;
  if nearest_delta >=? delta then Ok (0, [])
  else
    let found := echo_found photo nearest_delta
                   (latitude nearest_location) (longitude nearest_location) in
    let set := set_location (uuid photo)
                 (latitude nearest_location) (longitude nearest_location) in
    if dry_run then Ok (1, [found])
    else
      match photolib, album with
      | library_raises, _ => Ok (0, [found; echo_error])
      | photo_not_found, _ => Ok (0, [found; echo_no_access (uuid photo)])
      | setter_raises, _ => Ok (0, [found; echo_error])
      | album_raises, Some _ => Ok (0, [found; set; echo_added; echo_error])
      | _, Some a => Ok (1, [found; set; echo_added; album_add a (uuid photo)])
      | _, None => Ok (1, [found; set; echo_added])
      end.

(** *** The osxphotos hook *)

Definition DEFAULT_TIME_DELTA : Z := 60.

(** A [PhotoInfo] with the further attributes that the hook and [main]
    read.  [location] is the pair [photo.location], [(None, None)] for a
    photo without one. *)
Record LibraryPhoto : Type := {
  info : PhotoInfo;
  shared : bool;
  isphoto : bool;
  location_of : option Py.float * option Py.float
}.

(** [photo.location == (None, None)] *)
Definition no_location (photo : LibraryPhoto) : bool :=
  match location_of photo with
  | (None, None) => true
  | _ => false
  end.

(** [results.exported], the paths of the exported files. *)
Record ExportResults : Type := { exported : list string }.

(** A value stored under an exif tag: a coordinate as passed in, a
    literal, or the string [f"{lat} {lon}"]. *)
Inductive exifvalue : Type :=
| exif_number (v : option Py.float)
| exif_str (s : string)
| exif_coordinates (lat lon : option Py.float).

(** The observable effects of the hook, in order. *)
Inductive hook_effect : Type :=
| verbose_loading (history_file : string)
| verbose_found (photo : PhotoInfo) (nearest_delta : Z) (latitude longitude : option Py.float)
| verbose_adding (path : string)
| setvalue (path exiftag : string) (val : exifvalue)
| echo_exiftool_warning (path warning : string)
| echo_exiftool_error (path error : string).

(** What exiftool reports for a file once the tags are set: its
    [warning] and its [error], [None] where the attribute is empty. *)
Definition exiftool_status : Type := string → option string * option string.

(** The dict [exif] of [exiftool_add_location], in insertion order. *)
Definition exif_tags (path : string) (photo : LibraryPhoto) (lat lon : option Py.float)
  : result (list (string * exifvalue)) :=
  if isphoto photo && negb (Py.endswith (Py.lower path) ".mov") then
    north ← Py.ge_0 lat;
    east ← Py.ge_0 lon;
    Ok [("EXIF:GPSLatitude", exif_number lat);
        ("EXIF:GPSLongitude", exif_number lon);
        ("EXIF:GPSLatitudeRef", exif_str (if north : bool then "N" else "S"));
        ("EXIF:GPSLongitudeRef", exif_str (if east : bool then "E" else "W"))]
  else
    Ok [("Keys:GPSCoordinates", exif_coordinates lat lon);
        ("UserData:GPSCoordinates", exif_coordinates lat lon)].

(** [exiftool_add_location(result, photo, lat, lon)], with [path] for the
    parameter [result]: the effects, and the exception if one is raised.
    No value of [exif] is a list, so every tag is set once. *)
Definition exiftool_add_location (exiftool : exiftool_status) (path : string)
    (photo : LibraryPhoto) (lat lon : option Py.float)
  : list hook_effect * result () :=
  match exif_tags path photo lat lon with
  | Raise e => ([], Raise e)
  | Ok exif =>
      (((λ '(exiftag, val), setvalue path exiftag val) <$> exif)
       ++ match fst (exiftool path) with
          | Some w => [echo_exiftool_warning path w]
          | None => []
          end
       ++ match snd (exiftool path) with
          | Some e => [echo_exiftool_error path e]
          | None => []
          end,
       Ok ())
  end.

(** The loop over [results.exported]: it stops at the first exception. *)
Fixpoint add_location_to_exported (exiftool : exiftool_status) (files : list string)
    (photo : LibraryPhoto) (lat lon : option Py.float)
  : list hook_effect * result () :=
  match files with
  | [] => ([], Ok ())
  | path :: files' =>
      match exiftool_add_location exiftool path photo lat lon with
      | (effects, Raise e) => (verbose_adding path :: effects, Raise e)
      | (effects, Ok _) =>
          let '(effects', r) :=
            add_location_to_exported exiftool files' photo lat lon in
          (verbose_adding path :: effects ++ effects', r)
      end
  end.

(** The part of [os.environ] that the hook reads. *)
Record environ : Type := {
  OSXPHOTOS_LOCATION_HISTORY : option string;
  OSXPHOTOS_LOCATION_DELTA : option string
}.

(** The regular files: a path that is one is mapped to what [json.load]
    returns for it. *)
Definition filesystem : Type := string → option json_file.

(** A call of the hook ends with the module's global [LOCATION_HISTORY],
    the effects so far, and a return value or an exception. *)
Record hook_outcome : Type := {
  LOCATION_HISTORY : option LocationHistory;
  emitted : list hook_effect;
  returned : result Z
}.

(** [add_location_to_photo_osxphotos(photo, results, verbose)], called
    with the global [LOCATION_HISTORY] at [cache]. *)
Definition add_location_to_photo_osxphotos (cache : option LocationHistory)
    (env : environ) (files : filesystem) (exiftool : exiftool_status)
    (photo : LibraryPhoto) (results : ExportResults) : hook_outcome :=
  let history_file := OSXPHOTOS_LOCATION_HISTORY env in
  let missing :=
    ValueError ("OSXPHOTOS_LOCATION_HISTORY not set or file does not exist: "
                ++ default "None" history_file) in
  match history_file ≫= (λ f, if String.eqb f EmptyString then None else files f) with
  | None =>
      {| LOCATION_HISTORY := cache; emitted := []; returned := Raise missing |}
  | Some location_data =>
      let delta := match OSXPHOTOS_LOCATION_DELTA env with
                   | Some s => PyStr s
                   | None => PyInt DEFAULT_TIME_DELTA
                   end in
      let '(loading, loaded) :=
        match cache with
        | Some self => ([], Ok self)
        | None => ([verbose_loading (default EmptyString history_file)],
                   __init__ (default EmptyString history_file) location_data)
        end in
      match loaded with
      | Raise e =>
          {| LOCATION_HISTORY := cache; emitted := loading; returned := Raise e |}
      | Ok self =>
          let ret (effects : list hook_effect) (r : result Z) :=
            {| LOCATION_HISTORY := Some self;
               emitted := loading ++ effects;
               returned := r |} in
          if shared photo then ret [] (Ok 0)
          else
            match nearest_location self (date_msec (info photo)) with
            | Raise e => ret [] (Raise e)
            | Ok (nearest_location, nearest_delta) =>
                match Py.int_of_float nearest_delta with
                | Raise e => ret [] (Raise e)
                | Ok nearest_delta =>
                    match Py.int_ge nearest_delta delta with
                    | Raise e => ret [] (Raise e)
                    | Ok true => ret [] (Ok 0)
                    | Ok false =>
                        let lat := latitude nearest_location in
                        let lon := longitude nearest_location in
                        let '(written, r) :=
                          add_location_to_exported exiftool (exported results)
                            photo lat lon in
                        ret (verbose_found (info photo) nearest_delta lat lon :: written)
                            ((λ _, 1) <$> r)
                    end
                end
            end
      end
  end.

(** *** The command line *)

Definition __version__ : string := "0.01".

(** [PhotosDB()]: what [len] returns for it, and its photos. *)
Record PhotosDB : Type := { db_len : nat; db_photos : list LibraryPhoto }.

(** The observable effects of [main], in order: its own lines, the
    album it opens, and the effects of [add_location_to_photo]. *)
Inductive main_effect : Type :=
| echo_version (version : string)
| echo_loading_history (filename : string)
| echo_loaded_records (n : nat)
| echo_earliest (earliest : location)
| echo_latest (latest : location)
| echo_loading_library
| echo_loaded_photos (n : nat)
| open_album (name : string)
| echo_checking (n : nat)
| of_photo (e : effect)
| echo_added_total (results : Z) (photo_str : string)
| echo_album_name (name : string).

(** [sum(add_location_to_photo(...) for photo in photos)], from [acc]. *)
Fixpoint sum_add_location (photos : list LibraryPhoto) (location_history : LocationHistory)
    (delta : Z) (dry_run : bool) (album : option string)
    (photolib : PhotoInfo → photoslibrary) (acc : Z)
  : list main_effect * result Z :=
  match photos with
  | [] => ([], Ok acc)
  | photo :: photos' =>
      match add_location_to_photo (info photo) location_history delta dry_run album
              (photolib (info photo)) with
      | Raise e => ([], Raise e)
      | Ok (n, effects) =>
          let '(effects', r) :=
            sum_add_location photos' location_history delta dry_run album photolib
              (acc + n) in
          ((of_photo <$> effects) ++ effects', r)
      end
  end.

(** [main(filename, delta, dry_run, add_to_album)], where [location_data]
    is what [json.load] returns for the file. *)
Definition main (filename : string) (location_data : json_file) (delta : Z)
    (dry_run : bool) (add_to_album : option string) (photosdb : PhotosDB)
    (photolib : PhotoInfo → photoslibrary)
  : list main_effect * result () :=
  let start := [echo_version __version__; echo_loading_history filename] in
  match __init__ filename location_data with
  | Raise e => (start, Raise e)
  | Ok history =>
      let start := start ++ [echo_loaded_records (__len__ history)] in
      match Py.getitem (location_history history) 0 with
      | Raise e => (start, Raise e)
      | Ok earliest =>
          let latest := default earliest (last (location_history history)) in
          let photos :=
            filter (λ photo, no_location photo && negb (shared photo))
                   (db_photos photosdb) in
          let add_to_album :=
            add_to_album ≫= (λ a, if String.eqb a EmptyString then None else Some a) in
          let '(effects, r) :=
            sum_add_location photos history delta dry_run add_to_album photolib 0 in
          let before :=
            start
            ++ [echo_earliest earliest; echo_latest latest;
                echo_loading_library; echo_loaded_photos (db_len photosdb)]
            ++ match add_to_album with Some a => [open_album a] | None => [] end
            ++ [echo_checking (length photos)]
            ++ effects in
          match r with
          | Raise e => (before, Raise e)
          | Ok results =>
              (before
               ++ [echo_added_total results (if results =? 1 then "photo" else "photos")]
               ++ match add_to_album with Some a => [echo_album_name a] | None => [] end,
               Ok ())
          end
      end
  end.

(** ** Vocabulary of the statements *)

(** The second half of [binary_round_aux] at binary64: a rounded mantissa
    that has grown to 54 bits is brought back to 53. *)
Definition renormalize (m0 e0 : Z) : spec_float :=
  let '(mrs, e) := shr_fexp 53 1024 m0 e0 loc_Exact in
  match shr_m mrs with
  | 0 => S754_zero false
  | Zpos m => if e <=? 1024 - 53 then S754_finite false m e else S754_infinity false
  | Zneg _ => S754_nan
  end.

(** The timestamp of a loaded record in milliseconds, [int(x["timestampMs"])];
    0 stands in for a key that does not parse, which the loader refuses. *)
Definition msec (x : location) : Z :=
  match Py.int (timestampMs x) with
  | Ok z => z
  | Raise _ => 0
  end.

(** [a] may stand before [b] in a list sorted on its keys: [b < a] is false. *)
Definition key_le (a b : pyval) : Prop := Py.lt b a = Ok false.

(** Both keys are [str], or both are [int]. *)
Definition same_type (a b : pyval) : bool :=
  match a, b with
  | PyInt _, PyInt _ | PyStr _, PyStr _ => true
  | _, _ => false
  end.

(** The timestamps that a photo date can have, in milliseconds.  A datetime
    lies in the years 1 to 9999, so [int(d.timestamp() * 1000)] is below
    [2 ^ 48] in absolute value; the statements ask for less. *)
Definition datetime_range (q : Z) : Prop := Z.abs q ≤ 2 ^ 52.

(** The keys of the input compare as the timestamps they denote.  This
    holds of [int] keys and of [str] keys of one length, such as the 13
    digits of every instant from 2001-09-09 to 2286-11-20. *)
Definition numeric_keys (raw : list json_location) : Prop :=
  ∀ l l' a b x y,
    l ∈ raw → l' ∈ raw →
    json_timestampMs l = Some a → json_timestampMs l' = Some b →
    Py.int a = Ok x → Py.int b = Ok y →
    Py.lt a b = Ok (x <? y).

(** [k] is a [str] of [n] decimal digits, and nothing else. *)
Definition decimal (n : nat) (k : pyval) : Prop :=
  ∃ s, k = PyStr s ∧ String.length s = n ∧
       Forall (λ c, is_Some (Py.digit c)) (list_ascii_of_string s).

(** The number that a string of decimal digits denotes, after [acc]. *)
Definition decimal_value (acc : Z) (l : list ascii) : Z :=
  foldl (λ a c, 10 * a + (Z.of_N (N_of_ascii c) - 48)) acc l.

(** *** Example inputs *)

Definition json_str (ts : string) (lat lon : option Z) : json_location :=
  {| json_timestampMs := Some (PyStr ts);
     json_latitudeE7 := lat;
     json_longitudeE7 := lon |}.

(** The scenario of the specification: three records, out of order. *)
Definition three_records : json_file :=
  {| locations := Some [json_str "1000000" (Some 100000000) (Some 200000000);
                        json_str "5000000" (Some 120000000) (Some 220000000);
                        json_str "2000000" (Some 110000000) (Some 210000000)] |}.

(** Two of three records share a timestamp. *)
Definition duplicate_records : json_file :=
  {| locations := Some [json_str "2000000" (Some 100000000) (Some 200000000);
                        json_str "1000000" None None;
                        json_str "2000000" (Some 110000000) (Some 210000000)] |}.

(** A record without its timestamp, after one that loads. *)
Definition record_without_timestamp : json_file :=
  {| locations := Some [json_str "1000000" None None;
                        {| json_timestampMs := None;
                           json_latitudeE7 := Some 100000000;
                           json_longitudeE7 := Some 200000000 |};
                        json_str "2000000" None None] |}.


(** The index that [__init__] returns, or an empty one if it raises. *)
Definition index_of (filename : string) (location_data : json_file) : LocationHistory :=
  match __init__ filename location_data with
  | Ok self => self
  | Raise _ => {| filename := filename; location_history := [];
                  timestamps := []; location_dict := ∅ |}
  end.

(** The error of a construction over a record that has no timestamp. *)
Definition not_found : exception :=
  ValueError "Location history not found in JSON file".

(** The error of a query on an index without records. *)
Definition empty_sequence : exception :=
  ValueError "min() arg is an empty sequence".

(** A photo taken at [msec]. *)
Definition photo_at (msec : Z) : PhotoInfo :=
  {| uuid := "6FD38366-3BF2-407D-81FE-7153EB6125B6";
     original_filename := "IMG_0001.JPG";
     date_msec := msec |}.

(** The nearer of two records has no coordinates. *)
Definition no_coordinates_nearby : json_file :=
  {| locations := Some [json_str "1000000" None None;
                        json_str "1050000" (Some 110000000) (Some 210000000)] |}.

(** Timestamps of 12 and of 13 digits, as the export writes them. *)
Definition twelve_and_thirteen_digits : json_file :=
  {| locations := Some [json_str "999999999999" None None;
                        json_str "1000000000000" None None] |}.

Definition mixed_digits : json_file :=
  {| locations := Some [json_str "999999999999" (Some 100000000) (Some 200000000);
                        json_str "1000000000000" (Some 110000000) (Some 210000000);
                        json_str "2000000000000" (Some 120000000) (Some 220000000);
                        json_str "3000000000000" (Some 130000000) (Some 230000000)] |}.

Definition mixed_digits_duplicate : json_file :=
  {| locations := Some [json_str "999999999999" (Some 100000000) (Some 200000000);
                        json_str "999999999999" (Some 105000000) (Some 205000000);
                        json_str "1000000000000" (Some 110000000) (Some 210000000);
                        json_str "2000000000000" (Some 120000000) (Some 220000000);
                        json_str "3000000000000" (Some 130000000) (Some 230000000)] |}.

(** Two records at one timestamp, in the two orders. *)
Definition first_then_second : json_file :=
  {| locations := Some [json_str "1000000" (Some 100000000) (Some 200000000);
                        json_str "1000000" (Some 110000000) (Some 210000000)] |}.

Definition second_then_first : json_file :=
  {| locations := Some [json_str "1000000" (Some 110000000) (Some 210000000);
                        json_str "1000000" (Some 100000000) (Some 200000000)] |}.

(** The records of [three_records], and the same in another order. *)
Definition three_in_order : list json_location :=
  [json_str "1000000" (Some 100000000) (Some 200000000);
   json_str "5000000" (Some 120000000) (Some 220000000);
   json_str "2000000" (Some 110000000) (Some 210000000)].

Definition three_permuted : list json_location :=
  [json_str "2000000" (Some 110000000) (Some 210000000);
   json_str "1000000" (Some 100000000) (Some 200000000);
   json_str "5000000" (Some 120000000) (Some 220000000)].

(** A [str] key and an [int] key in one file. *)
Definition str_and_int_keys : list json_location :=
  [json_str "1000000" None None;
   {| json_timestampMs := Some (PyInt 2000000);
      json_latitudeE7 := None;
      json_longitudeE7 := None |}].

(** The path of the history file that the hook accepts: the variable is
    set, is not empty, and names a regular file, holding [data]. *)
Definition history_file_is (env : environ) (files : filesystem)
    (f : string) (data : json_file) : Prop :=
  OSXPHOTOS_LOCATION_HISTORY env = Some f ∧ f ≠ EmptyString ∧ files f = Some data.

(** A latitude that gets the reference ["S"], a longitude that gets
    ["W"]: one with the sign bit set and not zero, or a NaN. *)
Definition south_or_west (f : Py.float) : bool :=
  match f with
  | S754_zero _ => false
  | S754_infinity s | S754_finite s _ _ => s
  | S754_nan => true
  end.

(** An exported file that gets the EXIF tags of a photo. *)
Definition photo_file (photo : LibraryPhoto) (path : string) : bool :=
  isphoto photo && negb (Py.endswith (Py.lower path) ".mov").

(** The effect [e] of [add_location_to_photo] is one on the photo [p]. *)
Definition effect_on (p : PhotoInfo) (e : effect) : Prop :=
  match e with
  | echo_found p' _ _ _ => p' = p
  | echo_no_access u | set_location u _ _ | album_add _ u => u = uuid p
  | echo_added | echo_error => True
  end.

(** [add_location_to_photo] returns 1 for the photo. *)
Definition located (self : LocationHistory) (delta : Z) (dry_run : bool)
    (album : option string) (photolib : PhotoInfo → photoslibrary)
    (photo : LibraryPhoto) : bool :=
  match add_location_to_photo (info photo) self delta dry_run album
          (photolib (info photo)) with
  | Ok (1, _) => true
  | _ => false
  end.

(** An environment and a file system for the hook, and photos for it. *)
Definition hook_env (delta : option string) : environ :=
  {| OSXPHOTOS_LOCATION_HISTORY := Some "history.json";
     OSXPHOTOS_LOCATION_DELTA := delta |}.

Definition hook_files (data : json_file) : filesystem :=
  λ f, if String.eqb f "history.json" then Some data else None.

Definition quiet : exiftool_status := λ _, (None, None).

Definition library_photo (msec : Z) (is_shared : bool) : LibraryPhoto :=
  {| info := photo_at msec; shared := is_shared; isphoto := true;
     location_of := (None, None) |}.

(** The photos [main] checks, the album it is given, and the number of
    photos [add_location_to_photo] returns 1 for. *)
Definition candidates (photosdb : PhotosDB) : list LibraryPhoto :=
  filter (λ photo, no_location photo && negb (shared photo)) (db_photos photosdb).

Definition album_of (add_to_album : option string) : option string :=
  add_to_album ≫= (λ a, if String.eqb a EmptyString then None else Some a).

Definition added_to (self : LocationHistory) (delta : Z) (dry_run : bool)
    (add_to_album : option string) (photosdb : PhotosDB)
    (photolib : PhotoInfo → photoslibrary) : Z :=
  Z.of_nat (length (filter (located self delta dry_run (album_of add_to_album) photolib)
                      (candidates photosdb))).

(** A library of three photos without location, the second one shared. *)
Definition small_library : PhotosDB :=
  {| db_len := 3;
     db_photos := [library_photo 1900000 false; library_photo 1900000 true;
                   library_photo 1940000 false] |}.

(** ** Facts about the built-ins *)

(** *** [int(n / 1000)]: double division followed by truncation *)

Lemma digits2_pos_bounds (p : positive) :
  2 ^ (Zpos (digits2_pos p) - 1) ≤ Zpos p < 2 ^ Zpos (digits2_pos p).
Proof.
  induction p as [p IH | p IH |]; cbn [digits2_pos].
  - rewrite Pos2Z.inj_succ, Z.pow_succ_r by lia.
    replace (Z.succ (Zpos (digits2_pos p)) - 1) with (Z.succ (Zpos (digits2_pos p) - 1)) by lia.
    rewrite Z.pow_succ_r by lia. lia.
  - rewrite Pos2Z.inj_succ, Z.pow_succ_r by lia.
    replace (Z.succ (Zpos (digits2_pos p)) - 1) with (Z.succ (Zpos (digits2_pos p) - 1)) by lia.
    rewrite Z.pow_succ_r by lia. lia.
  - cbn. lia.
Qed.

Lemma Zdigits2_unique (m k : Z) :
  2 ^ (k - 1) ≤ m < 2 ^ k → 0 < k → Zdigits2 m = k.
Proof.
  intros Hm Hk.
  assert (0 < m) by (pose proof (Z.pow_pos_nonneg 2 (k - 1)); lia).
  destruct m as [|p|p]; try lia. cbn [Zdigits2].
  pose proof (digits2_pos_bounds p) as Hd.
  set (d := Zpos (digits2_pos p)) in *.
  destruct (Z.lt_trichotomy d k) as [Hlt | [-> | Hgt]]; [exfalso | done | exfalso].
  - assert (2 ^ d ≤ 2 ^ (k - 1)) by (apply Z.pow_le_mono_r; lia). lia.
  - assert (2 ^ k ≤ 2 ^ (d - 1)) by (apply Z.pow_le_mono_r; lia). lia.
Qed.

Lemma int_of_float_neg_exp (m : positive) (e : Z) :
  e < 0 → Py.int_of_float (S754_finite false m e) = Ok (Zpos m / 2 ^ (- e)).
Proof.
  intros He. destruct e as [| k | k]; try lia.
  cbn [Py.int_of_float]. by rewrite Z.shiftr_div_pow2.
Qed.

Lemma shr_fexp_53 (q e : Z) (l : SpecFloat.location) :
  2 ^ 52 ≤ q < 2 ^ 53 → -1074 ≤ e →
  shr_fexp 53 1024 q e l = (shr_record_of_loc q l, e).
Proof.
  intros Hq He. unfold shr_fexp.
  rewrite (Zdigits2_unique q 53) by (cbn; lia).
  replace (fexp 53 1024 (53 + e) - e) with 0 by (unfold fexp, emin; lia).
  done.
Qed.

Lemma shr_fexp_54 (q e : Z) (l : SpecFloat.location) :
  2 ^ 53 ≤ q < 2 ^ 54 → -1074 ≤ e →
  shr_fexp 53 1024 q e l = (shr_1 (shr_record_of_loc q l), e + 1).
Proof.
  intros Hq He. unfold shr_fexp.
  rewrite (Zdigits2_unique q 54) by (cbn; lia).
  replace (fexp 53 1024 (54 + e) - e) with 1 by (unfold fexp, emin; lia).
  done.
Qed.

Lemma loc_of_shr_record_of_loc (m : Z) (l : SpecFloat.location) :
  loc_of_shr_record (shr_record_of_loc m l) = l ∧ shr_m (shr_record_of_loc m l) = m.
Proof. by destruct l as [|[]]. Qed.

Lemma int_of_float_renormalize (m0 e0 : Z) :
  2 ^ 52 ≤ m0 ≤ 2 ^ 53 → -1074 ≤ e0 ≤ -2 →
  ∃ f, renormalize m0 e0 = f ∧ (∀ s, f ≠ S754_infinity s) ∧
       Py.int_of_float f = Ok (m0 / 2 ^ (- e0)).
Proof.
  intros Hm He. unfold renormalize.
  destruct (decide (m0 = 2 ^ 53)) as [-> | Hne].
  - rewrite shr_fexp_54 by lia.
    change (2 ^ 53) with 9007199254740992. cbn [shr_record_of_loc shr_1 shr_m].
    replace (e0 + 1 <=? 1024 - 53) with true by lia.
    eexists; split; [done | split; [done |]].
    rewrite int_of_float_neg_exp by lia. f_equal.
    replace (- e0) with (Z.succ (- (e0 + 1))) by lia.
    rewrite Z.pow_succ_r by lia.
    change 9007199254740992 with (2 * 4503599627370496).
    rewrite Z.div_mul_cancel_l; [done | | lia].
    pose proof (Z.pow_pos_nonneg 2 (- (e0 + 1))). lia.
  - rewrite shr_fexp_53 by lia. cbn [shr_record_of_loc shr_m].
    destruct m0 as [| m | m]; try lia.
    replace (e0 <=? 1024 - 53) with true by lia.
    eexists; split; [done | split; [done |]].
    by rewrite int_of_float_neg_exp by lia.
Qed.

Lemma binary_round_aux_renormalize (q e : Z) (l : SpecFloat.location) :
  2 ^ 52 ≤ q < 2 ^ 54 → -1074 ≤ e →
  ∃ m0 e0 c, binary_round_aux 53 1024 false q e l = renormalize m0 e0 ∧
    (c = 0 ∨ c = 1) ∧
    ((q < 2 ^ 53 ∧ m0 = q + c ∧ e0 = e) ∨
     (2 ^ 53 ≤ q ∧ m0 = q `div` 2 + c ∧ e0 = e + 1 ∧ (c = 1 → Z.odd q = true))).
Proof.
  intros Hq He. unfold binary_round_aux, renormalize.
  destruct (decide (q < 2 ^ 53)) as [Hlt | Hge].
  - rewrite shr_fexp_53 by lia.
    destruct (loc_of_shr_record_of_loc q l) as [-> ->].
    exists (round_nearest_even q l), e, (round_nearest_even q l - q).
    split; [done |].
    destruct l as [|[]]; cbn [round_nearest_even];
      try destruct (Z.even q); split; (lia || (left + right; repeat split; (lia || auto))).
  - rewrite shr_fexp_54 by lia.
    set (mrs := shr_1 (shr_record_of_loc q l)).
    exists (round_nearest_even (shr_m mrs) (loc_of_shr_record mrs)), (e + 1),
      (round_nearest_even (shr_m mrs) (loc_of_shr_record mrs) - q `div` 2).
    split; [done |].
    assert (Hodd : Z.odd q = true ∧
                   (round_nearest_even (shr_m mrs) (loc_of_shr_record mrs) = q `div` 2 ∨
                    round_nearest_even (shr_m mrs) (loc_of_shr_record mrs) = q `div` 2 + 1)
                   ∨ round_nearest_even (shr_m mrs) (loc_of_shr_record mrs) = q `div` 2).
    { subst mrs. destruct q as [| [p | p |] | ]; try lia.
      - left. split; [done |].
        replace (Zpos p~1 `div` 2) with (Zpos p)
          by (rewrite Pos2Z.inj_xI; apply (Z.div_unique _ 2 _ 1); lia).
        destruct l as [|[]]; cbn; try destruct p; auto.
      - right.
        replace (Zpos p~0 `div` 2) with (Zpos p)
          by (rewrite Pos2Z.inj_xO; apply (Z.div_unique _ 2 _ 0); lia).
        destruct l as [|[]]; cbn; done. }
    destruct Hodd as [[Ho [-> | ->]] | ->]; (split; [lia |]); right; repeat split; (lia || auto).
    all: intros; lia.
Qed.

Lemma SFdiv_core_binary_1000 (p : positive) :
  Zpos p < 2 ^ 53 →
  let s := 63 - Zdigits2 (Zpos p) in
  SFdiv_core_binary 53 1024 (Zpos p) 0 1000 0 =
    ((Zpos p * 2 ^ s) `div` 1000, - s,
     if (Zpos p * 2 ^ s) `mod` 1000 =? 0 then loc_Exact
     else loc_Inexact (2 * ((Zpos p * 2 ^ s) `mod` 1000) ?= 1000)).
Proof.
  intros Hp s. unfold SFdiv_core_binary.
  pose proof (digits2_pos_bounds p) as Hd.
  assert (Hd53 : Zdigits2 (Zpos p) ≤ 53).
  { cbn [Zdigits2]. destruct (decide (Zpos (digits2_pos p) ≤ 53)); [done | exfalso].
    assert (2 ^ 53 ≤ 2 ^ (Zpos (digits2_pos p) - 1)) by (apply Z.pow_le_mono_r; lia). lia. }
  assert (Hd1 : 1 ≤ Zdigits2 (Zpos p)) by (cbn [Zdigits2]; lia).
  change (Zdigits2 1000) with 10.
  replace (Z.min (fexp 53 1024 (Zdigits2 (Zpos p) + 0 - (10 + 0))) (0 - 0)) with (- s)
    by (unfold fexp, emin; lia).
  replace (0 - 0 - - s) with s by lia.
  assert (Hs : 0 < s) by lia.
  destruct s as [| k | k] eqn:Es; try lia.
  rewrite Z.shiftl_mul_pow2 by lia.
  unfold Z.div, Z.modulo.
  destruct (Z.div_eucl (Zpos p * 2 ^ Zpos k) 1000) as [q r].
  done.
Qed.

(** Dividing by a power of two after rounding: the two arithmetic cases. *)
Lemma round_up_same_quotient (p q r P : Z) :
  1000 < P → 0 < p → p * P = 1000 * q + r → 0 ≤ r < 1000 →
  (q + 1) `div` P = p `div` 1000.
Proof.
  intros HP Hp Heq Hr.
  pose proof (Z.div_mod p 1000 ltac:(lia)) as Hdm.
  pose proof (Z.mod_pos_bound p 1000 ltac:(lia)) as Hj.
  set (k := p `div` 1000) in *. set (j := p `mod` 1000) in *.
  symmetry. apply (Z.div_unique _ _ _ (q + 1 - P * k)); [left | lia].
  assert (p * P = 1000 * (P * k) + j * P) by (rewrite Hdm; ring).
  assert (0 ≤ j * P) by (apply Z.mul_nonneg_nonneg; lia).
  assert (j * P ≤ 999 * P) by (apply Z.mul_le_mono_nonneg_r; lia).
  lia.
Qed.

Lemma round_up_half_same_quotient (p q r P : Z) :
  500 < P → 0 < p → p * (2 * P) = 1000 * q + r → 0 ≤ r < 1000 → Z.odd q = true →
  (q `div` 2 + 1) `div` P = p `div` 1000.
Proof.
  intros HP Hp Heq Hr Hodd.
  pose proof (Z.div_mod p 1000 ltac:(lia)) as Hdm.
  pose proof (Z.mod_pos_bound p 1000 ltac:(lia)) as Hj.
  set (k := p `div` 1000) in *. set (j := p `mod` 1000) in *.
  pose proof (Z.div_mod q 2 ltac:(lia)) as Hq.
  rewrite Zmod_odd, Hodd in Hq. set (q' := q `div` 2) in *.
  symmetry. apply (Z.div_unique _ _ _ (q' + 1 - P * k)); [left | lia].
  assert (p * (2 * P) = 2000 * (P * k) + 2 * (j * P)) by (rewrite Hdm; ring).
  assert (0 ≤ j * P) by (apply Z.mul_nonneg_nonneg; lia).
  assert (j * P ≤ 999 * P) by (apply Z.mul_le_mono_nonneg_r; lia).
  lia.
Qed.

Lemma same_quotient (p q r P : Z) :
  0 < P → p * P = 1000 * q + r → 0 ≤ r < 1000 → q `div` P = p `div` 1000.
Proof.
  intros HP Heq Hr.
  assert (q = (p * P) `div` 1000) as -> by (apply (Z.div_unique _ _ _ r); lia).
  rewrite Z.div_div by lia.
  rewrite Z.div_mul_cancel_r by lia. done.
Qed.

(** [int(n / 1000)] is [n // 1000] as long as [n] is below [2 ^ 53]. *)
Lemma int_truediv_1000 (n : Z) :
  0 ≤ n < 2 ^ 53 →
  ∃ f, Py.int_truediv n 1000 = Ok f ∧ Py.int_of_float f = Ok (n `div` 1000).
Proof.
  intros Hn. destruct n as [| p | p]; [by eexists | | lia].
  unfold Py.int_truediv, Py.float_div, SFdiv.
  pose proof (SFdiv_core_binary_1000 p ltac:(lia)) as Hcore. cbn zeta in Hcore.
  rewrite Hcore; clear Hcore. cbn [xorb].
  pose proof (digits2_pos_bounds p) as Hd.
  assert (Hd53 : Zdigits2 (Zpos p) ≤ 53).
  { cbn [Zdigits2]. destruct (decide (Zpos (digits2_pos p) ≤ 53)); [done | exfalso].
    assert (2 ^ 53 ≤ 2 ^ (Zpos (digits2_pos p) - 1)) by (apply Z.pow_le_mono_r; lia). lia. }
  change (Zpos (digits2_pos p)) with (Zdigits2 (Zpos p)) in Hd.
  assert (Hd1 : 1 ≤ Zdigits2 (Zpos p)) by (cbn [Zdigits2]; lia).
  set (d := Zdigits2 (Zpos p)) in *. set (s := 63 - d).
  set (P := 2 ^ s).
  assert (HP : 2 ^ 10 ≤ P) by (apply Z.pow_le_mono_r; lia).
  assert (HpP : 2 ^ 62 ≤ Zpos p * P < 2 ^ 63).
  { replace 62 with ((d - 1) + s) by lia. replace 63 with (d + s) by lia.
    rewrite !Z.pow_add_r by lia. fold P. nia. }
  pose proof (Z.div_mod (Zpos p * P) 1000 ltac:(lia)) as Hdm.
  pose proof (Z.mod_pos_bound (Zpos p * P) 1000 ltac:(lia)) as Hr.
  set (q := (Zpos p * P) `div` 1000) in *. set (r := (Zpos p * P) `mod` 1000) in *.
  assert (Hq : 2 ^ 52 ≤ q < 2 ^ 54) by (change (2 ^ 52) with 4503599627370496;
    change (2 ^ 54) with 18014398509481984; change (2 ^ 62) with 4611686018427387904 in HpP;
    change (2 ^ 63) with 9223372036854775808 in HpP; lia).
  destruct (binary_round_aux_renormalize q (- s)
              (if r =? 0 then loc_Exact else loc_Inexact (2 * r ?= 1000)) Hq ltac:(lia))
    as (m0 & e0 & c & -> & Hc & Hcase).
  assert (Hm0 : 2 ^ 52 ≤ m0 ≤ 2 ^ 53 ∧ -1074 ≤ e0 ≤ -2 ∧
                m0 `div` 2 ^ (- e0) = Zpos p `div` 1000).
  { destruct Hcase as [(Hlt & -> & ->) | (Hge & -> & -> & Hup)].
    - split; [lia | split; [lia |]]. rewrite Z.opp_involutive. fold P.
      destruct Hc as [-> | ->].
      + rewrite Z.add_0_r. by apply (same_quotient _ _ r); [lia | lia |].
      + by apply (round_up_same_quotient _ _ r); [change (2 ^ 10) with 1024 in HP; lia | | lia |].
    - assert (P = 2 * 2 ^ (- (- s + 1))) as HP2.
      { unfold P. replace s with (Z.succ (- (- s + 1))) at 1 by lia.
        by rewrite Z.pow_succ_r by lia. }
      set (P' := 2 ^ (- (- s + 1))) in *.
      pose proof (Z.div_mod q 2 ltac:(lia)) as Hq2.
      pose proof (Z.mod_pos_bound q 2 ltac:(lia)) as Hb.
      change (2 ^ 52) with 4503599627370496 in *.
      change (2 ^ 53) with 9007199254740992 in *.
      change (2 ^ 54) with 18014398509481984 in *.
      change (2 ^ 10) with 1024 in HP.
      split; [lia | split; [lia |]].
      destruct Hc as [-> | ->].
      + rewrite Z.add_0_r, Z.div_div by lia. rewrite <- HP2.
        by apply (same_quotient _ _ r); [lia | lia |].
      + apply (round_up_half_same_quotient _ _ r); [lia | lia | | done | by apply Hup].
        rewrite <- HP2. lia. }
  destruct Hm0 as (Hm0 & He0 & Hdiv).
  destruct (int_of_float_renormalize m0 e0 Hm0 He0) as (f & -> & Hinf & Hint).
  exists f. rewrite Hint, Hdiv. split; [| done].
  by destruct f; [| exfalso; eapply Hinf | |].
Qed.

(** ** Facts about the exception monad and the list built-ins *)

Lemma bind_Ok {A B} (m : result A) (f : A → result B) (b : B) :
  m ≫= f = Ok b ↔ ∃ a, m = Ok a ∧ f a = Ok b.
Proof.
  destruct m as [a | e]; cbn; split.
  - eauto.
  - by intros (a' & [= <-] & ?).
  - done.
  - by intros (a' & ? & ?).
Qed.

Lemma fmap_Ok {A B} (m : result A) (f : A → B) (b : B) :
  f <$> m = Ok b ↔ ∃ a, m = Ok a ∧ f a = b.
Proof.
  destruct m as [a | e]; cbn; split.
  - intros [= <-]. eauto.
  - by intros (a' & [= <-] & <-).
  - done.
  - by intros (a' & ? & ?).
Qed.

(** Splits a hypothesis [m ≫= f = Ok b] into its two steps. *)
Ltac inv_bind H :=
  let a := fresh "a" in
  let H1 := fresh H in
  apply bind_Ok in H; destruct H as (a & H1 & H).

Lemma comprehension_Ok {A B} (f : A → result B) (l : list A) (ys : list B) :
  Py.comprehension f l = Ok ys ↔ Forall2 (λ x y, f x = Ok y) l ys.
Proof.
  revert ys. induction l as [| x l IH]; intros ys; cbn.
  - split; [intros [= <-]; constructor | by intros ->%Forall2_nil_inv_l].
  - split.
    + intros H. inv_bind H. inv_bind H. injection H as <-.
      constructor; [done | by apply IH].
    + intros (y & ys' & Hy & Hys & ->)%Forall2_cons_inv_l.
      rewrite Hy. cbn. apply IH in Hys. by rewrite Hys.
Qed.

Lemma comprehension_length {A B} (f : A → result B) (l : list A) (ys : list B) :
  Py.comprehension f l = Ok ys → length ys = length l.
Proof. intros H%comprehension_Ok. symmetry. by eapply Forall2_length. Qed.

(** A comprehension raises what its first failing element raises. *)
Lemma comprehension_Raise {A B} (f : A → result B) (pre post : list A) (x : A) e :
  Forall (λ x, ∃ y, f x = Ok y) pre → f x = Raise e →
  Py.comprehension f (pre ++ x :: post) = Raise e.
Proof.
  intros Hpre Hx. induction Hpre as [| x' pre [y Hy] _ IH]; cbn.
  - by rewrite Hx.
  - by rewrite Hy, IH.
Qed.


Lemma comprehension_Permutation {A B} (f : A → result B) (l l' : list A) (ys : list B) :
  l ≡ₚ l' → Py.comprehension f l = Ok ys →
  ∃ ys', Py.comprehension f l' = Ok ys' ∧ ys ≡ₚ ys'.
Proof.
  intros Hp. revert ys.
  induction Hp as [| x l l' _ IH | x y l | l l' l'' _ IH1 _ IH2]; intros ys H.
  - injection H as <-. by exists [].
  - cbn in H. inv_bind H. inv_bind H. injection H as <-.
    destruct (IH _ H1) as (ys' & Hys' & Hperm).
    exists (a :: ys'). cbn. rewrite H0, Hys'. split; [done | by constructor].
  - cbn in H. inv_bind H. inv_bind H. injection H as <-.
    inv_bind H1. inv_bind H1. injection H1 as <-.
    exists (a1 :: a :: a2). cbn. rewrite H2, H0, H3. split; [done | constructor].
  - destruct (IH1 _ H) as (ys' & Hys' & Hperm).
    destruct (IH2 _ Hys') as (ys'' & Hys'' & Hperm').
    exists ys''. split; [done | by etrans].
Qed.

(** *** The order on the sort keys *)

Lemma String_ltb_lt (s t : string) : String.ltb s t = true ↔ String_as_OT.lt s t.
Proof.
  unfold String.ltb, String_as_OT.lt.
  change (String_as_OT.compare s t) with (String.compare s t).
  destruct (String.compare s t); split; intros H; done || discriminate H.
Qed.

Lemma String_ltb_trans (s t u : string) :
  String.ltb s t = true → String.ltb t u = true → String.ltb s u = true.
Proof.
  rewrite !String_ltb_lt. apply (StrictOrder_Transitive (R := String_as_OT.lt)).
Qed.

Lemma String_ltb_total (s t : string) :
  String.ltb s t = false → s = t ∨ String.ltb t s = true.
Proof.
  unfold String.ltb. rewrite (String.compare_antisym t s).
  destruct (String.compare s t) eqn:Hst; cbn; intros H;
    [left; by apply String.compare_eq_iff | discriminate H | by right].
Qed.

Lemma String_ltb_irrefl (s : string) : String.ltb s s = false.
Proof.
  destruct (String.ltb s s) eqn:Hs; [| done].
  apply String_ltb_lt in Hs.
  by destruct (StrictOrder_Irreflexive (R := String_as_OT.lt) s).
Qed.

Lemma lt_Ok_same_type (a b : pyval) :
  (∃ c, Py.lt a b = Ok c) ↔ same_type a b = true.
Proof. destruct a, b; cbn; split; intros; try done; by (eexists || destruct H). Qed.

Lemma same_type_sym (a b : pyval) : same_type a b = same_type b a.
Proof. by destruct a, b. Qed.

Lemma same_type_trans (a b c : pyval) :
  same_type a b = true → same_type b c = true → same_type a c = true.
Proof. by destruct a, b, c. Qed.

Lemma key_le_refl (a : pyval) : key_le a a.
Proof.
  destruct a as [s | z]; unfold key_le; cbn.
  - by rewrite String_ltb_irrefl.
  - by rewrite Z.ltb_irrefl.
Qed.

Lemma key_le_trans (a b c : pyval) : key_le a b → key_le b c → key_le a c.
Proof.
  unfold key_le. destruct a as [s | x], b as [t | y], c as [u | z]; cbn; try done.
  - intros [= Hts] [= Hut]. f_equal.
    destruct (String.ltb u s) eqn:Hus; [exfalso | done].
    destruct (String_ltb_total _ _ Hut) as [-> | Htu]; [congruence |].
    by rewrite (String_ltb_trans _ _ _ Htu Hus) in Hts.
  - intros [= H1] [= H2]. f_equal. lia.
Qed.

Lemma key_le_antisym (a b : pyval) : key_le a b → key_le b a → a = b.
Proof.
  unfold key_le. destruct a as [s | x], b as [t | y]; cbn; try done.
  - intros [= Hts] [= Hst].
    destruct (String_ltb_total _ _ Hst) as [-> | Hlt]; [done | congruence].
  - intros [= H1] [= H2]. f_equal. lia.
Qed.

Lemma lt_true_key_le (a b : pyval) : Py.lt a b = Ok true → key_le a b.
Proof.
  unfold key_le. destruct a as [s | x], b as [t | y]; cbn; try done.
  - intros [= Hst]. f_equal.
    destruct (String.ltb t s) eqn:Hts; [| done].
    by rewrite <- (String_ltb_irrefl s), (String_ltb_trans _ _ _ Hst Hts).
  - intros [= H]. f_equal. lia.
Qed.

(** *** [sorted] *)

Section SortedFacts.
Context {A : Type} (key : A → pyval).
Implicit Types (x y : A) (l r s : list A).

(** The order that a list sorted on [key] obeys. *)
Let before x y : Prop := key_le (key x) (key y).

Lemma insert_Permutation x l r : Py.insert key x l = Ok r → r ≡ₚ x :: l.
Proof.
  revert r. induction l as [| y l IH]; intros r; cbn.
  - by intros [= <-].
  - intros H. inv_bind H. destruct a.
    + inv_bind H. injection H as <-. rewrite (IH _ H1). apply Permutation_swap.
    + by injection H as <-.
Qed.

Lemma sorted_Permutation l r : Py.sorted key l = Ok r → r ≡ₚ l.
Proof.
  revert r. induction l as [| x l IH]; intros r; cbn.
  - by intros [= <-].
  - intros H. inv_bind H. rewrite (insert_Permutation _ _ _ H). by rewrite (IH _ H0).
Qed.

Lemma sorted_length l r : Py.sorted key l = Ok r → length r = length l.
Proof. intros H%sorted_Permutation. by rewrite H. Qed.

Lemma insert_StronglySorted x l r :
  StronglySorted before l → Py.insert key x l = Ok r → StronglySorted before r.
Proof.
  revert r. induction l as [| y l IH]; intros r Hl; cbn.
  - intros [= <-]. by repeat constructor.
  - intros H. inv_bind H. apply StronglySorted_inv in Hl as [Hl Hy].
    destruct a.
    + inv_bind H. injection H as <-. constructor; [by apply IH |].
      apply list.Forall_forall. intros z Hz.
      rewrite (insert_Permutation _ _ _ H1) in Hz.
      apply elem_of_cons in Hz as [-> | Hz].
      * by apply lt_true_key_le.
      * by eapply list.Forall_forall in Hy.
    + injection H as <-. constructor; [by constructor |].
      constructor; [done |].
      eapply Forall_impl; [exact Hy |]. intros z Hz.
      by apply (key_le_trans _ (key y)).
Qed.

Lemma sorted_StronglySorted l r : Py.sorted key l = Ok r → StronglySorted before r.
Proof.
  revert r. induction l as [| x l IH]; intros r; cbn.
  - intros [= <-]. constructor.
  - intros H. inv_bind H. eapply insert_StronglySorted; [| done]. by apply IH.
Qed.

(** [sorted] succeeds exactly when the keys are all of one type. *)
Lemma insert_is_Ok x l :
  (∀ y, y ∈ l → same_type (key y) (key x) = true) → ∃ r, Py.insert key x l = Ok r.
Proof.
  induction l as [| y l IH]; intros Hl; cbn; [by eexists |].
  destruct (proj2 (lt_Ok_same_type (key y) (key x))) as [b ->];
    [apply Hl; by left |].
  cbn. destruct b; [| by eexists].
  destruct IH as [r ->]; [intros; apply Hl; by right | by eexists].
Qed.

Lemma sorted_is_Ok l :
  (∀ x y, x ∈ l → y ∈ l → same_type (key x) (key y) = true) → ∃ r, Py.sorted key l = Ok r.
Proof.
  induction l as [| x l IH]; intros Hl; cbn; [by eexists |].
  destruct IH as [s Hs]; [intros; apply Hl; by right |].
  rewrite Hs. cbn. apply insert_is_Ok. intros y Hy.
  rewrite (sorted_Permutation _ _ Hs) in Hy. apply Hl; [by right | by left].
Qed.

Lemma sorted_Ok_same_type l r x y :
  Py.sorted key l = Ok r → x ∈ l → y ∈ l → same_type (key x) (key y) = true.
Proof.
  revert r x y. induction l as [| z l IH]; intros r x y; cbn; [by intros _ ?%elem_of_nil |].
  intros H. inv_bind H.
  assert (Hz : ∀ u, u ∈ l → same_type (key u) (key z) = true).
  { intros u Hu. destruct a as [| v a]; [by rewrite <- (sorted_Permutation _ _ H0) in Hu; apply elem_of_nil in Hu |].
    cbn in H. inv_bind H.
    assert (same_type (key v) (key z) = true) by (apply lt_Ok_same_type; by eexists).
    apply (same_type_trans _ (key v)); [| done].
    apply (IH _ _ _ H0 Hu). rewrite <- (sorted_Permutation _ _ H0). by left. }
  intros [-> | Hx]%elem_of_cons [-> | Hy]%elem_of_cons.
  - by destruct (key z).
  - rewrite same_type_sym. by apply Hz.
  - by apply Hz.
  - by apply (IH _ _ _ H0).
Qed.

(** A sorted list is determined by its elements, when no two distinct
    elements have the same key. *)
Lemma StronglySorted_Permutation_eq s s' :
  StronglySorted before s → StronglySorted before s' → s ≡ₚ s' →
  (∀ x y, x ∈ s → y ∈ s → key x = key y → x = y) → s = s'.
Proof.
  revert s'. induction s as [| a t IH]; intros s' Hs Hs' Hp Hinj.
  - by apply Permutation_nil in Hp.
  - destruct s' as [| b t']; [by apply Permutation_sym, Permutation_nil in Hp |].
    apply StronglySorted_inv in Hs as [Ht Ha]. apply StronglySorted_inv in Hs' as [Ht' Hb].
    assert (a = b) as <-.
    { assert (Hab : a ∈ b :: t') by (rewrite <- Hp; by left).
      assert (Hba : b ∈ a :: t) by (rewrite Hp; by left).
      apply elem_of_cons in Hab as [-> | Hab]; [done |].
      apply elem_of_cons in Hba as [-> | Hba]; [done |].
      apply Hinj; [by left | by right |].
      apply key_le_antisym.
      - by eapply list.Forall_forall in Ha.
      - by eapply list.Forall_forall in Hb. }
    f_equal. apply IH; [done | done | by eapply Permutation_cons_inv |].
    intros x y Hx Hy. apply Hinj; by right.
Qed.

(** Stability: the elements of a class of mutually unordered keys keep
    their relative order. *)
Lemma insert_filter (P : A → Prop) `{∀ x, Decision (P x)} x l r :
  (∀ y, y ∈ l → P y → P x → Py.lt (key y) (key x) = Ok false) →
  Py.insert key x l = Ok r → filter P r = filter P (x :: l).
Proof.
  revert r. induction l as [| y l IH]; intros r HP; cbn.
  - by intros [= <-].
  - intros Hr. inv_bind Hr. destruct a.
    + inv_bind Hr. injection Hr as <-.
      rewrite filter_cons, (IH _ ltac:(intros; apply HP; by try right) Hr1), !filter_cons.
      destruct (decide (P y)) as [Hy | Hy], (decide (P x)) as [Hx | Hx]; try done.
      rewrite (HP y ltac:(by left) Hy Hx) in Hr0. done.
    + by injection Hr as <-.
Qed.

Lemma sorted_filter (P : A → Prop) `{∀ x, Decision (P x)} l r :
  (∀ x y, x ∈ l → y ∈ l → P x → P y → Py.lt (key x) (key y) = Ok false) →
  Py.sorted key l = Ok r → filter P r = filter P l.
Proof.
  revert r. induction l as [| x l IH]; intros r HP; cbn.
  - by intros [= <-].
  - intros Hr. inv_bind Hr.
    assert (Hx : ∀ y, y ∈ a → P y → P x → Py.lt (key y) (key x) = Ok false).
    { intros y Hy. rewrite (sorted_Permutation _ _ Hr0) in Hy.
      apply HP; by (left || right). }
    rewrite (insert_filter P _ _ _ Hx Hr), !filter_cons.
    by rewrite (IH _ ltac:(intros; apply HP; by try right) Hr0).
Qed.

End SortedFacts.

(** *** [bisect_left], slices and [min] *)

Lemma midpoint_bounds (lo hi : nat) :
  (lo < hi)%nat → (lo ≤ (lo + hi) `div` 2 < hi)%nat.
Proof.
  intros H. pose proof (Nat.div_mod_eq (lo + hi) 2).
  pose proof (Nat.mod_upper_bound (lo + hi) 2 ltac:(lia)). lia.
Qed.

(** The loop returns, whatever the order of [a]. *)
Lemma bisect_loop_Ok (a : list Z) (x : Z) (lo hi : nat) :
  (lo ≤ hi ≤ length a)%nat →
  ∃ i, Py.bisect_loop a x lo hi = Ok i ∧ (lo ≤ i ≤ hi)%nat.
Proof.
  funelim (Py.bisect_loop a x lo hi); intros Hb.
  - exists lo. split; [done | lia].
  - exfalso. pose proof (midpoint_bounds lo hi ltac:(done)).
    unfold Py.getitem in Heq.
    destruct (lookup_lt_is_Some_2 a ((lo + hi) `div` 2)%nat ltac:(lia)) as [v Hv].
    by rewrite Hv in Heq.
  - pose proof (midpoint_bounds lo hi ltac:(done)).
    destruct H as (i & -> & Hi); [lia |]. exists i. split; [done | lia].
  - pose proof (midpoint_bounds lo hi ltac:(done)).
    destruct H as (i & -> & Hi); [lia |]. exists i. split; [done | lia].
Qed.

Lemma StronglySorted_lookup_le (a : list Z) (i j : nat) (u v : Z) :
  StronglySorted Z.le a → a !! i = Some u → a !! j = Some v → (i ≤ j)%nat → u ≤ v.
Proof.
  intros Ha. revert i j. induction Ha as [| w a Ha IH Hw]; intros i j Hi Hj Hij.
  - by rewrite lookup_nil in Hi.
  - destruct i as [| i], j as [| j]; cbn in *; try lia.
    + injection Hi as <-. injection Hj as <-. lia.
    + injection Hi as <-. by eapply list.Forall_forall in Hw; [| by eapply list_elem_of_lookup_2].
    + apply (IH i j); [done | done | lia].
Qed.

(** On a sorted list the loop keeps what is known to be below [x] to the
    left of [lo], and what is known to be at least [x] from [hi] on. *)
Lemma bisect_loop_sorted (a : list Z) (x : Z) (lo hi i : nat) :
  StronglySorted Z.le a → (lo ≤ hi ≤ length a)%nat →
  (∀ k v, (k < lo)%nat → a !! k = Some v → v < x) →
  (∀ k v, (hi ≤ k)%nat → a !! k = Some v → x ≤ v) →
  Py.bisect_loop a x lo hi = Ok i →
  (∀ k v, (k < i)%nat → a !! k = Some v → v < x) ∧
  (∀ k v, (i ≤ k)%nat → a !! k = Some v → x ≤ v).
Proof.
  intros Ha. funelim (Py.bisect_loop a x lo hi); intros Hb Hlo Hhi Hi.
  - injection Hi as <-. split; [done |].
    intros k v Hk. apply Hhi. lia.
  - done.
  - pose proof (midpoint_bounds lo hi ltac:(done)).
    unfold Py.getitem in Heq0.
    destruct (a !! ((lo + hi) `div` 2)%nat) as [w |] eqn:Hw; [| done].
    injection Heq0 as ->.
    apply H; [done | lia | | done | done].
    intros k u Hk Hu.
    pose proof (StronglySorted_lookup_le a k _ u v Ha Hu Hw ltac:(lia)). lia.
  - pose proof (midpoint_bounds lo hi ltac:(done)).
    unfold Py.getitem in Heq0.
    destruct (a !! ((lo + hi) `div` 2)%nat) as [w |] eqn:Hw; [| done].
    injection Heq0 as ->.
    apply H; [done | lia | done | | done].
    intros k u Hk Hu.
    pose proof (StronglySorted_lookup_le a _ k v u Ha Hw Hu ltac:(lia)). lia.
Qed.

Lemma elem_of_slice {A} (l : list A) (i j : nat) (v : A) :
  v ∈ Py.slice l i j ↔ ∃ k, (i ≤ k < j)%nat ∧ l !! k = Some v.
Proof.
  unfold Py.slice. rewrite list_elem_of_lookup. split.
  - intros [k Hk]. rewrite lookup_drop in Hk.
    apply lookup_take_Some in Hk as [Hk Hlt]. exists (i + k)%nat. split; [lia | done].
  - intros (k & Hk & Hv). exists (k - i)%nat.
    rewrite lookup_drop, lookup_take_lt by lia. by replace (i + (k - i))%nat with k by lia.
Qed.

(** [min] returns the first of the elements whose key is least. *)
Lemma min_Ok {A} (key : A → Z) (l : list A) :
  l ≠ [] →
  ∃ m pre post, Py.min key l = Ok m ∧ l = pre ++ m :: post ∧
    Forall (λ y, key m < key y) pre ∧ Forall (λ y, key m ≤ key y) post.
Proof.
  destruct l as [| x l]; [done |]. intros _. cbn.
  induction l as [| y l IH] using rev_ind.
  - exists x, [], []. by repeat split.
  - destruct IH as (m & pre & post & [= Hm] & Hl & Hpre & Hpost).
    rewrite foldl_app. cbn. rewrite Hm, app_comm_cons, Hl.
    destruct (key y <? key m) eqn:Hy.
    + exists y, (pre ++ m :: post), []. rewrite <- app_assoc. repeat split; [| done].
      apply Forall_app. split.
      * eapply Forall_impl; [exact Hpre |]. cbn. lia.
      * constructor; [lia |]. eapply Forall_impl; [exact Hpost |]. cbn. lia.
    + exists m, pre, (post ++ [y]). rewrite <- app_assoc. repeat split; [done |].
      apply Forall_app. split; [done |]. constructor; [lia | done].
Qed.

Lemma min_elem_of {A} (key : A → Z) (l : list A) (m : A) :
  Py.min key l = Ok m → m ∈ l ∧ ∀ y, y ∈ l → key m ≤ key y.
Proof.
  intros Hm. destruct (decide (l = [])) as [-> | Hne]; [done |].
  destruct (min_Ok key l Hne) as (m' & pre & post & Hm' & -> & Hpre & Hpost).
  rewrite Hm in Hm'. injection Hm' as <-. split.
  - apply elem_of_app. right. by left.
  - intros y [Hy | [-> | Hy]%elem_of_cons]%elem_of_app.
    + eapply list.Forall_forall in Hpre; [| done]. cbn in Hpre. lia.
    + lia.
    + by eapply list.Forall_forall in Hpost.
Qed.

(** ** Facts about the index *)

(** The query returns on every non-empty index, sorted or not: the window
    around the insertion point holds at least one timestamp. *)
Lemma nearest_timestamp_Ok (self : LocationHistory) (q : Z) :
  timestamps self ≠ [] →
  ∃ i t pre post,
    Py.bisect_left (timestamps self) q = Ok i ∧ (i ≤ length (timestamps self))%nat ∧
    _nearest_location_from_timestamp self q = Ok t ∧
    Py.slice (timestamps self) (Nat.max 0 (i - 1)) (i + 2) = pre ++ t :: post ∧
    Forall (λ u, Z.abs (q - t) < Z.abs (q - u)) pre ∧
    Forall (λ u, Z.abs (q - t) ≤ Z.abs (q - u)) post.
Proof.
  intros Hne. unfold _nearest_location_from_timestamp, Py.bisect_left.
  destruct (bisect_loop_Ok (timestamps self) q 0 (length (timestamps self)) ltac:(lia))
    as (i & Hi & Hle).
  rewrite Hi. cbn.
  set (w := Py.slice (timestamps self) (Nat.max 0 (i - 1)) (i + 2)).
  assert (Hw : w ≠ []).
  { assert (length (timestamps self) ≠ 0%nat) by (by destruct (timestamps self)).
    destruct (lookup_lt_is_Some_2 (timestamps self) (i - 1)%nat ltac:(lia)) as [v Hv].
    assert (v ∈ w) as Hin by (apply elem_of_slice; exists (i - 1)%nat; split; [lia | done]).
    intros Hnil. rewrite Hnil in Hin. by apply elem_of_nil in Hin. }
  destruct (min_Ok (λ t, Z.abs (q - t)) w Hw) as (t & pre & post & Ht & Hsplit & Hpre & Hpost).
  exists i, t, pre, post. repeat split; (done || lia).
Qed.

Lemma nearest_timestamp_elem_of (self : LocationHistory) (q t : Z) :
  _nearest_location_from_timestamp self q = Ok t → t ∈ timestamps self.
Proof.
  unfold _nearest_location_from_timestamp. intros H. inv_bind H.
  apply min_elem_of in H as [(k & _ & Hk)%elem_of_slice _].
  by eapply list_elem_of_lookup_2.
Qed.

(** On a sorted index the window holds a timestamp nearest to the query. *)
Lemma nearest_timestamp_sorted (self : LocationHistory) (q t : Z) :
  StronglySorted Z.le (timestamps self) →
  _nearest_location_from_timestamp self q = Ok t →
  ∀ u, u ∈ timestamps self → Z.abs (q - t) ≤ Z.abs (q - u).
Proof.
  intros Hs H u Hu. unfold _nearest_location_from_timestamp in H. inv_bind H.
  rename a into i. unfold Py.bisect_left in H0.
  destruct (bisect_loop_Ok (timestamps self) q 0 (length (timestamps self)) ltac:(lia))
    as (i' & Hi' & Hle).
  rewrite H0 in Hi'. injection Hi' as <-.
  destruct (bisect_loop_sorted (timestamps self) q 0 (length (timestamps self)) i Hs
              ltac:(lia)) as [Hlt Hge]; [lia | | done |].
  { intros k v Hk Hv. apply lookup_lt_Some in Hv. lia. }
  apply min_elem_of in H as [_ Hmin].
  apply list_elem_of_lookup in Hu as [k Hk].
  pose proof (lookup_lt_Some _ _ _ Hk) as Hklen.
  destruct (decide (k < i - 1)%nat) as [Hk1 | Hk1];
    [| destruct (decide (k < i + 2)%nat) as [Hk2 | Hk2]].
  - (* left of the window: the window's first entry is between [u] and [q] *)
    destruct (lookup_lt_is_Some_2 (timestamps self) (i - 1)%nat ltac:(lia)) as [v Hv].
    assert (Z.abs (q - t) ≤ Z.abs (q - v)) as Hv'.
    { apply (Hmin v), elem_of_slice. exists (i - 1)%nat. split; [lia | done]. }
    pose proof (StronglySorted_lookup_le _ k (i - 1)%nat u v Hs Hk Hv ltac:(lia)).
    pose proof (Hlt (i - 1)%nat v ltac:(lia) Hv). lia.
  - apply (Hmin u), elem_of_slice. exists k. split; [lia | done].
  - (* right of the window: the entry at [i] is between [q] and [u] *)
    destruct (lookup_lt_is_Some_2 (timestamps self) i ltac:(lia)) as [v Hv].
    assert (Z.abs (q - t) ≤ Z.abs (q - v)) as Hv'.
    { apply (Hmin v), elem_of_slice. exists i. split; [lia | done]. }
    pose proof (StronglySorted_lookup_le _ i k v u Hs Hv Hk ltac:(lia)).
    pose proof (Hge i v ltac:(lia) Hv). lia.
Qed.

Lemma except_KeyError_Ok {A} (body : result A) (msg : string) (v : A) :
  except_KeyError body msg = Ok v ↔ body = Ok v.
Proof. destruct body as [a | []]; cbn; split; intros H; done || discriminate H. Qed.

(** What the loader makes of one record. *)
Lemma load_location_Ok (l : json_location) (x : location) :
  load_location l = Ok x →
  json_timestampMs l = Some (timestampMs x) ∧
  Py.int (timestampMs x) = Ok (msec x) ∧
  Py.MIN_MSEC ≤ msec x ≤ Py.MAX_MSEC ∧
  latitudeE7 x = json_latitudeE7 l ∧ longitudeE7 x = json_longitudeE7 l ∧
  (latitude x = None ↔ json_latitudeE7 l = None) ∧
  (longitude x = None ↔ json_longitudeE7 l = None).
Proof.
  unfold load_location. intros H.
  inv_bind H. rename a into ts. inv_bind H. rename a into z.
  inv_bind H. rename a into dt. inv_bind H. rename a into lat.
  inv_bind H. rename a into lon. injection H as <-. cbn.
  unfold msec. cbn. rewrite H1.
  destruct (json_timestampMs l) as [ts' |]; [| done]. injection H0 as ->.
  unfold msec_to_datetime, Py.fromtimestamp_div_1000 in H2.
  destruct (Py.MIN_MSEC <=? z) eqn:Hmin; [| done].
  destruct (z <=? Py.MAX_MSEC) eqn:Hmax; [| done].
  repeat split; try (done || lia).
  - intros ->. destruct (json_latitudeE7 l); [| done].
    by apply fmap_Ok in H3 as (? & _ & ?).
  - intros Hl. rewrite Hl in H3. by injection H3.
  - intros ->. destruct (json_longitudeE7 l); [| done].
    by apply fmap_Ok in H4 as (? & _ & ?).
  - intros Hl. rewrite Hl in H4. by injection H4.
Qed.

Lemma extract_timestamps_Ok (l : list location) :
  Forall (λ x, Py.int (timestampMs x) = Ok (msec x)) l →
  _extract_timestamps_from_history l = Ok (msec <$> l).
Proof.
  intros H. apply comprehension_Ok. induction H; constructor; done.
Qed.

Lemma dict_by_timestamp_Ok (l : list location) :
  Forall (λ x, Py.int (timestampMs x) = Ok (msec x)) l →
  _location_history_to_dict_by_timestamp l = Ok (foldl (λ d x, <[msec x := x]> d) ∅ l).
Proof.
  unfold _location_history_to_dict_by_timestamp. generalize (∅ : gmap Z location).
  intros d H. revert d. induction H as [| x l Hx _ IH]; intros d; [done |].
  cbn. rewrite Hx. cbn. apply IH.
Qed.

(** The dict maps a timestamp to the last record of the list that has it. *)
Lemma location_dict_lookup (l : list location) (k : Z) :
  foldl (λ d x, <[msec x := x]> d) (∅ : gmap Z location) l !! k
  = last (filter (λ x, msec x = k) l).
Proof.
  induction l as [| x l IH] using rev_ind; [done |].
  rewrite foldl_app, filter_app. cbn [foldl]. rewrite filter_cons, filter_nil.
  destruct (decide (msec x = k)) as [<- | Hne].
  - by rewrite lookup_insert_eq, last_snoc.
  - by rewrite lookup_insert_ne, app_nil_r.
Qed.

(** Everything [__init__] establishes about the index it returns. *)
Lemma init_Ok (fn : string) (data : json_file) (self : LocationHistory) :
  __init__ fn data = Ok self →
  ∃ raw loaded,
    locations data = Some raw ∧
    Forall2 (λ l x, load_location l = Ok x) raw loaded ∧
    Py.sorted timestampMs loaded = Ok (location_history self) ∧
    timestamps self = msec <$> location_history self ∧
    location_dict self = foldl (λ d x, <[msec x := x]> d) ∅ (location_history self) ∧
    filename self = fn.
Proof.
  unfold __init__, _load_location_history. intros H.
  inv_bind H. rename a into hist. apply except_KeyError_Ok in H0.
  inv_bind H0. rename a into raw. inv_bind H0. rename a into loaded.
  destruct (locations data) as [raw' |]; [| done]. injection H1 as ->.
  apply comprehension_Ok in H2.
  assert (Hint : Forall (λ x, Py.int (timestampMs x) = Ok (msec x)) hist).
  { apply list.Forall_forall. intros x Hx.
    rewrite (sorted_Permutation _ _ _ H0) in Hx.
    destruct (proj1 (list_elem_of_lookup loaded x) Hx) as [i Hi].
    destruct (Forall2_lookup_r _ _ _ _ _ H2 Hi) as (l & _ & Hl).
    by apply load_location_Ok in Hl as (_ & ? & _). }
  rewrite (extract_timestamps_Ok _ Hint) in H. cbn in H.
  rewrite (dict_by_timestamp_Ok _ Hint) in H. cbn in H.
  injection H as <-. cbn. by exists raw, loaded.
Qed.

(** ** The claims *)

(** *** Length of the index *)

(** C10: when construction accepts an input, the index has as many records
    as the input, colliding timestamps included: the record sequence and
    the timestamp array keep every record, and the dict alone has one
    entry per distinct timestamp. *)
Theorem len_counts_every_record (fn : string) (data : json_file)
    (raw : list json_location) (self : LocationHistory) :
  __init__ fn data = Ok self → locations data = Some raw →
  __len__ self = length raw ∧
  length (timestamps self) = length raw ∧
  ∀ k, is_Some (location_dict self !! k) ↔ k ∈ timestamps self.
Proof.
  intros (raw' & loaded & Hraw & Hload & Hsort & Hts & Hdict & _)%init_Ok Hdata.
  rewrite Hdata in Hraw. injection Hraw as <-.
  assert (__len__ self = length raw) as Hlen.
  { unfold __len__. rewrite (sorted_length _ _ _ Hsort). symmetry.
    by eapply Forall2_length. }
  split; [done |]. split; [by rewrite Hts, length_fmap |].
  intros k. rewrite Hdict, location_dict_lookup, Hts, list_elem_of_fmap.
  split.
  - intros [x Hx]. exists x. apply last_Some_elem_of in Hx.
    by apply list_elem_of_filter in Hx as [-> ?].
  - intros (x & -> & Hx).
    assert (x ∈ filter (λ y, msec y = msec x) (location_history self)) as Hin
      by (by apply list_elem_of_filter).
    apply last_is_Some. intros Hnil. rewrite Hnil in Hin. by apply elem_of_nil in Hin.
Qed.

Lemma len_counts_every_record_witness :
  __init__ "history.json" duplicate_records
    = Ok (index_of "history.json" duplicate_records) ∧
  __len__ (index_of "history.json" duplicate_records) = 3%nat ∧
  length (timestamps (index_of "history.json" duplicate_records)) = 3%nat ∧
  size (location_dict (index_of "history.json" duplicate_records)) = 2%nat.
Proof.
  split; [reflexivity |].
  destruct (len_counts_every_record "history.json" duplicate_records _
              (index_of "history.json" duplicate_records) eq_refl eq_refl)
    as (Hlen & Hts & _).
  split; [exact Hlen |]. split; [exact Hts | reflexivity].
Defined.

(** *** Construction is all or nothing *)

Lemma load_location_missing_timestamp (l : json_location) :
  json_timestampMs l = None → load_location l = Raise (KeyError (PyStr "timestampMs")).
Proof. unfold load_location. by intros ->. Qed.




(** *** The empty index *)

(** C5: on an index without records, [nearest_location] raises, and
    [add_location_to_photo] passes the exception on: neither returns a
    result, so the failure is never taken for a miss. *)
Theorem empty_index_raises (fn : string) (data : json_file) (self : LocationHistory) :
  __init__ fn data = Ok self → __len__ self = 0%nat →
  (∀ q, nearest_location self q = Raise empty_sequence) ∧
  (∀ photo delta dry_run album photolib,
     add_location_to_photo photo self delta dry_run album photolib
     = Raise empty_sequence).
Proof.
  intros (raw & loaded & _ & _ & _ & Hts & _)%init_Ok Hlen.
  unfold __len__ in Hlen. apply length_zero_iff_nil in Hlen.
  rewrite Hlen in Hts. cbn in Hts.
  assert (∀ q, nearest_location self q = Raise empty_sequence) as Hq.
  { intros q. unfold nearest_location, _nearest_location_from_timestamp.
    rewrite Hts. done. }
  split; [done |]. intros. unfold add_location_to_photo. by rewrite Hq.
Qed.

Lemma empty_index_raises_witness :
  __init__ "history.json" {| locations := Some [] |}
    = Ok (index_of "history.json" {| locations := Some [] |}) ∧
  __len__ (index_of "history.json" {| locations := Some [] |}) = 0%nat ∧
  nearest_location (index_of "history.json" {| locations := Some [] |}) 1900000
    = Raise empty_sequence.
Proof.
  split; [reflexivity |]. split; [reflexivity |].
  exact (proj1 (empty_index_raises "history.json" {| locations := Some [] |}
                  (index_of "history.json" {| locations := Some [] |})
                  eq_refl eq_refl) 1900000).
Defined.

(** *** The delta in seconds *)

Lemma init_history_range (fn : string) (data : json_file) (self : LocationHistory) :
  __init__ fn data = Ok self →
  Forall (λ x, Py.int (timestampMs x) = Ok (msec x) ∧
               Py.MIN_MSEC ≤ msec x ≤ Py.MAX_MSEC) (location_history self).
Proof.
  intros (raw & loaded & _ & Hload & Hsort & _)%init_Ok.
  apply list.Forall_forall. intros x Hx.
  rewrite (sorted_Permutation _ _ _ Hsort) in Hx.
  destruct (proj1 (list_elem_of_lookup loaded x) Hx) as [i Hi].
  destruct (Forall2_lookup_r _ _ _ _ _ Hload Hi) as (l & _ & Hl).
  by apply load_location_Ok in Hl as (_ & ? & ? & _).
Qed.

(** The query returns on every non-empty index: the record is the last of
    the sequence that has the chosen timestamp, and the delta truncates to
    the whole seconds of the distance. *)
Lemma nearest_location_Ok (fn : string) (data : json_file) (self : LocationHistory) (q : Z) :
  __init__ fn data = Ok self → __len__ self ≠ 0%nat → datetime_range q →
  ∃ t r f,
    _nearest_location_from_timestamp self q = Ok t ∧
    last (filter (λ x, msec x = t) (location_history self)) = Some r ∧
    nearest_location self q = Ok (r, f) ∧
    Py.int_of_float f = Ok (Z.abs (msec r - q) `div` 1000).
Proof.
  intros Hinit Hlen Hq.
  pose proof (init_history_range _ _ _ Hinit) as Hrange.
  destruct (init_Ok _ _ _ Hinit) as (raw & loaded & _ & _ & _ & Hts & Hdict & _).
  assert (timestamps self ≠ []) as Hne.
  { rewrite Hts. unfold __len__ in Hlen. by destruct (location_history self). }
  destruct (nearest_timestamp_Ok self q Hne) as (i & t & pre & post & _ & _ & Ht & _).
  pose proof (nearest_timestamp_elem_of _ _ _ Ht) as Hin.
  rewrite Hts in Hin. apply list_elem_of_fmap in Hin as (x & -> & Hx).
  assert (is_Some (last (filter (λ y, msec y = msec x) (location_history self)))) as [r Hr].
  { apply last_is_Some. intros Hnil.
    assert (x ∈ filter (λ y, msec y = msec x) (location_history self)) as Hin
      by (by apply list_elem_of_filter).
    rewrite Hnil in Hin. by apply elem_of_nil in Hin. }
  pose proof (last_Some_elem_of _ _ Hr) as [Hrx Hrin]%list_elem_of_filter.
  eapply list.Forall_forall in Hrange as [Hint Hrng]; [| exact Hrin].
  destruct (int_truediv_1000 (Z.abs (msec r - q))) as (f & Hf & Hfi).
  { unfold datetime_range in Hq. unfold Py.MIN_MSEC, Py.MAX_MSEC in Hrng.
    change (2 ^ 52) with 4503599627370496 in Hq.
    change (2 ^ 53) with 9007199254740992. lia. }
  exists (msec x), r, f. repeat split; [done | done | | done].
  unfold nearest_location. rewrite Ht. cbn.
  rewrite Hdict, location_dict_lookup, Hr. cbn. rewrite Hint. cbn. by rewrite Hf.
Qed.

(** C6: on a non-empty index the delta that [nearest_location] returns,
    once [add_location_to_photo] has applied [int] to it, is the absolute
    difference in milliseconds between the timestamp of the chosen record
    and the query, divided by 1000 and truncated toward zero. *)
Theorem delta_truncates (fn : string) (data : json_file) (self : LocationHistory) (q : Z) :
  __init__ fn data = Ok self → __len__ self ≠ 0%nat → datetime_range q →
  ∃ r f, nearest_location self q = Ok (r, f) ∧
         Py.int_of_float f = Ok (Z.abs (msec r - q) `quot` 1000).
Proof.
  intros Hinit Hlen Hq.
  destruct (nearest_location_Ok _ _ _ q Hinit Hlen Hq) as (t & r & f & _ & _ & Hr & Hf).
  exists r, f. split; [done |]. rewrite Hf. f_equal.
  symmetry. apply Z.quot_div_nonneg; lia.
Qed.

Lemma delta_truncates_witness :
  __init__ "history.json" three_records = Ok (index_of "history.json" three_records) ∧
  __len__ (index_of "history.json" three_records) ≠ 0%nat ∧
  datetime_range 1900999 ∧
  ∃ r f, nearest_location (index_of "history.json" three_records) 1900999 = Ok (r, f) ∧
         Py.int_of_float f = Ok (Z.abs (msec r - 1900999) `quot` 1000).
Proof.
  assert (__len__ (index_of "history.json" three_records) ≠ 0%nat) as Hlen by done.
  assert (datetime_range 1900999) as Hq by (by vm_compute).
  split; [reflexivity |]. split; [exact Hlen |]. split; [exact Hq |].
  exact (delta_truncates "history.json" three_records
           (index_of "history.json" three_records) 1900999 eq_refl Hlen Hq).
Defined.

(** *** The match decision *)

(** C3: on a non-empty index, [add_location_to_photo] reports a match
    exactly when the delta in whole seconds is below the threshold.  With
    [d] the delta: at threshold [d] (a delta equal to the threshold) and
    at [d - 1] it returns 0 without any effect, at [d + 1] it reports the
    match; a miss is a returned 0, not an exception.  The match is reported
    with return value 1 when the run is dry or the Photos library takes
    the update. *)
Theorem match_iff_delta_below_threshold (fn : string) (data : json_file)
    (self : LocationHistory) (photo : PhotoInfo) (album : option string) :
  __init__ fn data = Ok self → __len__ self ≠ 0%nat → datetime_range (date_msec photo) →
  ∃ r f d,
    nearest_location self (date_msec photo) = Ok (r, f) ∧ Py.int_of_float f = Ok d ∧
    (∀ T dry_run photolib,
       T ≤ d → add_location_to_photo photo self T dry_run album photolib = Ok (0, [])) ∧
    (∀ T dry_run photolib,
       d < T → ∃ ret effects,
         add_location_to_photo photo self T dry_run album photolib
         = Ok (ret, echo_found photo d (latitude r) (longitude r) :: effects) ∧
         (dry_run = true ∨ photolib = library_updates → ret = 1)) ∧
    (∀ T dry_run photolib,
       (dry_run = true ∨ photolib = library_updates) →
       (fst <$> add_location_to_photo photo self T dry_run album photolib = Ok 1 ↔ d < T)) ∧
    (∀ dry_run photolib,
       add_location_to_photo photo self d dry_run album photolib = Ok (0, []) ∧
       add_location_to_photo photo self (d - 1) dry_run album photolib = Ok (0, []) ∧
       fst <$> add_location_to_photo photo self (d + 1) true album photolib = Ok 1).
Proof.
  intros Hinit Hlen Hq.
  destruct (nearest_location_Ok _ _ _ _ Hinit Hlen Hq) as (t & r & f & _ & _ & Hr & Hf).
  exists r, f, (Z.abs (msec r - date_msec photo) `div` 1000).
  split; [done |]. split; [done |].
  set (d := Z.abs (msec r - date_msec photo) `div` 1000) in *.
  assert (Hmiss : ∀ T dry_run photolib,
    T ≤ d → add_location_to_photo photo self T dry_run album photolib = Ok (0, [])).
  { intros T dry_run photolib HT. unfold add_location_to_photo.
    rewrite Hr. cbn. rewrite Hf. cbn.
    by replace (d >=? T) with true by lia. }
  assert (Hhit : ∀ T dry_run photolib,
    d < T → ∃ ret effects,
      add_location_to_photo photo self T dry_run album photolib
      = Ok (ret, echo_found photo d (latitude r) (longitude r) :: effects) ∧
      (dry_run = true ∨ photolib = library_updates → ret = 1)).
  { intros T dry_run photolib HT. unfold add_location_to_photo.
    rewrite Hr. cbn. rewrite Hf. cbn.
    replace (d >=? T) with false by lia.
    destruct dry_run; [by eexists _, _ |].
    destruct photolib, album; eexists _, _; (split; [done |]); by intros [|]. }
  split; [done |]. split; [done |]. split.
  - intros T dry_run photolib Hok. split.
    + intros H1. destruct (decide (d < T)) as [| Hge]; [done |].
      rewrite (Hmiss T dry_run photolib ltac:(lia)) in H1. done.
    + intros HT. destruct (Hhit T dry_run photolib HT) as (ret & effects & -> & Hret).
      cbn. by rewrite (Hret Hok).
  - intros dry_run photolib. split; [apply Hmiss; lia |]. split; [apply Hmiss; lia |].
    destruct (Hhit (d + 1) true photolib ltac:(lia)) as (ret & effects & -> & Hret).
    cbn. by rewrite Hret by (by left).
Qed.

Lemma match_iff_delta_below_threshold_witness :
  __init__ "history.json" three_records = Ok (index_of "history.json" three_records) ∧
  __len__ (index_of "history.json" three_records) ≠ 0%nat ∧
  datetime_range (date_msec (photo_at 1900000)) ∧
  ∃ r f d,
    nearest_location (index_of "history.json" three_records) 1900000 = Ok (r, f) ∧
    Py.int_of_float f = Ok d ∧
    add_location_to_photo (photo_at 1900000) (index_of "history.json" three_records)
      d true None library_updates = Ok (0, []).
Proof.
  assert (__len__ (index_of "history.json" three_records) ≠ 0%nat) as Hlen by done.
  assert (datetime_range (date_msec (photo_at 1900000))) as Hq by (by vm_compute).
  split; [reflexivity |]. split; [exact Hlen |]. split; [exact Hq |].
  destruct (match_iff_delta_below_threshold "history.json" three_records
              (index_of "history.json" three_records) (photo_at 1900000) None
              eq_refl Hlen Hq) as (r & f & d & Hr & Hf & _ & _ & _ & Hd).
  exists r, f, d. split; [exact Hr |]. split; [exact Hf |].
  exact (proj1 (Hd true library_updates)).
Defined.

(** The scenario of the specification: the photo at 1900000 is 100 s from
    the record at 2000000, a match at threshold 120 and a miss at 90. *)
Example scenario_three_records :
  let self := index_of "history.json" three_records in
  timestamps self = [1000000; 2000000; 5000000] ∧
  (msec ∘ fst <$> nearest_location self 1900000) = Ok 2000000 ∧
  (r ← nearest_location self 1900000; Py.int_of_float (snd r)) = Ok 100 ∧
  fst <$> add_location_to_photo (photo_at 1900000) self 120 true None library_updates = Ok 1 ∧
  fst <$> add_location_to_photo (photo_at 1900000) self 90 true None library_updates = Ok 0.
Proof. by vm_compute. Qed.

(** *** Records without coordinates *)

(** C9: a record is not passed over for lacking coordinates.  In
    [no_coordinates_nearby] the record nearest to the photo, 10 s
    away, has neither ["latitudeE7"] nor ["longitudeE7"]; the match is
    reported and the location written is [(None, None)], although the
    other record, 40 s away and within the threshold of 60 s, has
    coordinates. *)
Theorem nearest_without_coordinates_matches :
  ∃ self r f other,
    __init__ "history.json" no_coordinates_nearby = Ok self ∧
    nearest_location self 1010000 = Ok (r, f) ∧
    latitudeE7 r = None ∧ longitudeE7 r = None ∧
    latitude r = None ∧ longitude r = None ∧
    add_location_to_photo (photo_at 1010000) self 60 false None library_updates
    = Ok (1, [echo_found (photo_at 1010000) 10 None None;
              set_location (uuid (photo_at 1010000)) None None;
              echo_added]) ∧
    other ∈ location_history self ∧
    Z.abs (msec other - 1010000) `quot` 1000 = 40 ∧
    latitude other ≠ None ∧ longitude other ≠ None.
Proof.
  eexists (index_of "history.json" no_coordinates_nearby), _, _, _.
  split; [reflexivity |]. split; [by vm_compute |].
  repeat split; try reflexivity.
  - apply list_elem_of_lookup. by exists 1%nat.
  - reflexivity.
  - discriminate.
  - discriminate.
Qed.

(** *** The order of the index *)

Lemma StronglySorted_fmap_impl {A B} (R : relation A) (R' : relation B)
    (f : A → B) (l : list A) :
  StronglySorted R l → (∀ x y, x ∈ l → y ∈ l → R x y → R' (f x) (f y)) →
  StronglySorted R' (f <$> l).
Proof.
  induction 1 as [| x l Hl IH Hx]; intros HR; cbn; constructor.
  - apply IH. intros; apply HR; by try right.
  - apply Forall_fmap, list.Forall_forall. intros y Hy. cbn.
    apply HR; [by left | by right |]. by eapply list.Forall_forall in Hx.
Qed.

Lemma history_numeric_keys (fn : string) (data : json_file) (raw : list json_location)
    (self : LocationHistory) (x y : location) :
  __init__ fn data = Ok self → locations data = Some raw → numeric_keys raw →
  x ∈ location_history self → y ∈ location_history self →
  Py.lt (timestampMs x) (timestampMs y) = Ok (msec x <? msec y).
Proof.
  intros (raw' & loaded & Hraw & Hload & Hsort & _)%init_Ok Hdata Hnum Hx Hy.
  rewrite Hdata in Hraw. injection Hraw as <-.
  rewrite (sorted_Permutation _ _ _ Hsort) in Hx, Hy.
  apply list_elem_of_lookup in Hx as [i Hi], Hy as [j Hj].
  destruct (Forall2_lookup_r _ _ _ _ _ Hload Hi) as (lx & Hlx & Hx).
  destruct (Forall2_lookup_r _ _ _ _ _ Hload Hj) as (ly & Hly & Hy).
  apply load_location_Ok in Hx as (Hkx & Hix & _), Hy as (Hky & Hiy & _).
  eapply Hnum; try done; by eapply list_elem_of_lookup_2.
Qed.

(** Where the keys compare as numbers, the index is in timestamp order. *)
Lemma timestamps_sorted_of_numeric_keys (fn : string) (data : json_file)
    (raw : list json_location) (self : LocationHistory) :
  __init__ fn data = Ok self → locations data = Some raw → numeric_keys raw →
  StronglySorted Z.le (msec <$> location_history self) ∧
  StronglySorted Z.le (timestamps self).
Proof.
  intros Hinit Hdata Hnum.
  destruct (init_Ok _ _ _ Hinit) as (raw' & loaded & _ & _ & Hsort & Hts & _).
  rewrite Hts. assert (StronglySorted Z.le (msec <$> location_history self)); [| done].
  eapply StronglySorted_fmap_impl; [by eapply sorted_StronglySorted |].
  intros x y Hx Hy Hle. unfold key_le in Hle.
  rewrite (history_numeric_keys _ _ _ _ y x Hinit Hdata Hnum Hy Hx) in Hle.
  injection Hle as Hle. lia.
Qed.

Lemma numeric_keys_int (raw : list json_location) :
  Forall (λ l, ∀ a, json_timestampMs l = Some a → ∃ z, a = PyInt z) raw →
  numeric_keys raw.
Proof.
  intros Hraw l l' a b x y Hl Hl' Ha Hb Hx Hy.
  eapply list.Forall_forall in Hl, Hl'; [| exact Hraw ..].
  destruct (Hl _ Ha) as [z ->], (Hl' _ Hb) as [z' ->].
  cbn in *. by injection Hx as <-; injection Hy as <-.
Qed.

(** *** Keys of decimal digits *)

Lemma digit_Some (c : ascii) :
  is_Some (Py.digit c) →
  Py.digit c = Some (Z.of_N (N_of_ascii c) - 48) ∧
  48 ≤ Z.of_N (N_of_ascii c) ≤ 57 ∧ Py.isspace c = false.
Proof.
  unfold Py.digit, Py.isspace. intros [d Hd].
  destruct (Z.leb_spec 48 (Z.of_N (N_of_ascii c))) as [H1 | H1]; [| done].
  destruct (Z.leb_spec (Z.of_N (N_of_ascii c)) 57) as [H2 | H2]; [| done].
  split; [done |]. split; [lia |].
  replace (Z.of_N (N_of_ascii c) <=? 13) with false by lia.
  replace (Z.of_N (N_of_ascii c) =? 32) with false by lia.
  replace (Z.of_N (N_of_ascii c) =? 133) with false by lia.
  replace (Z.of_N (N_of_ascii c) =? 160) with false by lia.
  by rewrite andb_false_r.
Qed.

Lemma digits_decimal (l : list ascii) (acc : Z) (after : bool) :
  Forall (λ c, is_Some (Py.digit c)) l → l ≠ [] ∨ after = true →
  Py.digits acc after l = Some (decimal_value acc l).
Proof.
  intros Hl. revert acc after. induction Hl as [| c l Hc _ IH]; intros acc after Hne; cbn.
  - by destruct Hne as [| ->].
  - destruct (digit_Some c Hc) as (-> & _). apply IH. by right.
Qed.

Lemma lstrip_decimal (l : list ascii) :
  Forall (λ c, is_Some (Py.digit c)) l → Py.lstrip l = l.
Proof.
  intros [| c l' Hc _]; [done |]. cbn. by destruct (digit_Some c Hc) as (_ & _ & ->).
Qed.

Lemma scan_decimal (l : list ascii) (n : Z) :
  Forall (λ c, is_Some (Py.digit c)) l →
  Py.scan n false l = Some (n + Z.of_nat (length l)).
Proof.
  intros Hl. revert n. induction Hl as [| c l Hc _ IH]; intros n; cbn [Py.scan length].
  - f_equal. lia.
  - destruct (digit_Some c Hc) as (-> & _). rewrite IH. f_equal. lia.
Qed.

(** [int] of a string of decimal digits: their value, unless there are
    more than 4300 of them. *)
Lemma int_decimal (s : string) :
  s ≠ EmptyString → Forall (λ c, is_Some (Py.digit c)) (list_ascii_of_string s) →
  Py.int (PyStr s)
  = if 4300 <? Z.of_nat (length (list_ascii_of_string s)) then Raise Py.exceeds_limit
    else Ok (decimal_value 0 (list_ascii_of_string s)).
Proof.
  intros Hs Hl. cbn. unfold Py.int_of_str, Py.strip.
  rewrite (lstrip_decimal _ Hl), lstrip_decimal, rev_involutive
    by (by apply Forall_rev).
  destruct s as [| c s]; [done |]. cbn [list_ascii_of_string] in *.
  pose proof (scan_decimal _ 0 Hl) as Hscan. rewrite Z.add_0_l in Hscan.
  apply Forall_cons in Hl as [Hc Hl].
  assert (Py.digits 0 false (c :: list_ascii_of_string s)
          = Some (decimal_value 0 (c :: list_ascii_of_string s))) as Hd
    by (apply digits_decimal; [by constructor | by left]).
  destruct (digit_Some c Hc) as (_ & Hrange & _).
  destruct c as [[] [] [] [] [] [] [] []]; try (cbn in Hrange; lia);
    unfold Py.int_of_digits; by rewrite Hscan, Hd.
Qed.

Lemma decimal_value_bounds (l : list ascii) (acc : Z) :
  Forall (λ c, is_Some (Py.digit c)) l →
  decimal_value acc l = acc * 10 ^ Z.of_nat (length l) + decimal_value 0 l ∧
  0 ≤ decimal_value 0 l < 10 ^ Z.of_nat (length l).
Proof.
  intros Hl. revert acc. induction Hl as [| c l Hc _ IH]; intros acc.
  - cbn. lia.
  - destruct (digit_Some c Hc) as (_ & Hrange & _).
    cbn [length]. rewrite Nat2Z.inj_succ, Z.pow_succ_r by lia.
    unfold decimal_value in *. cbn [foldl].
    destruct (IH (10 * acc + (Z.of_N (N_of_ascii c) - 48))) as [-> Hb].
    destruct (IH (10 * 0 + (Z.of_N (N_of_ascii c) - 48))) as [-> _].
    split; [ring | nia].
Qed.

(** Strings of as many decimal digits compare as the numbers they denote. *)
Lemma ltb_decimal (s t : string) :
  String.length s = String.length t →
  Forall (λ c, is_Some (Py.digit c)) (list_ascii_of_string s) →
  Forall (λ c, is_Some (Py.digit c)) (list_ascii_of_string t) →
  String.ltb s t
  = (decimal_value 0 (list_ascii_of_string s) <? decimal_value 0 (list_ascii_of_string t)).
Proof.
  unfold String.ltb. revert t.
  induction s as [| c s IH]; intros [| c' t] Hlen Hs Ht; try done.
  cbn [list_ascii_of_string String.length] in *.
  apply Forall_cons in Hs as [Hc Hs]. apply Forall_cons in Ht as [Hc' Ht].
  injection Hlen as Hlen.
  assert (length (list_ascii_of_string s) = length (list_ascii_of_string t)) as Hlen'.
  { clear -Hlen. revert t Hlen. induction s; intros [| ? t]; cbn; try done.
    intros [= H]. f_equal. by apply IHs. }
  destruct (decimal_value_bounds _ (10 * 0 + (Z.of_N (N_of_ascii c) - 48)) Hs) as [Hv Hb].
  destruct (decimal_value_bounds _ (10 * 0 + (Z.of_N (N_of_ascii c') - 48)) Ht) as [Hv' Hb'].
  unfold decimal_value in *. cbn [foldl]. rewrite Hv, Hv', <- Hlen'.
  set (P := 10 ^ Z.of_nat (length (list_ascii_of_string s))) in *.
  rewrite <- Hlen' in Hb'. fold P in Hb'.
  cbn [String.compare]. unfold Ascii.compare.
  destruct (N.compare_spec (N_of_ascii c) (N_of_ascii c')) as [Heq | Hlt | Hgt].
  - rewrite Heq, (IH t Hlen Hs Ht).
    destruct (Z.ltb_spec (foldl (λ a c0, 10 * a + (Z.of_N (N_of_ascii c0) - 48)) 0
                            (list_ascii_of_string s))
                (foldl (λ a c0, 10 * a + (Z.of_N (N_of_ascii c0) - 48)) 0
                   (list_ascii_of_string t))); symmetry; [apply Z.ltb_lt | apply Z.ltb_ge]; lia.
  - symmetry. apply Z.ltb_lt. nia.
  - symmetry. apply Z.ltb_ge. nia.
Qed.

Lemma numeric_keys_decimal (n : nat) (raw : list json_location) :
  Forall (λ l, ∀ a, json_timestampMs l = Some a → decimal n a) raw →
  numeric_keys raw.
Proof.
  intros Hraw l l' a b x y Hl Hl' Ha Hb Hx Hy.
  eapply list.Forall_forall in Hl, Hl'; [| exact Hraw ..].
  destruct (Hl _ Ha) as (s & -> & Hs & Hds), (Hl' _ Hb) as (t & -> & Ht & Hdt).
  assert (s ≠ EmptyString) as Hne.
  { intros ->. cbn in Hx. discriminate Hx. }
  assert (t ≠ EmptyString) as Hne'.
  { intros ->. cbn in Hy. discriminate Hy. }
  rewrite (int_decimal s Hne Hds) in Hx. rewrite (int_decimal t Hne' Hdt) in Hy.
  destruct (4300 <? _) in Hx; [discriminate Hx |].
  destruct (4300 <? _) in Hy; [discriminate Hy |].
  injection Hx as <-. injection Hy as <-.
  cbn [Py.lt]. f_equal. apply ltb_decimal; [congruence | done | done].
Qed.

(** With [int] keys the record sequence and the timestamp array are in
    non-decreasing order. *)
Lemma index_sorted_of_int_keys (fn : string) (data : json_file)
    (raw : list json_location) (self : LocationHistory) :
  __init__ fn data = Ok self → locations data = Some raw →
  Forall (λ l, ∀ a, json_timestampMs l = Some a → ∃ z, a = PyInt z) raw →
  Sorted Z.le (msec <$> location_history self) ∧ Sorted Z.le (timestamps self).
Proof.
  intros Hinit Hdata Hint%numeric_keys_int.
  destruct (timestamps_sorted_of_numeric_keys _ _ _ _ Hinit Hdata Hint).
  split; by apply StronglySorted_Sorted.
Qed.

(** So it is with [str] keys of one number of decimal digits, such as the
    13 digits of every instant from 2001-09-09 to 2286-11-20. *)
Lemma index_sorted_of_decimal_keys (n : nat) (fn : string) (data : json_file)
    (raw : list json_location) (self : LocationHistory) :
  __init__ fn data = Ok self → locations data = Some raw →
  Forall (λ l, ∀ a, json_timestampMs l = Some a → decimal n a) raw →
  Sorted Z.le (msec <$> location_history self) ∧ Sorted Z.le (timestamps self).
Proof.
  intros Hinit Hdata Hdec%numeric_keys_decimal.
  destruct (timestamps_sorted_of_numeric_keys _ _ _ _ Hinit Hdata Hdec).
  split; by apply StronglySorted_Sorted.
Qed.

(** C2: the index is meant to be in timestamp order, but the loader sorts
    on the raw key, ["timestampMs"] as decoded, where every other use
    applies [int] to it.  The export writes the key as a string, and
    strings compare character by character: a timestamp of 13 digits
    sorts before one of 12. *)
Theorem index_not_sorted :
  ∃ self,
    __init__ "history.json" twelve_and_thirteen_digits = Ok self ∧
    msec <$> location_history self = [1000000000000; 999999999999] ∧
    timestamps self = [1000000000000; 999999999999] ∧
    ¬ Sorted Z.le (msec <$> location_history self) ∧
    ¬ Sorted Z.le (timestamps self).
Proof.
  exists (index_of "history.json" twelve_and_thirteen_digits).
  split; [reflexivity |]. split; [reflexivity |]. split; [reflexivity |].
  assert (¬ Sorted Z.le [1000000000000; 999999999999]) as Hns.
  { intros [_ Hhd]%Sorted_inv. apply HdRel_inv in Hhd. lia. }
  split; exact Hns.
Qed.

(** *** The nearest record *)

(** On an index in timestamp order the record returned is at least
    as near to the query as every record of the index, and its timestamp
    is the first of least distance in the window of up to three entries
    around the insertion point. *)
Lemma nearest_location_minimal (fn : string) (data : json_file)
    (self : LocationHistory) (q : Z) :
  __init__ fn data = Ok self → __len__ self ≠ 0%nat → datetime_range q →
  StronglySorted Z.le (timestamps self) →
  ∃ r f i pre post,
    nearest_location self q = Ok (r, f) ∧ r ∈ location_history self ∧
    (∀ x, x ∈ location_history self → Z.abs (q - msec r) ≤ Z.abs (q - msec x)) ∧
    Py.bisect_left (timestamps self) q = Ok i ∧
    Py.slice (timestamps self) (Nat.max 0 (i - 1)) (i + 2) = pre ++ msec r :: post ∧
    Forall (λ u, Z.abs (q - msec r) < Z.abs (q - u)) pre ∧
    Forall (λ u, Z.abs (q - msec r) ≤ Z.abs (q - u)) post.
Proof.
  intros Hinit Hlen Hq Hsorted.
  destruct (nearest_location_Ok _ _ _ q Hinit Hlen Hq) as (t & r & f & Ht & Hlast & Hr & _).
  destruct (init_Ok _ _ _ Hinit) as (raw & loaded & _ & _ & _ & Hts & _).
  assert (timestamps self ≠ []) as Hne.
  { rewrite Hts. unfold __len__ in Hlen. by destruct (location_history self). }
  destruct (nearest_timestamp_Ok self q Hne)
    as (i & t' & pre & post & Hi & _ & Ht' & Hw & Hpre & Hpost).
  rewrite Ht in Ht'. injection Ht' as <-.
  pose proof (last_Some_elem_of _ _ Hlast) as [Hrt Hrin]%list_elem_of_filter.
  subst t. exists r, f, i, pre, post. repeat split; try done.
  intros x Hx. apply (nearest_timestamp_sorted self q _ Hsorted Ht).
  rewrite Hts. by apply list_elem_of_fmap_2.
Qed.

(** C1: on an index built from timestamps of 12 and of 13 digits, which
    the loader leaves out of timestamp order, the binary search runs on an
    unsorted array.  The query at 999999999999, the timestamp of a record
    of the index, returns the record at 1000000000000. *)
Theorem nearest_not_minimal :
  ∃ self r f x,
    __init__ "history.json" mixed_digits = Ok self ∧
    nearest_location self 999999999999 = Ok (r, f) ∧
    msec r = 1000000000000 ∧
    x ∈ location_history self ∧ msec x = 999999999999 ∧
    Z.abs (999999999999 - msec x) < Z.abs (999999999999 - msec r).
Proof.
  eexists (index_of "history.json" mixed_digits), _, _, _.
  split; [reflexivity |]. split; [by vm_compute |]. split; [reflexivity |].
  split; [apply list_elem_of_lookup; by exists 3%nat |].
  split; [reflexivity | by vm_compute].
Qed.

(** *** Records that share a timestamp *)

(** Where the keys compare as numbers, the query at the timestamp of a
    record returns the record that comes last in the input among those
    with that timestamp. *)
Lemma nearest_location_last_duplicate (fn : string) (data : json_file)
    (pre post : list json_location) (l : json_location) (x : location)
    (self : LocationHistory) :
  __init__ fn data = Ok self → locations data = Some (pre ++ l :: post) →
  numeric_keys (pre ++ l :: post) →
  load_location l = Ok x →
  (∀ l' x', l' ∈ post → load_location l' = Ok x' → msec x' ≠ msec x) →
  ∃ f, nearest_location self (msec x) = Ok (x, f).
Proof.
  intros Hinit Hdata Hnum Hx Hpost.
  destruct (init_Ok _ _ _ Hinit) as (raw & loaded & Hraw & Hload & Hsort & Hts & _).
  rewrite Hdata in Hraw. injection Hraw as <-.
  apply Forall2_app_inv_l in Hload as (lpre & lrest & Hlpre & Hrest & ->).
  apply Forall2_cons_inv_l in Hrest as (x' & lpost & Hx' & Hlpost & ->).
  rewrite Hx in Hx'. injection Hx' as <-.
  assert (x ∈ location_history self) as Hin.
  { rewrite (sorted_Permutation _ _ _ Hsort). apply elem_of_app. right. by left. }
  assert (__len__ self ≠ 0%nat) as Hlen.
  { unfold __len__. destruct (location_history self); [by apply elem_of_nil in Hin | done]. }
  assert (datetime_range (msec x)) as Hq.
  { apply load_location_Ok in Hx as (_ & _ & Hrng & _).
    unfold datetime_range, Py.MIN_MSEC, Py.MAX_MSEC in *.
    change (2 ^ 52) with 4503599627370496. lia. }
  destruct (timestamps_sorted_of_numeric_keys _ _ _ _ Hinit Hdata Hnum) as [_ Hsorted].
  destruct (nearest_location_Ok _ _ _ (msec x) Hinit Hlen Hq)
    as (t & r & f & Ht & Hlast & Hr & _).
  assert (t = msec x) as ->.
  { pose proof (nearest_timestamp_sorted self _ _ Hsorted Ht (msec x)) as Hmin.
    rewrite Hts in Hmin. specialize (Hmin (list_elem_of_fmap_2 msec _ _ Hin)). lia. }
  exists f. rewrite Hr. do 2 f_equal.
  assert (Hclass : ∀ a b : location,
    a ∈ lpre ++ x :: lpost → b ∈ lpre ++ x :: lpost →
    msec a = msec x → msec b = msec x →
    Py.lt (timestampMs a) (timestampMs b) = Ok false).
  { intros a b Ha Hb Hma Hmb.
    rewrite <- (sorted_Permutation _ _ _ Hsort) in Ha, Hb.
    rewrite (history_numeric_keys _ _ _ _ a b Hinit Hdata Hnum Ha Hb), Hma, Hmb.
    by rewrite Z.ltb_irrefl. }
  rewrite (sorted_filter timestampMs (λ y, msec y = msec x) _ _ Hclass Hsort) in Hlast.
  rewrite filter_app, filter_cons in Hlast.
  destruct (decide (msec x = msec x)); [| done].
  replace (filter (λ y, msec y = msec x) lpost) with (@nil location) in Hlast.
  - rewrite last_snoc in Hlast. by injection Hlast.
  - destruct (filter (λ y, msec y = msec x) lpost) as [| y ys] eqn:Hf; [done | exfalso].
    assert (y ∈ filter (λ y, msec y = msec x) lpost) as [Hmy Hy]%list_elem_of_filter
      by (rewrite Hf; by left).
    apply list_elem_of_lookup in Hy as [j Hj].
    destruct (Forall2_lookup_r _ _ _ _ _ Hlpost Hj) as (ly & Hly & Hy).
    eapply Hpost; [by eapply list_elem_of_lookup_2 | done | done].
Qed.

(** C7: two records share the timestamp 999999999999 and the others have
    13 digits.  The query at 999999999999 returns neither of the two, but
    the record at 1000000000000: the string sort of the loader puts the
    13-digit keys first, and the binary search misses the duplicates. *)
Theorem duplicate_not_returned :
  ∃ self r f later,
    __init__ "history.json" mixed_digits_duplicate = Ok self ∧
    nearest_location self 999999999999 = Ok (r, f) ∧
    msec r = 1000000000000 ∧ latitudeE7 r = Some 110000000 ∧
    load_location (json_str "999999999999" (Some 105000000) (Some 205000000)) = Ok later ∧
    msec later = 999999999999 ∧
    last (filter (λ x, msec x = 999999999999) (location_history self)) = Some later ∧
    r ≠ later.
Proof.
  eexists (index_of "history.json" mixed_digits_duplicate), _, _, _.
  split; [reflexivity |]. split; [by vm_compute |]. split; [reflexivity |].
  split; [reflexivity |]. split; [by vm_compute |]. split; [reflexivity |].
  split; [reflexivity | discriminate].
Qed.

(** *** The order of the input *)

(** C8 fails as stated: the sort is stable and the dict keeps the later
    of two records at one timestamp, so two records that share a timestamp
    and differ otherwise come out in the order of the input. *)
Lemma permutation_changes_index :
  (∃ raw raw', locations first_then_second = Some raw ∧
               locations second_then_first = Some raw' ∧ raw ≡ₚ raw') ∧
  __init__ "history.json" first_then_second
    = Ok (index_of "history.json" first_then_second) ∧
  __init__ "history.json" second_then_first
    = Ok (index_of "history.json" second_then_first) ∧
  location_history (index_of "history.json" first_then_second)
    ≠ location_history (index_of "history.json" second_then_first) ∧
  nearest_location (index_of "history.json" first_then_second) 1000000
    ≠ nearest_location (index_of "history.json" second_then_first) 1000000.
Proof.
  repeat split; try reflexivity.
  - eexists _, _. split; [reflexivity |]. split; [reflexivity |]. apply Permutation_swap.
  - by vm_compute.
  - by vm_compute.
Qed.

(** C8, amended: when the records of the input that share a timestamp key
    are equal, construction from the input and from any permutation of it
    gives the same record sequence, and the same result for every query. *)
Theorem permutation_same_index (fn : string) (raw raw' : list json_location)
    (self : LocationHistory) :
  raw ≡ₚ raw' →
  (∀ l l', l ∈ raw → l' ∈ raw → json_timestampMs l = json_timestampMs l' → l = l') →
  __init__ fn {| locations := Some raw |} = Ok self →
  ∃ self', __init__ fn {| locations := Some raw' |} = Ok self' ∧
           location_history self' = location_history self ∧
           ∀ q, nearest_location self' q = nearest_location self q.
Proof.
  intros Hperm Hinj Hinit. exists self.
  split; [| done].
  destruct (init_Ok _ _ _ Hinit) as (raw0 & loaded & [= <-] & Hload & Hsort & _).
  pose proof (proj2 (comprehension_Ok _ _ _) Hload) as Hcomp.
  destruct (comprehension_Permutation _ _ _ _ Hperm Hcomp) as (loaded' & Hcomp' & Hperm').
  destruct (sorted_is_Ok timestampMs loaded') as [hist' Hsort'].
  { intros x y Hx Hy. rewrite <- Hperm' in Hx, Hy.
    by apply (sorted_Ok_same_type _ _ _ _ _ Hsort). }
  assert (location_history self = hist') as Heq.
  { apply (StronglySorted_Permutation_eq timestampMs).
    - by eapply sorted_StronglySorted.
    - by eapply sorted_StronglySorted.
    - by rewrite (sorted_Permutation _ _ _ Hsort), (sorted_Permutation _ _ _ Hsort').
    - intros x y Hx Hy Hkey.
      rewrite (sorted_Permutation _ _ _ Hsort) in Hx, Hy.
      apply list_elem_of_lookup in Hx as [i Hi], Hy as [j Hj].
      destruct (Forall2_lookup_r _ _ _ _ _ Hload Hi) as (lx & Hlx & Hx).
      destruct (Forall2_lookup_r _ _ _ _ _ Hload Hj) as (ly & Hly & Hy).
      assert (lx = ly) as ->.
      { apply Hinj; [by eapply list_elem_of_lookup_2 .. |].
        apply load_location_Ok in Hx as (-> & _), Hy as (-> & _). by rewrite Hkey. }
      rewrite Hx in Hy. by injection Hy. }
  subst hist'.
  unfold __init__, _load_location_history in Hinit |- *. cbn in Hinit |- *.
  rewrite Hcomp in Hinit. rewrite Hcomp'. cbn in Hinit |- *.
  rewrite Hsort in Hinit. rewrite Hsort'. exact Hinit.
Qed.

Lemma permutation_same_index_witness :
  three_in_order ≡ₚ three_permuted ∧
  (∀ l l', l ∈ three_in_order → l' ∈ three_in_order →
           json_timestampMs l = json_timestampMs l' → l = l') ∧
  __init__ "history.json" {| locations := Some three_in_order |}
    = Ok (index_of "history.json" three_records) ∧
  ∃ self', __init__ "history.json" {| locations := Some three_permuted |} = Ok self' ∧
           location_history self' = location_history (index_of "history.json" three_records) ∧
           ∀ q, nearest_location self' q
                = nearest_location (index_of "history.json" three_records) q.
Proof.
  assert (three_in_order ≡ₚ three_permuted) as Hperm.
  { unfold three_in_order, three_permuted.
    etrans; [apply Permutation_skip, Permutation_swap |]. apply Permutation_swap. }
  assert (∀ l l', l ∈ three_in_order → l' ∈ three_in_order →
                  json_timestampMs l = json_timestampMs l' → l = l') as Hinj.
  { intros l l' Hl Hl'. unfold three_in_order in Hl, Hl'.
    repeat (apply elem_of_cons in Hl as [-> | Hl]); [| | | by apply elem_of_nil in Hl];
      repeat (apply elem_of_cons in Hl' as [-> | Hl']);
      try (by apply elem_of_nil in Hl'); by (reflexivity || discriminate). }
  split; [exact Hperm |]. split; [exact Hinj |]. split; [reflexivity |].
  exact (permutation_same_index "history.json" three_in_order three_permuted
           (index_of "history.json" three_records) Hperm Hinj eq_refl).
Defined.

(** ** Further properties of the loader and the index *)

Lemma comprehension_Raise_inv {A B} (f : A → result B) (l : list A) e :
  Py.comprehension f l = Raise e →
  ∃ pre x post, l = pre ++ x :: post ∧
                Forall (λ x, ∃ y, f x = Ok y) pre ∧ f x = Raise e.
Proof.
  induction l as [| x l IH]; cbn; [done |].
  destruct (f x) as [y | e'] eqn:Hx; cbn.
  - destruct (Py.comprehension f l) as [ys | e'] eqn:Hl; cbn; [done |].
    intros [= ->]. destruct (IH eq_refl) as (pre & x' & post & -> & Hpre & Hx').
    exists (x :: pre), x', post. split; [done |]. split; [| done].
    constructor; [by eexists | done].
  - intros [= ->]. by exists [], x, l.
Qed.

(** [int] at the edges of what it accepts: an underscore between two
    digits and blanks at either end, the no-break space among them; no
    unit separator, no sign apart from its digits; 4300 digits and no
    more, whatever follows them. *)
Example int_accepts :
  Py.int (PyStr " +1_000 ") = Ok 1000 ∧
  Py.int (PyStr (String (ascii_of_nat 160) "-7")) = Ok (-7) ∧
  Py.int (PyStr (string_of_list_ascii (repeat "0"%char 4300))) = Ok 0.
Proof. repeat split; by vm_compute. Qed.

Example int_refuses :
  Py.int (PyStr (String (ascii_of_nat 31) "7")) = Raise Py.invalid_literal ∧
  Py.int (PyStr "- 7") = Raise Py.invalid_literal ∧
  Py.int (PyStr "1__0") = Raise Py.invalid_literal ∧
  Py.int (PyStr "_1") = Raise Py.invalid_literal ∧
  Py.int (PyStr EmptyString) = Raise Py.invalid_literal ∧
  Py.int (PyStr (string_of_list_ascii (repeat "0"%char 4301))) = Raise Py.exceeds_limit ∧
  Py.int (PyStr (string_of_list_ascii (repeat "0"%char 4301 ++ ["x"%char])))
    = Raise Py.exceeds_limit.
Proof. repeat split; by vm_compute. Qed.

(** A timestamp after a unit separator does not load. *)
Example load_location_separator :
  load_location (json_str (String (ascii_of_nat 31) "7") None None)
  = Raise Py.invalid_literal.
Proof. by vm_compute. Qed.

Lemma int_of_digits_Raise (l : list ascii) e :
  Py.int_of_digits l = Raise e → e = Py.invalid_literal ∨ e = Py.exceeds_limit.
Proof.
  unfold Py.int_of_digits.
  assert (match Py.scan 0 false l with
          | Some n =>
              if 4300 <? n then Raise Py.exceeds_limit
              else match Py.digits 0 false l with
                   | Some z => Ok z
                   | None => Raise Py.invalid_literal
                   end
          | None => Raise Py.invalid_literal
          end = Raise e → e = Py.invalid_literal ∨ e = Py.exceeds_limit) as Hscan.
  { destruct (Py.scan 0 false l) as [n |]; [destruct (4300 <? n) |];
      [| destruct (Py.digits 0 false l) |]; intros [= <-]; auto. }
  destruct l as [| c l']; [exact Hscan |].
  destruct c as [[] [] [] [] [] [] [] []];
    first [exact Hscan | intros [= <-]; by left].
Qed.

(** What [int] can raise. *)
Lemma int_Raise (v : pyval) e :
  Py.int v = Raise e → e = Py.invalid_literal ∨ e = Py.exceeds_limit.
Proof.
  destruct v as [s | z]; cbn; [| done]. unfold Py.int_of_str.
  destruct (Py.strip (list_ascii_of_string s)) as [| c l].
  - apply int_of_digits_Raise.
  - assert (Z.opp <$> Py.int_of_digits l = Raise e →
            e = Py.invalid_literal ∨ e = Py.exceeds_limit) as Hopp.
    { destruct (Py.int_of_digits l) eqn:Hl; cbn; [done |].
      intros [= <-]. by apply int_of_digits_Raise in Hl. }
    destruct c as [[] [] [] [] [] [] [] []];
      first [exact Hopp | apply int_of_digits_Raise].
Qed.

(** What [load_location] can raise: the [KeyError] of a missing
    timestamp, or an exception that [except KeyError] lets through. *)
Lemma load_location_Raise (l : json_location) e :
  load_location l = Raise e →
  (json_timestampMs l = None ∧ e = KeyError (PyStr "timestampMs")) ∨
  (json_timestampMs l ≠ None ∧ (∀ k, e ≠ KeyError k) ∧ e ≠ not_found).
Proof.
  unfold load_location. destruct (json_timestampMs l) as [ts |]; cbn.
  - intros H. right. split; [done |].
    destruct (Py.int ts) as [z | e0] eqn:Hz; cbn in H.
    + unfold msec_to_datetime, Py.fromtimestamp_div_1000 in H.
      destruct (_ && _); cbn in H; [| by injection H as <-].
      unfold Py.int_div_float, Py.float_of_int in H.
      destruct (json_latitudeE7 l) as [v |]; cbn in H.
      * destruct (binary_normalize 53 1024 v 0 false); cbn in H;
          try (by injection H as <-);
          destruct (json_longitudeE7 l) as [w |]; cbn in H; try done;
          destruct (binary_normalize 53 1024 w 0 false); cbn in H;
          try done; by injection H as <-.
      * destruct (json_longitudeE7 l) as [w |]; cbn in H; try done;
          destruct (binary_normalize 53 1024 w 0 false); cbn in H;
          try done; by injection H as <-.
    + injection H as <-. by destruct (int_Raise _ _ Hz) as [-> | ->].
  - intros [= <-]. by left.
Qed.

Lemma insert_Raise {A} (key : A → pyval) (x : A) (l : list A) e :
  Py.insert key x l = Raise e → e = TypeError.
Proof.
  induction l as [| y l IH]; cbn; [done |].
  destruct (Py.lt (key y) (key x)) as [[] | e'] eqn:Hlt; cbn.
  - destruct (Py.insert key x l); cbn; [done |]. intros [= <-]. by apply IH.
  - done.
  - intros [= <-]. revert Hlt. destruct (key y), (key x); cbn; congruence.
Qed.

Lemma sorted_Raise {A} (key : A → pyval) (l : list A) e :
  Py.sorted key l = Raise e → e = TypeError.
Proof.
  induction l as [| x l IH]; cbn; [done |].
  destruct (Py.sorted key l) as [s |]; cbn.
  - apply insert_Raise.
  - intros [= <-]. by apply IH.
Qed.

(** The sort is all that can fail once every record is loaded. *)
Lemma init_of_loaded (fn : string) (raw : list json_location) (loaded : list location) :
  Forall2 (λ l x, load_location l = Ok x) raw loaded →
  (∀ hist, Py.sorted timestampMs loaded = Ok hist →
           ∃ self, __init__ fn {| locations := Some raw |} = Ok self ∧
                   location_history self = hist) ∧
  (∀ e, Py.sorted timestampMs loaded = Raise e →
        __init__ fn {| locations := Some raw |} = Raise TypeError).
Proof.
  intros Hload. pose proof (proj2 (comprehension_Ok _ _ _) Hload) as Hcomp.
  unfold __init__, _load_location_history. cbn. rewrite Hcomp. cbn. split.
  - intros hist Hsort. rewrite Hsort. cbn.
    assert (Forall (λ x, Py.int (timestampMs x) = Ok (msec x)) hist) as Hint.
    { apply list.Forall_forall. intros x Hx.
      rewrite (sorted_Permutation _ _ _ Hsort) in Hx.
      destruct (proj1 (list_elem_of_lookup loaded x) Hx) as [i Hi].
      destruct (Forall2_lookup_r _ _ _ _ _ Hload Hi) as (l & _ & Hl).
      by apply load_location_Ok in Hl as (_ & ? & _). }
    rewrite (extract_timestamps_Ok _ Hint). cbn.
    rewrite (dict_by_timestamp_Ok _ Hint). cbn. by eexists.
  - intros e Hsort. rewrite Hsort. by rewrite (sorted_Raise _ _ _ Hsort).
Qed.

(** X1: construction raises the [ValueError] "Location history not found
    in JSON file" in two cases and no other: the file has no ["locations"],
    or the first record that does not load is one without ["timestampMs"]. *)
Theorem not_found_iff (fn : string) (data : json_file) :
  __init__ fn data = Raise not_found ↔
  locations data = None ∨
  ∃ pre l post, locations data = Some (pre ++ l :: post) ∧
                Forall (λ l', ∃ x, load_location l' = Ok x) pre ∧
                json_timestampMs l = None.
Proof.
  destruct data as [[raw |]]; cbn; [| split; [by left | done]].
  split.
  - intros H. right.
    destruct (Py.comprehension load_location raw) as [loaded | e] eqn:Hcomp.
    + exfalso. apply comprehension_Ok in Hcomp.
      destruct (Py.sorted timestampMs loaded) as [hist | e] eqn:Hsort.
      * destruct (proj1 (init_of_loaded fn raw loaded Hcomp) hist Hsort) as (self & Hs & _).
        by rewrite Hs in H.
      * by rewrite (proj2 (init_of_loaded fn raw loaded Hcomp) e Hsort) in H.
    + destruct (comprehension_Raise_inv _ _ _ Hcomp) as (pre & l & post & -> & Hpre & Hl).
      exists pre, l, post. split; [done |]. split; [done |].
      apply load_location_Raise in Hl as [[Hnone _] | (_ & Hk & Hnf)]; [done | exfalso].
      unfold __init__, _load_location_history in H. cbn in H. rewrite Hcomp in H. cbn in H.
      destruct e; cbn in H; try discriminate H;
        [by destruct (Hk key) | injection H as ->; by destruct Hnf].
  - intros [| (pre & l & post & [= ->] & Hpre & Hl)]; [done |].
    unfold __init__, _load_location_history. cbn.
    by rewrite (comprehension_Raise load_location pre post l _ Hpre
                  (load_location_missing_timestamp l Hl)).
Qed.

Lemma Forall_loads_Forall2 (raw : list json_location) :
  Forall (λ l, ∃ x, load_location l = Ok x) raw →
  ∃ loaded, Forall2 (λ l x, load_location l = Ok x) raw loaded.
Proof.
  induction 1 as [| l raw [x Hx] _ [loaded IH]]; [by exists [] |].
  exists (x :: loaded). by constructor.
Qed.

Lemma init_Ok_loads_same_type (fn : string) (data : json_file) (self : LocationHistory)
    (raw : list json_location) :
  __init__ fn data = Ok self → locations data = Some raw →
  Forall (λ l, ∃ x, load_location l = Ok x) raw ∧
  ∀ l l' a b, l ∈ raw → l' ∈ raw →
              json_timestampMs l = Some a → json_timestampMs l' = Some b →
              same_type a b = true.
Proof.
  intros Hinit Hdata.
  destruct (init_Ok _ _ _ Hinit) as (raw' & loaded & Hraw & Hload & Hsort & _).
  rewrite Hdata in Hraw. injection Hraw as <-. split.
  - apply list.Forall_forall. intros l [i Hi]%list_elem_of_lookup.
    destruct (Forall2_lookup_l _ _ _ _ _ Hload Hi) as (x & _ & Hx). by exists x.
  - intros l l' a b [i Hi]%list_elem_of_lookup [j Hj]%list_elem_of_lookup Ha Hb.
    destruct (Forall2_lookup_l _ _ _ _ _ Hload Hi) as (x & Hxi & Hx).
    destruct (Forall2_lookup_l _ _ _ _ _ Hload Hj) as (y & Hyj & Hy).
    apply load_location_Ok in Hx as (Hkx & _), Hy as (Hky & _).
    rewrite Ha in Hkx. rewrite Hb in Hky. injection Hkx as ->. injection Hky as ->.
    eapply (sorted_Ok_same_type timestampMs); [done | |]; by eapply list_elem_of_lookup_2.
Qed.

(** X2: for a file whose records have a [str] or an [int] under
    ["timestampMs"], the values that [pyval] holds, construction succeeds
    exactly when the file has ["locations"], every record loads, and
    these values are all [str] or all [int]. *)
Theorem init_Ok_iff (fn : string) (data : json_file) :
  (∃ self, __init__ fn data = Ok self) ↔
  ∃ raw, locations data = Some raw ∧
         Forall (λ l, ∃ x, load_location l = Ok x) raw ∧
         ∀ l l' a b, l ∈ raw → l' ∈ raw →
                     json_timestampMs l = Some a → json_timestampMs l' = Some b →
                     same_type a b = true.
Proof.
  split.
  - intros [self Hinit].
    destruct (init_Ok _ _ _ Hinit) as (raw & _ & Hraw & _).
    exists raw. split; [done |]. by eapply init_Ok_loads_same_type.
  - intros (raw & Hraw & Hloads & Htypes). destruct data as [raw']. cbn in Hraw. subst raw'.
    destruct (Forall_loads_Forall2 raw Hloads) as [loaded Hload].
    destruct (sorted_is_Ok timestampMs loaded) as [hist Hsort].
    { intros x y [i Hi]%list_elem_of_lookup [j Hj]%list_elem_of_lookup.
      destruct (Forall2_lookup_r _ _ _ _ _ Hload Hi) as (l & Hli & Hl).
      destruct (Forall2_lookup_r _ _ _ _ _ Hload Hj) as (l' & Hlj & Hl').
      apply load_location_Ok in Hl as (Hkx & _), Hl' as (Hky & _).
      eapply Htypes; try done; by eapply list_elem_of_lookup_2. }
    destruct (proj1 (init_of_loaded fn raw loaded Hload) hist Hsort) as (self & Hs & _).
    by exists self.
Qed.

(** X3: when every record loads and the keys are a [str] in one record
    and an [int] in another, construction raises [TypeError]: the sort
    compares the raw keys. *)
Theorem mixed_keys_TypeError (fn : string) (raw : list json_location)
    (l l' : json_location) (s : string) (z : Z) :
  Forall (λ l, ∃ x, load_location l = Ok x) raw →
  l ∈ raw → l' ∈ raw →
  json_timestampMs l = Some (PyStr s) → json_timestampMs l' = Some (PyInt z) →
  __init__ fn {| locations := Some raw |} = Raise TypeError.
Proof.
  intros Hloads Hl Hl' Hs Hz.
  destruct (__init__ fn {| locations := Some raw |}) as [self | e] eqn:Hinit.
  - exfalso.
    destruct (init_Ok_loads_same_type _ _ _ raw Hinit eq_refl) as [_ Htypes].
    by specialize (Htypes l l' _ _ Hl Hl' Hs Hz).
  - destruct (Forall_loads_Forall2 raw Hloads) as [loaded Hload].
    destruct (Py.sorted timestampMs loaded) as [hist | e'] eqn:Hsort.
    + destruct (proj1 (init_of_loaded fn raw loaded Hload) hist Hsort) as (self & Hs' & _).
      by rewrite Hs' in Hinit.
    + rewrite (proj2 (init_of_loaded fn raw loaded Hload) e' Hsort) in Hinit.
      by injection Hinit as <-.
Qed.

Lemma mixed_keys_TypeError_witness :
  Forall (λ l, ∃ x, load_location l = Ok x) str_and_int_keys ∧
  __init__ "history.json" {| locations := Some str_and_int_keys |} = Raise TypeError.
Proof.
  assert (Forall (λ l, ∃ x, load_location l = Ok x) str_and_int_keys) as Hloads
    by (repeat constructor; by eexists).
  split; [exact Hloads |].
  refine (mixed_keys_TypeError "history.json" str_and_int_keys
            (json_str "1000000" None None)
            {| json_timestampMs := Some (PyInt 2000000);
               json_latitudeE7 := None; json_longitudeE7 := None |}
            "1000000" 2000000 Hloads _ _ eq_refl eq_refl).
  - by left.
  - right. by left.
Defined.

(** X4: the record sequence of an index holds the loaded records of the
    input, each as often as the input has it, in the order of their raw
    keys: no record stands before one whose key is less. *)
Theorem location_history_sorted_by_key (fn : string) (data : json_file)
    (raw : list json_location) (self : LocationHistory) :
  __init__ fn data = Ok self → locations data = Some raw →
  ∃ loaded,
    Forall2 (λ l x, load_location l = Ok x) raw loaded ∧
    location_history self ≡ₚ loaded ∧
    StronglySorted (λ x y, Py.lt (timestampMs y) (timestampMs x) = Ok false)
      (location_history self).
Proof.
  intros (raw' & loaded & Hraw & Hload & Hsort & _)%init_Ok Hdata.
  rewrite Hdata in Hraw. injection Hraw as <-.
  exists loaded. split; [done |]. split; [by eapply sorted_Permutation |].
  by eapply (sorted_StronglySorted timestampMs).
Qed.

Lemma location_history_sorted_by_key_witness :
  __init__ "history.json" three_records = Ok (index_of "history.json" three_records) ∧
  ∃ loaded,
    Forall2 (λ l x, load_location l = Ok x) three_in_order loaded ∧
    location_history (index_of "history.json" three_records) ≡ₚ loaded ∧
    StronglySorted (λ x y, Py.lt (timestampMs y) (timestampMs x) = Ok false)
      (location_history (index_of "history.json" three_records)).
Proof.
  split; [reflexivity |].
  exact (location_history_sorted_by_key "history.json" three_records three_in_order
           (index_of "history.json" three_records) eq_refl eq_refl).
Defined.

(** X5: the sort is stable: the records that have one raw key stand in
    the index in the order in which the input has them. *)
Theorem equal_keys_keep_input_order (fn : string) (data : json_file)
    (raw : list json_location) (self : LocationHistory) :
  __init__ fn data = Ok self → locations data = Some raw →
  ∃ loaded,
    Forall2 (λ l x, load_location l = Ok x) raw loaded ∧
    ∀ k, filter (λ x, timestampMs x = k) (location_history self)
         = filter (λ x, timestampMs x = k) loaded.
Proof.
  intros (raw' & loaded & Hraw & Hload & Hsort & _)%init_Ok Hdata.
  rewrite Hdata in Hraw. injection Hraw as <-.
  exists loaded. split; [done |]. intros k.
  apply (sorted_filter timestampMs (λ x, timestampMs x = k)); [| done].
  intros x y _ _ -> ->. destruct k as [s | z]; cbn.
  - by rewrite String_ltb_irrefl.
  - by rewrite Z.ltb_irrefl.
Qed.

Lemma equal_keys_keep_input_order_witness :
  __init__ "history.json" duplicate_records
    = Ok (index_of "history.json" duplicate_records) ∧
  ∃ first second,
    filter (λ x, timestampMs x = PyStr "2000000")
      (location_history (index_of "history.json" duplicate_records)) = [first; second] ∧
    latitudeE7 first = Some 100000000 ∧ latitudeE7 second = Some 110000000.
Proof.
  split; [reflexivity |].
  destruct (equal_keys_keep_input_order "history.json" duplicate_records _
              (index_of "history.json" duplicate_records) eq_refl eq_refl)
    as (loaded & Hload & Hk).
  assert (∃ x y z, loaded = [x; y; z] ∧
                   load_location (json_str "2000000" (Some 100000000) (Some 200000000)) = Ok x ∧
                   load_location (json_str "1000000" None None) = Ok y ∧
                   load_location (json_str "2000000" (Some 110000000) (Some 210000000)) = Ok z)
    as (x & y & z & -> & Hx & Hy & Hz).
  { apply Forall2_cons_inv_l in Hload as (x & t1 & Hx & Hload & ->).
    apply Forall2_cons_inv_l in Hload as (y & t2 & Hy & Hload & ->).
    apply Forall2_cons_inv_l in Hload as (z & t3 & Hz & Hload & ->).
    apply Forall2_nil_inv_l in Hload as ->. by exists x, y, z. }
  injection Hx as <-. injection Hy as <-. injection Hz as <-.
  eexists _, _. split; [rewrite Hk; reflexivity |]. split; reflexivity.
Defined.

(** X6: the dict and the record sequence agree.  Under the timestamp of
    a record of the index the dict holds the last record of the sequence
    with that timestamp, and every entry of the dict is a record of the
    sequence, stored under its own timestamp. *)
Theorem location_dict_round_trip (fn : string) (data : json_file)
    (self : LocationHistory) :
  __init__ fn data = Ok self →
  (∀ x, x ∈ location_history self →
        ∃ r, location_dict self !! msec x = Some r ∧
             last (filter (λ y, msec y = msec x) (location_history self)) = Some r) ∧
  (∀ k r, location_dict self !! k = Some r →
          r ∈ location_history self ∧ Py.int (timestampMs r) = Ok k).
Proof.
  intros Hinit. pose proof (init_history_range _ _ _ Hinit) as Hrange.
  destruct (init_Ok _ _ _ Hinit) as (raw & loaded & _ & _ & _ & _ & Hdict & _).
  split.
  - intros x Hx. rewrite Hdict, location_dict_lookup.
    assert (is_Some (last (filter (λ y, msec y = msec x) (location_history self))))
      as [r Hr]; [| by exists r].
    apply last_is_Some. intros Hnil.
    assert (x ∈ filter (λ y, msec y = msec x) (location_history self)) as Hin
      by (by apply list_elem_of_filter).
    rewrite Hnil in Hin. by apply elem_of_nil in Hin.
  - intros k r. rewrite Hdict, location_dict_lookup.
    intros [<- Hr]%last_Some_elem_of%list_elem_of_filter. split; [done |].
    by eapply list.Forall_forall in Hrange as [? _].
Qed.

Lemma location_dict_round_trip_witness :
  __init__ "history.json" duplicate_records
    = Ok (index_of "history.json" duplicate_records) ∧
  ∃ r, location_dict (index_of "history.json" duplicate_records) !! 2000000 = Some r ∧
       r ∈ location_history (index_of "history.json" duplicate_records) ∧
       Py.int (timestampMs r) = Ok 2000000.
Proof.
  split; [reflexivity |].
  destruct (location_dict_round_trip "history.json" duplicate_records
              (index_of "history.json" duplicate_records) eq_refl) as [_ Hback].
  eexists. split; [reflexivity |]. apply Hback. reflexivity.
Defined.

(** ** Further properties of the query *)

(** X7: on a non-empty index, in timestamp order or not, the query at the
    timestamp of a photo returns: no [KeyError], no [IndexError].  The
    record returned is in the index, the delta in whole seconds is not
    negative, and the timestamp of the record stands within one position
    of the insertion point that [bisect_left] returns. *)
Theorem nearest_location_in_index (fn : string) (data : json_file)
    (self : LocationHistory) (q : Z) :
  __init__ fn data = Ok self → __len__ self ≠ 0%nat → datetime_range q →
  ∃ r f d i k,
    nearest_location self q = Ok (r, f) ∧ r ∈ location_history self ∧
    Py.int_of_float f = Ok d ∧ 0 ≤ d ∧
    Py.bisect_left (timestamps self) q = Ok i ∧
    (i - 1 ≤ k ≤ i + 1)%nat ∧ timestamps self !! k = Some (msec r).
Proof.
  intros Hinit Hlen Hq.
  destruct (nearest_location_Ok _ _ _ q Hinit Hlen Hq) as (t & r & f & Ht & Hlast & Hr & Hf).
  destruct (init_Ok _ _ _ Hinit) as (raw & loaded & _ & _ & _ & Hts & _).
  assert (timestamps self ≠ []) as Hne.
  { rewrite Hts. unfold __len__ in Hlen. by destruct (location_history self). }
  destruct (nearest_timestamp_Ok self q Hne)
    as (i & t' & pre & post & Hi & _ & Ht' & Hw & _).
  rewrite Ht in Ht'. injection Ht' as <-.
  pose proof (last_Some_elem_of _ _ Hlast) as [Hrt Hrin]%list_elem_of_filter.
  assert (t ∈ Py.slice (timestamps self) (Nat.max 0 (i - 1)) (i + 2)) as Hin
    by (rewrite Hw; apply elem_of_app; right; by left).
  apply elem_of_slice in Hin as (k & Hk & Hkt).
  exists r, f, (Z.abs (msec r - q) `div` 1000), i, k.
  repeat split; try done; try lia.
  - apply Z.div_pos; lia.
  - by rewrite Hrt.
Qed.

Lemma nearest_location_in_index_witness :
  __init__ "history.json" mixed_digits = Ok (index_of "history.json" mixed_digits) ∧
  __len__ (index_of "history.json" mixed_digits) ≠ 0%nat ∧
  datetime_range 999999999999 ∧
  ∃ r, fst <$> nearest_location (index_of "history.json" mixed_digits) 999999999999 = Ok r ∧
       r ∈ location_history (index_of "history.json" mixed_digits).
Proof.
  assert (__len__ (index_of "history.json" mixed_digits) ≠ 0%nat) as Hlen by done.
  assert (datetime_range 999999999999) as Hq by (by vm_compute).
  split; [reflexivity |]. split; [exact Hlen |]. split; [exact Hq |].
  destruct (nearest_location_in_index "history.json" mixed_digits
              (index_of "history.json" mixed_digits) 999999999999 eq_refl Hlen Hq)
    as (r & f & d & i & k & Hr & Hin & _).
  exists r. split; [by rewrite Hr | exact Hin].
Defined.

(** X8: on timestamps in non-decreasing order the timestamp chosen is a
    neighbour of the query: it is one of the timestamps of the index,
    and it is the greatest of them below the query, or the least of them
    that is not below it. *)
Theorem nearest_is_neighbour (self : LocationHistory) (q t : Z) :
  StronglySorted Z.le (timestamps self) →
  _nearest_location_from_timestamp self q = Ok t →
  t ∈ timestamps self ∧
  ((t < q ∧ ∀ u, u ∈ timestamps self → u < q → u ≤ t) ∨
   (q ≤ t ∧ ∀ u, u ∈ timestamps self → q ≤ u → t ≤ u)).
Proof.
  intros Hs H. split; [by eapply nearest_timestamp_elem_of |].
  unfold _nearest_location_from_timestamp in H. inv_bind H.
  rename a into i. unfold Py.bisect_left in H0.
  destruct (bisect_loop_Ok (timestamps self) q 0 (length (timestamps self)) ltac:(lia))
    as (i' & Hi' & Hle).
  rewrite H0 in Hi'. injection Hi' as <-.
  destruct (bisect_loop_sorted (timestamps self) q 0 (length (timestamps self)) i Hs
              ltac:(lia)) as [Hlt Hge]; [lia | | done |].
  { intros k v Hk Hv. apply lookup_lt_Some in Hv. lia. }
  apply min_elem_of in H as [(k & Hk & Hkt)%elem_of_slice Hmin].
  pose proof (lookup_lt_Some _ _ _ Hkt) as Hklen.
  destruct (decide (k < i)%nat) as [Hki | Hki].
  - left. split; [by eapply Hlt |].
    intros u [j Hj]%list_elem_of_lookup Hu.
    destruct (decide (j < i)%nat) as [Hji | Hji].
    + apply (StronglySorted_lookup_le _ j k u t Hs Hj Hkt). lia.
    + pose proof (Hge j u ltac:(lia) Hj). lia.
  - right. split; [eapply Hge; [| done]; lia |].
    destruct (lookup_lt_is_Some_2 (timestamps self) i ltac:(lia)) as [v Hv].
    assert (Z.abs (q - t) ≤ Z.abs (q - v)) as Hv'.
    { apply (Hmin v), elem_of_slice. exists i. split; [lia | done]. }
    pose proof (Hge i v ltac:(lia) Hv). pose proof (Hge k t ltac:(lia) Hkt).
    intros u [j Hj]%list_elem_of_lookup Hu.
    destruct (decide (j < i)%nat) as [Hji | Hji].
    + pose proof (Hlt j u Hji Hj). lia.
    + pose proof (StronglySorted_lookup_le _ i j v u Hs Hv Hj ltac:(lia)). lia.
Qed.

Lemma nearest_is_neighbour_witness :
  StronglySorted Z.le (timestamps (index_of "history.json" three_records)) ∧
  _nearest_location_from_timestamp (index_of "history.json" three_records) 1900000
    = Ok 2000000 ∧
  2000000 ∈ timestamps (index_of "history.json" three_records) ∧
  ((2000000 < 1900000 ∧
    ∀ u, u ∈ timestamps (index_of "history.json" three_records) →
         u < 1900000 → u ≤ 2000000) ∨
   (1900000 ≤ 2000000 ∧
    ∀ u, u ∈ timestamps (index_of "history.json" three_records) →
         1900000 ≤ u → 2000000 ≤ u)).
Proof.
  assert (StronglySorted Z.le (timestamps (index_of "history.json" three_records))) as Hs.
  { change (StronglySorted Z.le [1000000; 2000000; 5000000]).
    repeat constructor; lia. }
  assert (_nearest_location_from_timestamp (index_of "history.json" three_records) 1900000
          = Ok 2000000) as Ht by (by vm_compute).
  split; [exact Hs |]. split; [exact Ht |].
  exact (nearest_is_neighbour (index_of "history.json" three_records) 1900000 2000000 Hs Ht).
Defined.

(** X9: on an index in timestamp order, the query at the timestamp of
    one of its records returns a record with that timestamp, at a delta
    of 0 seconds. *)
Theorem exact_timestamp_delta_0 (fn : string) (data : json_file)
    (self : LocationHistory) (x : location) :
  __init__ fn data = Ok self → StronglySorted Z.le (timestamps self) →
  x ∈ location_history self →
  ∃ r f, nearest_location self (msec x) = Ok (r, f) ∧
         msec r = msec x ∧ Py.int_of_float f = Ok 0.
Proof.
  intros Hinit Hs Hx.
  assert (__len__ self ≠ 0%nat) as Hlen.
  { unfold __len__. destruct (location_history self); [by apply elem_of_nil in Hx | done]. }
  assert (datetime_range (msec x)) as Hq.
  { pose proof (init_history_range _ _ _ Hinit) as Hrange.
    eapply list.Forall_forall in Hrange as [_ Hrng]; [| exact Hx].
    unfold datetime_range, Py.MIN_MSEC, Py.MAX_MSEC in *.
    change (2 ^ 52) with 4503599627370496. lia. }
  destruct (nearest_location_Ok _ _ _ (msec x) Hinit Hlen Hq)
    as (t & r & f & Ht & Hlast & Hr & Hf).
  destruct (init_Ok _ _ _ Hinit) as (raw & loaded & _ & _ & _ & Hts & _).
  pose proof (last_Some_elem_of _ _ Hlast) as [Hrt Hrin]%list_elem_of_filter.
  assert (t = msec x) as ->.
  { pose proof (nearest_timestamp_sorted self _ _ Hs Ht (msec x)) as Hmin.
    rewrite Hts in Hmin. specialize (Hmin (list_elem_of_fmap_2 msec _ _ Hx)). lia. }
  exists r, f. split; [done |]. split; [done |].
  rewrite Hf, Hrt. by replace (msec x - msec x) with 0 by lia.
Qed.

Lemma exact_timestamp_delta_0_witness :
  __init__ "history.json" three_records = Ok (index_of "history.json" three_records) ∧
  StronglySorted Z.le (timestamps (index_of "history.json" three_records)) ∧
  ∃ x r f, x ∈ location_history (index_of "history.json" three_records) ∧
           msec x = 2000000 ∧
           nearest_location (index_of "history.json" three_records) (msec x) = Ok (r, f) ∧
           msec r = msec x ∧ Py.int_of_float f = Ok 0.
Proof.
  assert (StronglySorted Z.le (timestamps (index_of "history.json" three_records))) as Hs.
  { change (StronglySorted Z.le [1000000; 2000000; 5000000]).
    repeat constructor; lia. }
  split; [reflexivity |]. split; [exact Hs |].
  destruct (location_history (index_of "history.json" three_records) !! 1%nat)
    as [x |] eqn:Hx; [| discriminate Hx].
  assert (x ∈ location_history (index_of "history.json" three_records)) as Hin
    by (by eapply list_elem_of_lookup_2).
  destruct (exact_timestamp_delta_0 "history.json" three_records
              (index_of "history.json" three_records) x eq_refl Hs Hin)
    as (r & f & Hr & Hm & Hf).
  exists x, r, f. split; [exact Hin |]. split; [| by repeat split].
  injection Hx as <-. reflexivity.
Defined.

(** ** Further properties of the match decision *)

Lemma binary_round_aux_sign (sx : bool) (mx ex : Z) (lx : SpecFloat.location) :
  binary_round_aux 53 1024 sx mx ex lx = S754_zero sx ∨
  binary_round_aux 53 1024 sx mx ex lx = S754_infinity sx ∨
  binary_round_aux 53 1024 sx mx ex lx = S754_nan ∨
  ∃ m e, binary_round_aux 53 1024 sx mx ex lx = S754_finite sx m e.
Proof.
  unfold binary_round_aux.
  destruct (shr_fexp 53 1024 mx ex lx) as [mrs' e'].
  destruct (shr_fexp 53 1024 _ e' loc_Exact) as [mrs'' e''].
  destruct (shr_m mrs'') as [| m | m]; [by left | | by right; right; left].
  destruct (e'' <=? 1024 - 53); [right; right; right; by eexists _, _ | right; by left].
Qed.

(** [int] of the quotient of a distance is not negative. *)
Lemma int_truediv_nonneg (a d : Z) (f : Py.float) :
  0 ≤ a → Py.int_truediv a 1000 = Ok f → Py.int_of_float f = Ok d → 0 ≤ d.
Proof.
  intros Ha Hf Hd. destruct a as [| p | p]; [| | lia].
  - injection Hf as <-. by injection Hd as <-.
  - unfold Py.int_truediv, Py.float_div, SFdiv in Hf.
    destruct (SFdiv_core_binary 53 1024 (Zpos p) 0 1000 0) as [[mz ez] lz].
    cbn [xorb] in Hf.
    destruct (binary_round_aux_sign false mz ez lz) as [H | [H | [H | (m & e & H)]]];
      rewrite H in Hf; try discriminate Hf; injection Hf as <-.
    + by injection Hd as <-.
    + discriminate Hd.
    + cbn in Hd. injection Hd as <-.
      destruct e; [apply Z.shiftl_nonneg | apply Z.shiftl_nonneg | apply Z.shiftr_nonneg]; lia.
Qed.

(** What [add_location_to_photo] does, by the delta of the nearest record. *)
Lemma add_location_to_photo_Ok (photo : PhotoInfo) (self : LocationHistory) (T : Z)
    (dry_run : bool) (album : option string) (photolib : photoslibrary)
    (ret : Z) (effects : list effect) :
  add_location_to_photo photo self T dry_run album photolib = Ok (ret, effects) →
  ∃ r f d,
    nearest_location self (date_msec photo) = Ok (r, f) ∧
    Py.int_of_float f = Ok d ∧ 0 ≤ d ∧
    ((T ≤ d ∧ ret = 0 ∧ effects = []) ∨
     (d < T ∧ ∃ rest, effects = echo_found photo d (latitude r) (longitude r) :: rest ∧
        if dry_run then ret = 1 ∧ rest = []
        else
          (ret = 1 ∧
           (photolib = library_updates ∨ (photolib = album_raises ∧ album = None)) ∧
           rest = [set_location (uuid photo) (latitude r) (longitude r); echo_added]
                  ++ match album with
                     | Some a => [album_add a (uuid photo)]
                     | None => []
                     end) ∨
          (ret = 0 ∧ photolib ≠ library_updates ∧
           Forall (λ e, ∀ a u, e ≠ album_add a u) rest))).
Proof.
  unfold add_location_to_photo. intros H.
  destruct (nearest_location self (date_msec photo)) as [[r f] | e] eqn:Hr; [| done].
  cbn in H. destruct (Py.int_of_float f) as [d | e] eqn:Hd; [| done]. cbn in H.
  exists r, f, d. split; [done |]. split; [done |].
  assert (0 ≤ d) as Hd0.
  { unfold nearest_location in Hr. inv_bind Hr. inv_bind Hr. inv_bind Hr. inv_bind Hr.
    injection Hr as <- <-. eapply int_truediv_nonneg; [| done | done]. lia. }
  split; [done |].
  destruct (Z.geb_spec d T) as [Hge | Hlt].
  - left. injection H as <- <-. split; [lia | done].
  - right. split; [lia |].
    destruct dry_run; [injection H as <- <-; by eexists |].
    destruct photolib, album; injection H as <- <-; eexists; (split; [done |]);
      solve [ left; repeat split; by (left + right)
            | right; repeat split; [done | repeat constructor; done] ].
Qed.

(** X10: a dry run leaves the Photos library alone.  It returns what it
    returns whatever the library would do and whether or not an album is
    given, and its only effect is the line that reports the match. *)
Theorem dry_run_writes_nothing (photo : PhotoInfo) (self : LocationHistory) (T : Z)
    (album : option string) (photolib : photoslibrary) :
  add_location_to_photo photo self T true album photolib
  = add_location_to_photo photo self T true None library_updates ∧
  ∀ ret effects,
    add_location_to_photo photo self T true album photolib = Ok (ret, effects) →
    Forall (λ e, ∃ d lat lon, e = echo_found photo d lat lon) effects.
Proof.
  split.
  - unfold add_location_to_photo.
    destruct (nearest_location self (date_msec photo)) as [[r f] |]; [| done]. cbn.
    destruct (Py.int_of_float f) as [d |]; [| done]. cbn. by destruct (d >=? T).
  - intros ret effects (r & f & d & _ & _ & _ & [(_ & _ & ->) | (_ & rest & -> & _ & ->)])
      %add_location_to_photo_Ok; [constructor |].
    constructor; [by eexists _, _, _ | constructor].
Qed.

(** X11: outside a dry run, a return value of 1 means that the library
    took the update: the delta of the nearest record is below the
    threshold, its coordinates were written to the photo of that uuid,
    and the photo was added to the album if one was given. *)
Theorem return_1_means_written (photo : PhotoInfo) (self : LocationHistory) (T : Z)
    (album : option string) (photolib : photoslibrary) (effects : list effect) :
  add_location_to_photo photo self T false album photolib = Ok (1, effects) →
  ∃ r f d,
    nearest_location self (date_msec photo) = Ok (r, f) ∧
    Py.int_of_float f = Ok d ∧ d < T ∧
    effects = [echo_found photo d (latitude r) (longitude r);
               set_location (uuid photo) (latitude r) (longitude r);
               echo_added]
              ++ match album with
                 | Some a => [album_add a (uuid photo)]
                 | None => []
                 end.
Proof.
  intros (r & f & d & Hr & Hd & _ & [(_ & [=] & _) | (Hlt & rest & -> & Hrest)])
    %add_location_to_photo_Ok.
  exists r, f, d. split; [done |]. split; [done |]. split; [done |].
  by destruct Hrest as [(_ & _ & ->) | ([=] & _)].
Qed.

Lemma return_1_means_written_witness :
  add_location_to_photo (photo_at 1900000) (index_of "history.json" three_records)
    120 false (Some "Located") library_updates
  = Ok (1, [echo_found (photo_at 1900000) 100
              (Some (S754_finite false 6192449487634432 (-49)))
              (Some (S754_finite false 5910974510923776 (-48)));
            set_location (uuid (photo_at 1900000))
              (Some (S754_finite false 6192449487634432 (-49)))
              (Some (S754_finite false 5910974510923776 (-48)));
            echo_added;
            album_add "Located" (uuid (photo_at 1900000))]) ∧
  ∃ r f d,
    nearest_location (index_of "history.json" three_records) 1900000 = Ok (r, f) ∧
    Py.int_of_float f = Ok d ∧ d < 120.
Proof.
  assert (add_location_to_photo (photo_at 1900000) (index_of "history.json" three_records)
            120 false (Some "Located") library_updates
          = Ok (1, [echo_found (photo_at 1900000) 100
                      (Some (S754_finite false 6192449487634432 (-49)))
                      (Some (S754_finite false 5910974510923776 (-48)));
                    set_location (uuid (photo_at 1900000))
                      (Some (S754_finite false 6192449487634432 (-49)))
                      (Some (S754_finite false 5910974510923776 (-48)));
                    echo_added;
                    album_add "Located" (uuid (photo_at 1900000))])) as H
    by (by vm_compute).
  split; [exact H |].
  destruct (return_1_means_written _ _ _ _ _ _ H) as (r & f & d & Hr & Hd & Hlt & _).
  by exists r, f, d.
Defined.

(** X12: with a threshold of 0 or less nothing matches: whenever
    [add_location_to_photo] returns, it returns 0 and has no effect. *)
Theorem nonpositive_threshold_never_matches (photo : PhotoInfo) (self : LocationHistory)
    (T : Z) (dry_run : bool) (album : option string) (photolib : photoslibrary)
    (ret : Z) (effects : list effect) :
  T ≤ 0 →
  add_location_to_photo photo self T dry_run album photolib = Ok (ret, effects) →
  ret = 0 ∧ effects = [].
Proof.
  intros HT (r & f & d & _ & _ & Hd & [(_ & -> & ->) | (Hlt & _)])%add_location_to_photo_Ok;
    [done | lia].
Qed.

Lemma nonpositive_threshold_never_matches_witness :
  0 ≤ 0 ∧
  add_location_to_photo (photo_at 2000000) (index_of "history.json" three_records)
    0 false None library_updates = Ok (0, []).
Proof.
  assert (add_location_to_photo (photo_at 2000000) (index_of "history.json" three_records)
            0 false None library_updates = Ok (0, [])) as H by (by vm_compute).
  split; [lia |].
  destruct (nonpositive_threshold_never_matches _ _ 0 _ _ _ _ _ ltac:(lia) H) as [_ _].
  exact H.
Defined.

(** ** Properties of the osxphotos hook *)

(** X13: without a history file the hook raises before anything else:
    when [OSXPHOTOS_LOCATION_HISTORY] is unset, empty, or not the path of
    a file, it raises a [ValueError] that names the value, emits nothing
    and leaves the global as it was, for a shared photo as for any other
    and whether or not a history is loaded. *)
Theorem hook_requires_history_file (cache : option LocationHistory) (env : environ)
    (files : filesystem) (exiftool : exiftool_status) (photo : LibraryPhoto)
    (results : ExportResults) :
  (∀ f, OSXPHOTOS_LOCATION_HISTORY env = Some f → f = EmptyString ∨ files f = None) →
  add_location_to_photo_osxphotos cache env files exiftool photo results
  = {| LOCATION_HISTORY := cache;
       emitted := [];
       returned := Raise (ValueError
         ("OSXPHOTOS_LOCATION_HISTORY not set or file does not exist: "
          ++ default "None" (OSXPHOTOS_LOCATION_HISTORY env))) |}.
Proof.
  intros H. unfold add_location_to_photo_osxphotos.
  destruct (OSXPHOTOS_LOCATION_HISTORY env) as [f |]; cbn; [| done].
  destruct (H f eq_refl) as [-> | Hf]; [done |].
  rewrite Hf. by destruct (String.eqb f EmptyString).
Qed.

Lemma hook_requires_history_file_witness :
  (∀ f, OSXPHOTOS_LOCATION_HISTORY (hook_env None) = Some f →
        f = EmptyString ∨ (λ _, None) f = (None : option json_file)) ∧
  returned (add_location_to_photo_osxphotos None (hook_env None) (λ _, None) quiet
              (library_photo 1900000 true) {| exported := [] |})
  = Raise (ValueError
      "OSXPHOTOS_LOCATION_HISTORY not set or file does not exist: history.json").
Proof.
  assert (∀ f, OSXPHOTOS_LOCATION_HISTORY (hook_env None) = Some f →
               f = EmptyString ∨ (λ _, None) f = (None : option json_file)) as H
    by (intros; by right).
  split; [exact H |].
  by rewrite (hook_requires_history_file None (hook_env None) (λ _, None) quiet
                (library_photo 1900000 true) {| exported := [] |} H).
Defined.

Lemma hook_history_file (env : environ) (files : filesystem) (f : string) (data : json_file) :
  history_file_is env files f data →
  OSXPHOTOS_LOCATION_HISTORY env
    ≫= (λ f, if String.eqb f EmptyString then None else files f) = Some data ∧
  default EmptyString (OSXPHOTOS_LOCATION_HISTORY env) = f.
Proof.
  intros (-> & Hne & Hf). cbn. apply String.eqb_neq in Hne. by rewrite Hne.
Qed.

(** X14: the history is loaded once.  With a history in the global, the
    hook does not read the file: it does the same whatever the file
    holds, emits no loading line, and leaves the global as it is. *)
Theorem hook_loads_once (self : LocationHistory) (env : environ)
    (files files' : filesystem) (f : string) (data data' : json_file)
    (exiftool : exiftool_status) (photo : LibraryPhoto) (results : ExportResults) :
  history_file_is env files f data → history_file_is env files' f data' →
  add_location_to_photo_osxphotos (Some self) env files exiftool photo results
  = add_location_to_photo_osxphotos (Some self) env files' exiftool photo results ∧
  LOCATION_HISTORY
    (add_location_to_photo_osxphotos (Some self) env files exiftool photo results)
  = Some self ∧
  verbose_loading f
    ∉ emitted (add_location_to_photo_osxphotos (Some self) env files exiftool photo results).
Proof.
  intros [Hh _]%hook_history_file [Hh' _]%hook_history_file.
  unfold add_location_to_photo_osxphotos. rewrite Hh, Hh'. cbn.
  split; [done |].
  destruct (shared photo); [split; [done | by apply not_elem_of_nil] |].
  destruct (nearest_location self (date_msec (info photo))) as [[r d] |];
    [| split; [done | by apply not_elem_of_nil]].
  destruct (Py.int_of_float d) as [n |]; [| split; [done | by apply not_elem_of_nil]].
  destruct (Py.int_ge n _) as [[] |]; try (split; [done | by apply not_elem_of_nil]).
  destruct (add_location_to_exported exiftool (exported results) photo (latitude r)
              (longitude r)) as [written ret] eqn:Hw.
  split; [done |]. cbn.
  apply not_elem_of_cons. split; [done |].
  clear -Hw. revert written ret Hw.
  induction (exported results) as [| path paths IH]; intros written ret; cbn.
  - intros [= <- <-]. apply not_elem_of_nil.
  - unfold exiftool_add_location.
    destruct (exif_tags path photo (latitude r) (longitude r)) as [tags | e].
    + destruct (add_location_to_exported exiftool paths photo (latitude r) (longitude r))
        as [written' ret'].
      intros [= <- <-]. apply not_elem_of_cons. split; [done |].
      rewrite !not_elem_of_app. repeat split; [| | | by eapply IH].
      * intros ([tag val] & [=] & _)%list_elem_of_fmap.
      * destruct (fst (exiftool path)); [| apply not_elem_of_nil].
        apply not_elem_of_cons. split; [done | apply not_elem_of_nil].
      * destruct (snd (exiftool path)); [| apply not_elem_of_nil].
        apply not_elem_of_cons. split; [done | apply not_elem_of_nil].
    + intros [= <- <-]. apply not_elem_of_cons. split; [done | apply not_elem_of_nil].
Qed.

Lemma hook_loads_once_witness :
  history_file_is (hook_env None) (hook_files three_records) "history.json" three_records ∧
  history_file_is (hook_env None) (hook_files {| locations := None |}) "history.json"
    {| locations := None |} ∧
  add_location_to_photo_osxphotos (Some (index_of "history.json" three_records))
    (hook_env None) (hook_files three_records) quiet (library_photo 1990000 false)
    {| exported := ["IMG_0001.jpeg"] |}
  = add_location_to_photo_osxphotos (Some (index_of "history.json" three_records))
      (hook_env None) (hook_files {| locations := None |}) quiet
      (library_photo 1990000 false) {| exported := ["IMG_0001.jpeg"] |}.
Proof.
  assert (history_file_is (hook_env None) (hook_files three_records) "history.json"
            three_records) as H by (by repeat split).
  assert (history_file_is (hook_env None) (hook_files {| locations := None |})
            "history.json" {| locations := None |}) as H' by (by repeat split).
  split; [exact H |]. split; [exact H' |].
  exact (proj1 (hook_loads_once (index_of "history.json" three_records) (hook_env None)
                  (hook_files three_records) (hook_files {| locations := None |})
                  "history.json" three_records {| locations := None |} quiet
                  (library_photo 1990000 false) {| exported := ["IMG_0001.jpeg"] |} H H')).
Defined.

(** X15: the first call loads the history, whatever the photo.  If the
    load succeeds the index is put in the global, and the call does what
    a call with that index in the global does, after a loading line; if
    the load raises, the call raises the same after the loading line,
    and the global stays unset. *)
Theorem hook_first_call_loads (env : environ) (files : filesystem) (f : string)
    (data : json_file) (exiftool : exiftool_status) (photo : LibraryPhoto)
    (results : ExportResults) :
  history_file_is env files f data →
  (∀ self, __init__ f data = Ok self →
     LOCATION_HISTORY (add_location_to_photo_osxphotos None env files exiftool photo results)
     = Some self ∧
     emitted (add_location_to_photo_osxphotos None env files exiftool photo results)
     = verbose_loading f
       :: emitted (add_location_to_photo_osxphotos (Some self) env files exiftool
                     photo results) ∧
     returned (add_location_to_photo_osxphotos None env files exiftool photo results)
     = returned (add_location_to_photo_osxphotos (Some self) env files exiftool
                   photo results)) ∧
  (∀ e, __init__ f data = Raise e →
     add_location_to_photo_osxphotos None env files exiftool photo results
     = {| LOCATION_HISTORY := None;
          emitted := [verbose_loading f];
          returned := Raise e |}).
Proof.
  intros [Hh Hf]%hook_history_file.
  unfold add_location_to_photo_osxphotos. rewrite Hh, Hf. cbn. split.
  - intros self ->. cbn.
    destruct (shared photo); [done |].
    destruct (nearest_location self (date_msec (info photo))) as [[r d] |]; [| done].
    destruct (Py.int_of_float d) as [n |]; [| done].
    destruct (Py.int_ge n _) as [[] |]; try done.
    by destruct (add_location_to_exported exiftool (exported results) photo (latitude r)
                   (longitude r)).
  - by intros e ->.
Qed.

Lemma hook_first_call_loads_witness :
  history_file_is (hook_env None) (hook_files record_without_timestamp) "history.json"
    record_without_timestamp ∧
  add_location_to_photo_osxphotos None (hook_env None) (hook_files record_without_timestamp)
    quiet (library_photo 1990000 true) {| exported := [] |}
  = {| LOCATION_HISTORY := None;
       emitted := [verbose_loading "history.json"];
       returned := Raise not_found |}.
Proof.
  assert (history_file_is (hook_env None) (hook_files record_without_timestamp)
            "history.json" record_without_timestamp) as H by (by repeat split).
  split; [exact H |].
  exact (proj2 (hook_first_call_loads (hook_env None) (hook_files record_without_timestamp)
                  "history.json" record_without_timestamp quiet
                  (library_photo 1990000 true) {| exported := [] |} H)
           not_found eq_refl).
Defined.

(** X16: for a shared photo the hook returns 0 and writes nothing: no
    query is made and no tag is set, on any index, though a first call
    still loads the history. *)
Theorem hook_shared_photo (cache : option LocationHistory) (self : LocationHistory)
    (env : environ) (files : filesystem) (f : string) (data : json_file)
    (exiftool : exiftool_status) (photo : LibraryPhoto) (results : ExportResults) :
  history_file_is env files f data → shared photo = true →
  cache = Some self ∨ (cache = None ∧ __init__ f data = Ok self) →
  add_location_to_photo_osxphotos cache env files exiftool photo results
  = {| LOCATION_HISTORY := Some self;
       emitted := match cache with Some _ => [] | None => [verbose_loading f] end;
       returned := Ok 0 |}.
Proof.
  intros [Hh Hf]%hook_history_file Hs Hc.
  unfold add_location_to_photo_osxphotos. rewrite Hh, Hf. cbn.
  destruct Hc as [-> | [-> ->]]; cbn; by rewrite Hs.
Qed.

Lemma hook_shared_photo_witness :
  history_file_is (hook_env None) (hook_files three_records) "history.json" three_records ∧
  add_location_to_photo_osxphotos None (hook_env None) (hook_files three_records) quiet
    (library_photo 1990000 true) {| exported := ["IMG_0001.jpeg"] |}
  = {| LOCATION_HISTORY := Some (index_of "history.json" three_records);
       emitted := [verbose_loading "history.json"];
       returned := Ok 0 |}.
Proof.
  assert (history_file_is (hook_env None) (hook_files three_records) "history.json"
            three_records) as H by (by repeat split).
  split; [exact H |].
  exact (hook_shared_photo None (index_of "history.json" three_records) (hook_env None)
           (hook_files three_records) "history.json" three_records quiet
           (library_photo 1990000 true) {| exported := ["IMG_0001.jpeg"] |}
           H eq_refl (or_intror (conj eq_refl eq_refl))).
Defined.

(** X17: a threshold given in [OSXPHOTOS_LOCATION_DELTA] is never
    applied.  The variable holds a [str], which the hook compares with
    the integer delta: for a photo that is not shared, on a non-empty
    index, the comparison raises [TypeError] and nothing is written,
    whatever the variable holds. *)
Theorem hook_env_delta_TypeError (fn : string) (data0 : json_file)
    (self : LocationHistory) (env : environ) (files : filesystem) (f s : string)
    (data : json_file) (exiftool : exiftool_status) (photo : LibraryPhoto)
    (results : ExportResults) :
  __init__ fn data0 = Ok self → __len__ self ≠ 0%nat →
  datetime_range (date_msec (info photo)) →
  history_file_is env files f data → OSXPHOTOS_LOCATION_DELTA env = Some s →
  shared photo = false →
  add_location_to_photo_osxphotos (Some self) env files exiftool photo results
  = {| LOCATION_HISTORY := Some self; emitted := []; returned := Raise TypeError |}.
Proof.
  intros Hinit Hlen Hq [Hh Hf]%hook_history_file Hdelta Hs.
  destruct (nearest_location_Ok _ _ _ _ Hinit Hlen Hq) as (t & r & d & _ & _ & Hr & Hd).
  unfold add_location_to_photo_osxphotos. rewrite Hh, Hdelta, Hs. cbn.
  by rewrite Hr, Hd.
Qed.

Lemma hook_env_delta_TypeError_witness :
  __init__ "history.json" three_records = Ok (index_of "history.json" three_records) ∧
  __len__ (index_of "history.json" three_records) ≠ 0%nat ∧
  datetime_range (date_msec (info (library_photo 1990000 false))) ∧
  history_file_is (hook_env (Some "120")) (hook_files three_records) "history.json"
    three_records ∧
  add_location_to_photo_osxphotos (Some (index_of "history.json" three_records))
    (hook_env (Some "120")) (hook_files three_records) quiet
    (library_photo 1990000 false) {| exported := ["IMG_0001.jpeg"] |}
  = {| LOCATION_HISTORY := Some (index_of "history.json" three_records);
       emitted := []; returned := Raise TypeError |}.
Proof.
  assert (__len__ (index_of "history.json" three_records) ≠ 0%nat) as Hlen by done.
  assert (datetime_range (date_msec (info (library_photo 1990000 false)))) as Hq
    by (by vm_compute).
  assert (history_file_is (hook_env (Some "120")) (hook_files three_records)
            "history.json" three_records) as H by (by repeat split).
  split; [reflexivity |]. split; [exact Hlen |]. split; [exact Hq |]. split; [exact H |].
  exact (hook_env_delta_TypeError "history.json" three_records
           (index_of "history.json" three_records) (hook_env (Some "120"))
           (hook_files three_records) "history.json" "120" three_records quiet
           (library_photo 1990000 false) {| exported := ["IMG_0001.jpeg"] |}
           eq_refl Hlen Hq H eq_refl eq_refl).
Defined.

(** ** Properties of [exiftool_add_location] *)

Lemma ge_0_south_or_west (f : Py.float) :
  Py.ge_0 (Some f) = Ok (negb (south_or_west f)).
Proof. by destruct f as [[] | [] | | [] m e]. Qed.

(** X18: a photo file gets four EXIF tags, in this order: the latitude,
    the longitude, and their references.  The reference is ["S"] or
    ["W"] for a coordinate below zero and ["N"] or ["E"] otherwise, zero
    of either sign included.  The warning and the error of exiftool are
    echoed after the tags, and nothing is raised. *)
Theorem exif_photo_tags (exiftool : exiftool_status) (path : string)
    (photo : LibraryPhoto) (lat lon : Py.float) :
  photo_file photo path = true →
  exiftool_add_location exiftool path photo (Some lat) (Some lon)
  = ([setvalue path "EXIF:GPSLatitude" (exif_number (Some lat));
      setvalue path "EXIF:GPSLongitude" (exif_number (Some lon));
      setvalue path "EXIF:GPSLatitudeRef"
        (exif_str (if south_or_west lat then "S" else "N"));
      setvalue path "EXIF:GPSLongitudeRef"
        (exif_str (if south_or_west lon then "W" else "E"))]
     ++ match fst (exiftool path) with
        | Some w => [echo_exiftool_warning path w]
        | None => []
        end
     ++ match snd (exiftool path) with
        | Some e => [echo_exiftool_error path e]
        | None => []
        end,
     Ok ()).
Proof.
  unfold photo_file, exiftool_add_location, exif_tags. intros ->.
  rewrite !ge_0_south_or_west. cbn.
  by destruct (south_or_west lat), (south_or_west lon).
Qed.

Lemma exif_photo_tags_witness :
  photo_file (library_photo 1990000 false) "IMG_0001.jpeg" = true ∧
  exiftool_add_location quiet "IMG_0001.jpeg" (library_photo 1990000 false)
    (Some (S754_finite true 6192449487634432 (-49))) (Some (S754_zero true))
  = ([setvalue "IMG_0001.jpeg" "EXIF:GPSLatitude"
        (exif_number (Some (S754_finite true 6192449487634432 (-49))));
      setvalue "IMG_0001.jpeg" "EXIF:GPSLongitude" (exif_number (Some (S754_zero true)));
      setvalue "IMG_0001.jpeg" "EXIF:GPSLatitudeRef" (exif_str "S");
      setvalue "IMG_0001.jpeg" "EXIF:GPSLongitudeRef" (exif_str "E")],
     Ok ()).
Proof.
  split; [reflexivity |].
  exact (exif_photo_tags quiet "IMG_0001.jpeg" (library_photo 1990000 false)
           (S754_finite true 6192449487634432 (-49)) (S754_zero true) eq_refl).
Defined.

Lemma append_cons (c : ascii) (a b : string) :
  (String c a ++ b)%string = String c (a ++ b)%string.
Proof. reflexivity. Qed.

Lemma lower_app (a b : string) : Py.lower (a ++ b) = (Py.lower a ++ Py.lower b)%string.
Proof.
  induction a as [| c a IH]; [done |].
  cbn [Py.lower]. rewrite !append_cons. cbn [Py.lower]. by rewrite IH.
Qed.

Lemma string_length_app (a b : string) :
  String.length (a ++ b) = (String.length a + String.length b)%nat.
Proof.
  induction a as [| c a IH]; [done |].
  rewrite append_cons. cbn [String.length]. by rewrite IH.
Qed.

Lemma substring_all (b : string) : substring 0 (String.length b) b = b.
Proof. induction b as [| c b IH]; cbn; [done | by rewrite IH]. Qed.

Lemma endswith_app (a b : string) : Py.endswith (a ++ b) b = true.
Proof.
  unfold Py.endswith. rewrite string_length_app.
  replace (String.length a + String.length b - String.length b)%nat
    with (String.length a) by lia.
  apply andb_true_iff. split; [apply Nat.leb_le; lia |].
  apply String.eqb_eq.
  induction a as [| c a IH]; [apply substring_all |].
  rewrite append_cons. cbn [String.length substring]. exact IH.
Qed.

(** X19: a file whose name ends in [.mov], in capitals or not, and every
    file of an item that is not a photo, gets the two [GPSCoordinates]
    tags of a movie and no EXIF tag; this never raises, not even for
    coordinates that are [None]. *)
Theorem exif_movie_tags (path : string) (photo : LibraryPhoto)
    (lat lon : option Py.float) :
  isphoto photo = false ∨ (∃ base ext, path = (base ++ ext)%string ∧ Py.lower ext = ".mov") →
  exif_tags path photo lat lon
  = Ok [("Keys:GPSCoordinates", exif_coordinates lat lon);
        ("UserData:GPSCoordinates", exif_coordinates lat lon)].
Proof.
  unfold exif_tags. intros [-> | (base & ext & -> & Hext)]; [done |].
  rewrite lower_app, Hext, endswith_app. by rewrite andb_false_r.
Qed.

Lemma exif_movie_tags_witness :
  (isphoto (library_photo 1990000 false) = false ∨
   ∃ base ext, "IMG_0002.MOV" = (base ++ ext)%string ∧ Py.lower ext = ".mov") ∧
  exif_tags "IMG_0002.MOV" (library_photo 1990000 false) None None
  = Ok [("Keys:GPSCoordinates", exif_coordinates None None);
        ("UserData:GPSCoordinates", exif_coordinates None None)].
Proof.
  assert (isphoto (library_photo 1990000 false) = false ∨
          ∃ base ext, "IMG_0002.MOV" = (base ++ ext)%string ∧ Py.lower ext = ".mov") as H
    by (right; by exists "IMG_0002", ".MOV").
  split; [exact H |].
  exact (exif_movie_tags "IMG_0002.MOV" (library_photo 1990000 false) None None H).
Defined.

(** ** The hook and the coordinates *)

Lemma add_location_to_exported_Some (exiftool : exiftool_status) (paths : list string)
    (photo : LibraryPhoto) (lat lon : Py.float) :
  snd (add_location_to_exported exiftool paths photo (Some lat) (Some lon)) = Ok ().
Proof.
  induction paths as [| path paths IH]; cbn; [done |].
  unfold exiftool_add_location, exif_tags. rewrite !ge_0_south_or_west. cbn.
  destruct (isphoto photo && negb (Py.endswith (Py.lower path) ".mov"));
    by destruct (add_location_to_exported exiftool paths photo (Some lat) (Some lon)).
Qed.

Lemma add_location_to_exported_None (exiftool : exiftool_status) (paths : list string)
    (photo : LibraryPhoto) (lat lon : option Py.float) (path : string) :
  lat = None ∨ lon = None → path ∈ paths → photo_file photo path = true →
  snd (add_location_to_exported exiftool paths photo lat lon) = Raise TypeError ∧
  ∀ p tag val, setvalue p tag val
                 ∈ fst (add_location_to_exported exiftool paths photo lat lon) →
               photo_file photo p = false.
Proof.
  intros Hnone Hin Hfile.
  induction paths as [| p paths IH]; [by apply elem_of_nil in Hin |].
  cbn. unfold exiftool_add_location.
  destruct (photo_file photo p) eqn:Hp.
  - assert (exif_tags p photo lat lon = Raise TypeError) as ->.
    { unfold exif_tags. unfold photo_file in Hp. rewrite Hp.
      destruct Hnone as [-> | ->]; [done |]. by destruct lat. }
    cbn. split; [done |].
    intros p' tag val [[=] | []%elem_of_nil]%elem_of_cons.
  - assert (p ≠ path) as Hne by (intros ->; congruence).
    apply elem_of_cons in Hin as [-> | Hin]; [done |].
    destruct (IH Hin) as [IHr IHs].
    assert (exif_tags p photo lat lon
            = Ok [("Keys:GPSCoordinates", exif_coordinates lat lon);
                  ("UserData:GPSCoordinates", exif_coordinates lat lon)]) as ->.
    { unfold exif_tags. unfold photo_file in Hp. by rewrite Hp. }
    destruct (add_location_to_exported exiftool paths photo lat lon) as [written r].
    cbn in *. split; [done |].
    intros p' tag val [[=] | H]%elem_of_cons.
    apply elem_of_cons in H as [[= -> _ _] | H]; [done |].
    apply elem_of_cons in H as [[= -> _ _] | H]; [done |].
    rewrite !elem_of_app in H. destruct H as [[H | H] | H].
    + destruct (fst (exiftool p)); [| by apply elem_of_nil in H].
      by apply elem_of_cons in H as [[=] | ?%elem_of_nil].
    + destruct (snd (exiftool p)); [| by apply elem_of_nil in H].
      by apply elem_of_cons in H as [[=] | ?%elem_of_nil].
    + by eapply IHs.
Qed.

(** X20: without [OSXPHOTOS_LOCATION_DELTA] the threshold is 60 seconds.
    For a photo that is not shared, on a non-empty index: at a delta of
    60 seconds or more the hook returns 0 and writes nothing; at a delta
    below 60 seconds it reports the nearest record, and returns 1 when
    that record has both coordinates. *)
Theorem hook_default_threshold (fn : string) (data0 : json_file)
    (self : LocationHistory) (env : environ) (files : filesystem) (f : string)
    (data : json_file) (exiftool : exiftool_status) (photo : LibraryPhoto)
    (results : ExportResults) :
  __init__ fn data0 = Ok self → __len__ self ≠ 0%nat →
  datetime_range (date_msec (info photo)) →
  history_file_is env files f data → OSXPHOTOS_LOCATION_DELTA env = None →
  shared photo = false →
  ∃ r d n,
    nearest_location self (date_msec (info photo)) = Ok (r, d) ∧
    Py.int_of_float d = Ok n ∧
    (60 ≤ n →
     add_location_to_photo_osxphotos (Some self) env files exiftool photo results
     = {| LOCATION_HISTORY := Some self; emitted := []; returned := Ok 0 |}) ∧
    (n < 60 →
     ∃ written,
       emitted (add_location_to_photo_osxphotos (Some self) env files exiftool
                  photo results)
       = verbose_found (info photo) n (latitude r) (longitude r) :: written ∧
       (latitude r ≠ None → longitude r ≠ None →
        returned (add_location_to_photo_osxphotos (Some self) env files exiftool
                    photo results) = Ok 1)).
Proof.
  intros Hinit Hlen Hq [Hh Hf]%hook_history_file Hdelta Hs.
  destruct (nearest_location_Ok _ _ _ _ Hinit Hlen Hq) as (t & r & d & _ & _ & Hr & Hd).
  exists r, d, (Z.abs (msec r - date_msec (info photo)) `div` 1000).
  split; [done |]. split; [done |].
  unfold add_location_to_photo_osxphotos. rewrite Hh, Hdelta, Hs. cbn.
  rewrite Hr, Hd. cbn. unfold DEFAULT_TIME_DELTA. split.
  - intros Hn. by replace (_ >=? 60) with true by lia.
  - intros Hn. replace (_ >=? 60) with false by lia.
    destruct (add_location_to_exported exiftool (exported results) photo (latitude r)
                (longitude r)) as [written ret] eqn:Hw.
    exists written. split; [done |]. cbn.
    intros Hlat Hlon.
    destruct (latitude r) as [lat |]; [| done]. destruct (longitude r) as [lon |]; [| done].
    pose proof (add_location_to_exported_Some exiftool (exported results) photo lat lon) as Hok.
    rewrite Hw in Hok. cbn in Hok. by rewrite Hok.
Qed.

(** X21: the hook cannot write a record without coordinates to a photo
    file.  When the nearest record, within the threshold of 60 seconds,
    lacks a coordinate and one of the exported files is a photo file, the
    hook raises [TypeError]; until then only movie files have been
    tagged. *)
Theorem hook_no_coordinates_TypeError
    (self : LocationHistory) (env : environ) (files : filesystem) (f : string)
    (data : json_file) (exiftool : exiftool_status) (photo : LibraryPhoto)
    (results : ExportResults) (r : location) (d : Py.float) (n : Z) (path : string) :
  history_file_is env files f data → OSXPHOTOS_LOCATION_DELTA env = None →
  shared photo = false →
  nearest_location self (date_msec (info photo)) = Ok (r, d) →
  Py.int_of_float d = Ok n → n < 60 →
  latitude r = None ∨ longitude r = None →
  path ∈ exported results → photo_file photo path = true →
  returned (add_location_to_photo_osxphotos (Some self) env files exiftool photo results)
  = Raise TypeError ∧
  ∀ p tag val,
    setvalue p tag val
      ∈ emitted (add_location_to_photo_osxphotos (Some self) env files exiftool
                   photo results) →
    photo_file photo p = false.
Proof.
  intros [Hh Hf]%hook_history_file Hdelta Hs Hr Hd Hn Hnone Hin Hfile.
  unfold add_location_to_photo_osxphotos. rewrite Hh, Hdelta, Hs. cbn.
  rewrite Hr, Hd. cbn. unfold DEFAULT_TIME_DELTA. replace (n >=? 60) with false by lia.
  destruct (add_location_to_exported_None exiftool (exported results) photo
              (latitude r) (longitude r) path Hnone Hin Hfile) as [Hret Hset].
  destruct (add_location_to_exported exiftool (exported results) photo (latitude r)
              (longitude r)) as [written ret].
  cbn in *. rewrite Hret. split; [done |].
  intros p tag val [[=] | H]%elem_of_cons. by eapply Hset.
Qed.

Lemma hook_default_threshold_witness :
  __init__ "history.json" three_records = Ok (index_of "history.json" three_records) ∧
  __len__ (index_of "history.json" three_records) ≠ 0%nat ∧
  datetime_range (date_msec (info (library_photo 1940000 false))) ∧
  history_file_is (hook_env None) (hook_files three_records) "history.json" three_records ∧
  add_location_to_photo_osxphotos (Some (index_of "history.json" three_records))
    (hook_env None) (hook_files three_records) quiet (library_photo 1940000 false)
    {| exported := ["IMG_0001.jpeg"] |}
  = {| LOCATION_HISTORY := Some (index_of "history.json" three_records);
       emitted := []; returned := Ok 0 |}.
Proof.
  assert (__len__ (index_of "history.json" three_records) ≠ 0%nat) as Hlen by done.
  assert (datetime_range (date_msec (info (library_photo 1940000 false)))) as Hq
    by (by vm_compute).
  assert (history_file_is (hook_env None) (hook_files three_records) "history.json"
            three_records) as H by (by repeat split).
  split; [reflexivity |]. split; [exact Hlen |]. split; [exact Hq |]. split; [exact H |].
  destruct (hook_default_threshold "history.json" three_records
              (index_of "history.json" three_records) (hook_env None)
              (hook_files three_records) "history.json" three_records quiet
              (library_photo 1940000 false) {| exported := ["IMG_0001.jpeg"] |}
              eq_refl Hlen Hq H eq_refl eq_refl) as (r & d & n & Hr & Hd & Hmiss & _).
  apply Hmiss.
  assert (nearest_location (index_of "history.json" three_records)
            (date_msec (info (library_photo 1940000 false)))
          = Ok (default r (location_history (index_of "history.json" three_records) !! 1%nat),
                S754_finite false 8444249301319680 (-47))) as Hr' by (by vm_compute).
  rewrite Hr' in Hr. injection Hr as _ <-. injection Hd as <-. by vm_compute.
Defined.

Lemma hook_no_coordinates_TypeError_witness :
  history_file_is (hook_env None) (hook_files no_coordinates_nearby) "history.json"
    no_coordinates_nearby ∧
  "IMG_0001.jpeg" ∈ ["IMG_0002.MOV"; "IMG_0001.jpeg"] ∧
  photo_file (library_photo 1010000 false) "IMG_0001.jpeg" = true ∧
  add_location_to_photo_osxphotos (Some (index_of "history.json" no_coordinates_nearby))
    (hook_env None) (hook_files no_coordinates_nearby) quiet (library_photo 1010000 false)
    {| exported := ["IMG_0002.MOV"; "IMG_0001.jpeg"] |}
  = {| LOCATION_HISTORY := Some (index_of "history.json" no_coordinates_nearby);
       emitted := [verbose_found (photo_at 1010000) 10 None None;
                   verbose_adding "IMG_0002.MOV";
                   setvalue "IMG_0002.MOV" "Keys:GPSCoordinates"
                     (exif_coordinates None None);
                   setvalue "IMG_0002.MOV" "UserData:GPSCoordinates"
                     (exif_coordinates None None);
                   verbose_adding "IMG_0001.jpeg"];
       returned := Raise TypeError |} ∧
  returned (add_location_to_photo_osxphotos
              (Some (index_of "history.json" no_coordinates_nearby))
              (hook_env None) (hook_files no_coordinates_nearby) quiet
              (library_photo 1010000 false)
              {| exported := ["IMG_0002.MOV"; "IMG_0001.jpeg"] |}) = Raise TypeError.
Proof.
  assert (history_file_is (hook_env None) (hook_files no_coordinates_nearby) "history.json"
            no_coordinates_nearby) as H by (by repeat split).
  assert ("IMG_0001.jpeg" ∈ ["IMG_0002.MOV"; "IMG_0001.jpeg"]) as Hin
    by (right; by left).
  split; [exact H |]. split; [exact Hin |]. split; [reflexivity |].
  split; [by vm_compute |].
  destruct (nearest_location (index_of "history.json" no_coordinates_nearby)
              (date_msec (info (library_photo 1010000 false)))) as [[r d] | e] eqn:Hr;
    [| by vm_compute in Hr].
  pose proof Hr as Hr'. vm_compute in Hr'. injection Hr' as Er Ed.
  refine (proj1 (hook_no_coordinates_TypeError
                   (index_of "history.json" no_coordinates_nearby) (hook_env None)
                   (hook_files no_coordinates_nearby) "history.json" no_coordinates_nearby
                   quiet (library_photo 1010000 false)
                   {| exported := ["IMG_0002.MOV"; "IMG_0001.jpeg"] |}
                   r d 10 "IMG_0001.jpeg"
                   H eq_refl eq_refl Hr _ _ _ Hin eq_refl)).
  - rewrite <- Ed. by vm_compute.
  - lia.
  - left. by rewrite <- Er.
Defined.

(** ** Properties of [main] *)

Lemma add_location_to_photo_effect_on (photo : PhotoInfo) (self : LocationHistory)
    (T : Z) (dry_run : bool) (album : option string) (photolib : photoslibrary)
    (ret : Z) (effects : list effect) :
  add_location_to_photo photo self T dry_run album photolib = Ok (ret, effects) →
  (ret = 0 ∨ ret = 1) ∧ Forall (effect_on photo) effects ∧
  (dry_run = true → Forall (λ e, ∃ d lat lon, e = echo_found photo d lat lon) effects).
Proof.
  unfold add_location_to_photo. intros H.
  destruct (nearest_location self (date_msec photo)) as [[r f] | e]; [| done].
  cbn in H. destruct (Py.int_of_float f) as [d | e]; [| done]. cbn in H.
  destruct (d >=? T); [injection H as <- <-; by repeat split; try left |].
  destruct dry_run.
  - injection H as <- <-. split; [by right |].
    split; [by repeat constructor |]. intros _. repeat constructor. by eexists _, _, _.
  - destruct photolib, album; injection H as <- <-;
      (split; [by (left + right) |]); (split; [by repeat constructor | done]).
Qed.

Lemma sum_add_location_spec (photos : list LibraryPhoto) (self : LocationHistory)
    (delta : Z) (dry_run : bool) (album : option string)
    (photolib : PhotoInfo → photoslibrary) (acc : Z) :
  (∀ me, me ∈ fst (sum_add_location photos self delta dry_run album photolib acc) →
     ∃ e photo, me = of_photo e ∧ photo ∈ photos ∧ effect_on (info photo) e ∧
                (dry_run = true → ∃ d lat lon, e = echo_found (info photo) d lat lon)) ∧
  (∀ n, snd (sum_add_location photos self delta dry_run album photolib acc) = Ok n →
     n = acc + Z.of_nat (length (filter (located self delta dry_run album photolib) photos))).
Proof.
  revert acc. induction photos as [| photo photos IH]; intros acc; cbn [sum_add_location].
  - split; [by intros me ?%elem_of_nil |]. intros n [= <-]. cbn. lia.
  - rewrite filter_cons.
    destruct (add_location_to_photo (info photo) self delta dry_run album
                (photolib (info photo))) as [[ret effects] | e] eqn:Hadd;
      [| split; [by intros me ?%elem_of_nil | done]].
    assert (located self delta dry_run album photolib photo = (ret =? 1)) as Hloc.
    { unfold located. rewrite Hadd. by destruct ret as [| [] |]. }
    destruct (add_location_to_photo_effect_on _ _ _ _ _ _ _ _ Hadd) as (Hret & Hon & Hdry).
    destruct (IH (acc + ret)) as [IHe IHn].
    destruct (sum_add_location photos self delta dry_run album photolib (acc + ret))
      as [effects' r]. cbn in *. split.
    + intros me [(e & -> & He)%list_elem_of_fmap | Hme]%elem_of_app.
      * exists e, photo. split; [done |]. split; [by left |]. split.
        -- by eapply list.Forall_forall in Hon.
        -- intros Hd. specialize (Hdry Hd). by eapply list.Forall_forall in Hdry.
      * destruct (IHe me Hme) as (e & photo' & -> & Hin & He).
        exists e, photo'. split; [done |]. split; [by right | done].
    + intros n Hn. rewrite (IHn n Hn).
      rewrite Hloc. destruct Hret as [-> | ->]; [by case_decide; [| lia] |].
      case_decide as Hd; [cbn; lia | by destruct Hd].
Qed.

(** X22: on a history file without records [main] raises [IndexError]:
    the index is built and its length of 0 echoed, then the first record
    is asked for.  The photo library is not opened. *)
Theorem main_empty_history (filename : string) (location_data : json_file)
    (self : LocationHistory) (delta : Z) (dry_run : bool) (add_to_album : option string)
    (photosdb : PhotosDB) (photolib : PhotoInfo → photoslibrary) :
  __init__ filename location_data = Ok self → __len__ self = 0%nat →
  main filename location_data delta dry_run add_to_album photosdb photolib
  = ([echo_version "0.01"; echo_loading_history filename; echo_loaded_records 0],
     Raise IndexError).
Proof.
  intros Hinit Hlen. unfold main. rewrite Hinit, Hlen.
  unfold __len__ in Hlen. apply length_zero_iff_nil in Hlen. by rewrite Hlen.
Qed.

Lemma main_empty_history_witness :
  __init__ "history.json" {| locations := Some [] |}
    = Ok (index_of "history.json" {| locations := Some [] |}) ∧
  __len__ (index_of "history.json" {| locations := Some [] |}) = 0%nat ∧
  main "history.json" {| locations := Some [] |} 60 false None
    {| db_len := 1; db_photos := [library_photo 1990000 false] |} (λ _, library_updates)
  = ([echo_version "0.01"; echo_loading_history "history.json"; echo_loaded_records 0],
     Raise IndexError).
Proof.
  split; [reflexivity |]. split; [reflexivity |].
  exact (main_empty_history "history.json" {| locations := Some [] |}
           (index_of "history.json" {| locations := Some [] |}) 60 false None
           {| db_len := 1; db_photos := [library_photo 1990000 false] |}
           (λ _, library_updates) eq_refl eq_refl).
Defined.

Lemma main_of_photo (filename : string) (location_data : json_file)
    (delta : Z) (dry_run : bool) (add_to_album : option string) (photosdb : PhotosDB)
    (photolib : PhotoInfo → photoslibrary) (e : effect) :
  of_photo e
    ∈ fst (main filename location_data delta dry_run add_to_album photosdb photolib) →
  ∃ photo, photo ∈ db_photos photosdb ∧ no_location photo = true ∧
           shared photo = false ∧ effect_on (info photo) e ∧
           (dry_run = true → ∃ d lat lon, e = echo_found (info photo) d lat lon).
Proof.
  unfold main.
  destruct (__init__ filename location_data) as [self |]; cbn;
    [| by intros [[=] | [[=] | ?%elem_of_nil]%elem_of_cons]%elem_of_cons].
  destruct (Py.getitem (location_history self) 0) as [earliest |]; cbn;
    [| by intros [[=] | [[=] | [[=] | ?%elem_of_nil]%elem_of_cons]%elem_of_cons]%elem_of_cons].
  set (photos := filter _ (db_photos photosdb)).
  set (album := add_to_album ≫= _).
  destruct (sum_add_location_spec photos self delta dry_run album photolib 0) as [Hspec _].
  destruct (sum_add_location photos self delta dry_run album photolib 0) as [effects r].
  cbn in Hspec. intros H.
  assert (of_photo e ∈ effects) as (e' & photo & [= <-] & Hp & Hon & Hdry)%Hspec.
  { clear Hspec. destruct album, r; cbn in H;
      repeat first [ apply elem_of_cons in H as [[=] | H]
                   | apply elem_of_app in H as [H | H]
                   | by apply elem_of_nil in H ]; done. }
  apply list_elem_of_filter in Hp as [Hcand Hp].
  exists photo. apply andb_prop_elim in Hcand as [Hloc Hsh].
  split; [done |]. split; [by apply Is_true_true |].
  split; [apply negb_prop_elim in Hsh; by destruct (shared photo) | done].
Qed.

Lemma add_location_to_photo_total (filename : string) (location_data : json_file)
    (self : LocationHistory) (photo : PhotoInfo) (T : Z) (dry_run : bool)
    (album : option string) (photolib : photoslibrary) :
  __init__ filename location_data = Ok self → __len__ self ≠ 0%nat →
  datetime_range (date_msec photo) →
  ∃ ret effects, add_location_to_photo photo self T dry_run album photolib = Ok (ret, effects).
Proof.
  intros Hinit Hlen Hq.
  destruct (nearest_location_Ok _ _ _ _ Hinit Hlen Hq) as (t & r & d & _ & _ & Hr & Hd).
  unfold add_location_to_photo. rewrite Hr. cbn. rewrite Hd. cbn.
  destruct (_ >=? T); [by eexists _, _ |].
  destruct dry_run; [by eexists _, _ |]. destruct photolib, album; by eexists _, _.
Qed.

Lemma sum_add_location_total (filename : string) (location_data : json_file)
    (self : LocationHistory) (photos : list LibraryPhoto) (delta : Z) (dry_run : bool)
    (album : option string) (photolib : PhotoInfo → photoslibrary) (acc : Z) :
  __init__ filename location_data = Ok self → __len__ self ≠ 0%nat →
  Forall (λ photo, datetime_range (date_msec (info photo))) photos →
  ∃ n, snd (sum_add_location photos self delta dry_run album photolib acc) = Ok n.
Proof.
  intros Hinit Hlen Hall. revert acc.
  induction Hall as [| photo photos Hq _ IH]; intros acc; cbn [sum_add_location].
  - by eexists.
  - destruct (add_location_to_photo_total _ _ _ (info photo) delta dry_run album
                (photolib (info photo)) Hinit Hlen Hq) as (ret & effects & ->).
    destruct (IH (acc + ret)) as [n Hn].
    destruct (sum_add_location photos self delta dry_run album photolib (acc + ret)).
    by exists n.
Qed.

Lemma sum_add_location_of_photo (photos : list LibraryPhoto) (self : LocationHistory)
    (delta : Z) (dry_run : bool) (album : option string)
    (photolib : PhotoInfo → photoslibrary) (acc : Z) :
  ∃ effects,
    fst (sum_add_location photos self delta dry_run album photolib acc)
    = of_photo <$> effects.
Proof.
  revert acc. induction photos as [| photo photos IH]; intros acc; cbn [sum_add_location].
  - by exists [].
  - destruct (add_location_to_photo (info photo) self delta dry_run album
                (photolib (info photo))) as [[ret effects] | e]; [| by exists []].
    destruct (IH (acc + ret)) as [effects' Heff].
    destruct (sum_add_location photos self delta dry_run album photolib (acc + ret)).
    cbn in *. exists (effects ++ effects'). by rewrite fmap_app, Heff.
Qed.

(** X23: [main] touches no photo but those that have no location and
    are not shared: every effect of [add_location_to_photo] in a run of
    [main] is one on such a photo of the library. *)
Theorem main_touches_candidates_only (filename : string) (location_data : json_file)
    (delta : Z) (dry_run : bool) (add_to_album : option string) (photosdb : PhotosDB)
    (photolib : PhotoInfo → photoslibrary) (e : effect) :
  of_photo e
    ∈ fst (main filename location_data delta dry_run add_to_album photosdb photolib) →
  ∃ photo, photo ∈ db_photos photosdb ∧ no_location photo = true ∧
           shared photo = false ∧ effect_on (info photo) e.
Proof.
  intros (photo & H1 & H2 & H3 & H4 & _)%main_of_photo. by exists photo.
Qed.

(** X24: with [--dry-run], [main] sets no location and adds no photo to
    an album: its only effects on photos are the reports of the record
    found. *)
Theorem main_dry_run_reports_only (filename : string) (location_data : json_file)
    (delta : Z) (add_to_album : option string) (photosdb : PhotosDB)
    (photolib : PhotoInfo → photoslibrary) (e : effect) :
  of_photo e
    ∈ fst (main filename location_data delta true add_to_album photosdb photolib) →
  ∃ photo d lat lon, photo ∈ db_photos photosdb ∧ e = echo_found (info photo) d lat lon.
Proof.
  intros (photo & H1 & _ & _ & _ & Hdry)%main_of_photo.
  destruct (Hdry eq_refl) as (d & lat & lon & ->). by exists photo, d, lat, lon.
Qed.

(** X25: on a non-empty index, with every photo taken within the range
    of [datetime], [main] completes.  Its output is, in this order: the
    version, the records loaded with the earliest and the latest, the
    size of the library, the album opened if one is named, the number of
    photos to check, what [add_location_to_photo] does for them, and the
    number of photos located, which is the number of photos without
    location and not shared for which [add_location_to_photo] returned 1,
    with the noun ["photo"] for 1 and ["photos"] otherwise. *)
Theorem main_reports_count (filename : string) (location_data : json_file)
    (self : LocationHistory) (delta : Z) (dry_run : bool)
    (add_to_album : option string) (photosdb : PhotosDB)
    (photolib : PhotoInfo → photoslibrary) :
  __init__ filename location_data = Ok self → __len__ self ≠ 0%nat →
  Forall (λ photo, datetime_range (date_msec (info photo))) (db_photos photosdb) →
  ∃ earliest latest effects,
    location_history self !! 0%nat = Some earliest ∧
    last (location_history self) = Some latest ∧
    main filename location_data delta dry_run add_to_album photosdb photolib
    = ([echo_version "0.01"; echo_loading_history filename;
        echo_loaded_records (__len__ self); echo_earliest earliest; echo_latest latest;
        echo_loading_library; echo_loaded_photos (db_len photosdb)]
       ++ match album_of add_to_album with Some a => [open_album a] | None => [] end
       ++ [echo_checking (length (candidates photosdb))]
       ++ (of_photo <$> effects)
       ++ [echo_added_total (added_to self delta dry_run add_to_album photosdb photolib)
             (if added_to self delta dry_run add_to_album photosdb photolib =? 1
              then "photo" else "photos")]
       ++ match album_of add_to_album with Some a => [echo_album_name a] | None => [] end,
       Ok ()) ∧
    0 ≤ added_to self delta dry_run add_to_album photosdb photolib
      ≤ Z.of_nat (length (candidates photosdb)).
Proof.
  intros Hinit Hlen Hall. unfold main. rewrite Hinit.
  destruct (location_history self) as [| earliest l] eqn:Hl;
    [unfold __len__ in Hlen; by rewrite Hl in Hlen |].
  destruct (last (earliest :: l)) as [latest |] eqn:Hlast;
    [| by apply last_None in Hlast].
  cbn [Py.getitem]. fold (candidates photosdb). fold (album_of add_to_album).
  assert (Forall (λ photo, datetime_range (date_msec (info photo))) (candidates photosdb))
    as Hall'.
  { apply list.Forall_forall. intros photo [_ Hp]%list_elem_of_filter.
    by eapply list.Forall_forall in Hall. }
  destruct (sum_add_location_total _ _ _ (candidates photosdb) delta dry_run
              (album_of add_to_album) photolib 0 Hinit Hlen Hall') as [n Hn].
  destruct (sum_add_location_spec (candidates photosdb) self delta dry_run
              (album_of add_to_album) photolib 0) as [_ Hspec].
  specialize (Hspec n Hn).
  destruct (sum_add_location_of_photo (candidates photosdb) self delta dry_run
              (album_of add_to_album) photolib 0) as [effects Heff].
  destruct (sum_add_location (candidates photosdb) self delta dry_run
              (album_of add_to_album) photolib 0) as [effects' r].
  cbn in Hn, Heff. subst r effects'.
  fold (added_to self delta dry_run add_to_album photosdb photolib) in Hspec.
  rewrite Z.add_0_l in Hspec. subst n.
  exists earliest, latest, effects. split; [done |]. split; [done |].
  split; [cbn; by rewrite <- !app_assoc |].
  unfold added_to. split; [lia |]. apply inj_le, length_filter.
Qed.

Lemma main_touches_candidates_only_witness :
  of_photo (album_add "Located" "6FD38366-3BF2-407D-81FE-7153EB6125B6")
    ∈ fst (main "history.json" three_records 120 false (Some "Located") small_library
             (λ _, library_updates)) ∧
  ∃ photo, photo ∈ db_photos small_library ∧ no_location photo = true ∧
           shared photo = false ∧
           effect_on (info photo)
             (album_add "Located" "6FD38366-3BF2-407D-81FE-7153EB6125B6").
Proof.
  assert (of_photo (album_add "Located" "6FD38366-3BF2-407D-81FE-7153EB6125B6")
            ∈ fst (main "history.json" three_records 120 false (Some "Located")
                     small_library (λ _, library_updates))) as H
    by (vm_compute; repeat constructor).
  split; [exact H |].
  exact (main_touches_candidates_only "history.json" three_records 120 false
           (Some "Located") small_library (λ _, library_updates)
           (album_add "Located" "6FD38366-3BF2-407D-81FE-7153EB6125B6") H).
Defined.

Lemma main_dry_run_reports_only_witness :
  of_photo (echo_found (photo_at 1900000) 100
              (Some (S754_finite false 6192449487634432 (-49)))
              (Some (S754_finite false 5910974510923776 (-48))))
    ∈ fst (main "history.json" three_records 120 true (Some "Located") small_library
             (λ _, library_updates)) ∧
  ∃ photo d lat lon,
    photo ∈ db_photos small_library ∧
    echo_found (photo_at 1900000) 100
      (Some (S754_finite false 6192449487634432 (-49)))
      (Some (S754_finite false 5910974510923776 (-48)))
    = echo_found (info photo) d lat lon.
Proof.
  assert (of_photo (echo_found (photo_at 1900000) 100
                      (Some (S754_finite false 6192449487634432 (-49)))
                      (Some (S754_finite false 5910974510923776 (-48))))
            ∈ fst (main "history.json" three_records 120 true (Some "Located")
                     small_library (λ _, library_updates))) as H
    by (vm_compute; repeat constructor).
  split; [exact H |].
  exact (main_dry_run_reports_only "history.json" three_records 120 (Some "Located")
           small_library (λ _, library_updates) _ H).
Defined.

Lemma main_reports_count_witness :
  __init__ "history.json" three_records = Ok (index_of "history.json" three_records) ∧
  __len__ (index_of "history.json" three_records) ≠ 0%nat ∧
  Forall (λ photo, datetime_range (date_msec (info photo))) (db_photos small_library) ∧
  added_to (index_of "history.json" three_records) 120 false (Some "Located")
    small_library (λ _, library_updates) = 2 ∧
  ∃ earliest latest effects,
    location_history (index_of "history.json" three_records) !! 0%nat = Some earliest ∧
    last (location_history (index_of "history.json" three_records)) = Some latest ∧
    main "history.json" three_records 120 false (Some "Located") small_library
      (λ _, library_updates)
    = ([echo_version "0.01"; echo_loading_history "history.json";
        echo_loaded_records (__len__ (index_of "history.json" three_records));
        echo_earliest earliest; echo_latest latest;
        echo_loading_library; echo_loaded_photos (db_len small_library)]
       ++ match album_of (Some "Located") with Some a => [open_album a] | None => [] end
       ++ [echo_checking (length (candidates small_library))]
       ++ (of_photo <$> effects)
       ++ [echo_added_total
             (added_to (index_of "history.json" three_records) 120 false (Some "Located")
                small_library (λ _, library_updates))
             (if added_to (index_of "history.json" three_records) 120 false
                   (Some "Located") small_library (λ _, library_updates) =? 1
              then "photo" else "photos")]
       ++ match album_of (Some "Located") with Some a => [echo_album_name a] | None => [] end,
       Ok ()) ∧
    0 ≤ added_to (index_of "history.json" three_records) 120 false (Some "Located")
          small_library (λ _, library_updates)
      ≤ Z.of_nat (length (candidates small_library)).
Proof.
  assert (__len__ (index_of "history.json" three_records) ≠ 0%nat) as Hlen by done.
  assert (Forall (λ photo, datetime_range (date_msec (info photo)))
            (db_photos small_library)) as Hall
    by (repeat constructor; by vm_compute).
  split; [reflexivity |]. split; [exact Hlen |]. split; [exact Hall |].
  split; [by vm_compute |].
  exact (main_reports_count "history.json" three_records
           (index_of "history.json" three_records) 120 false (Some "Located")
           small_library (λ _, library_updates) eq_refl Hlen Hall).
Defined.
